(** * SENTINEL Cortex: ledger, simulation engine and analytics

    A shallow embedding of [cortex/gym/exchange_mock.py],
    [cortex/gym/environment.py] and [cortex/metrics.py], of the simulation
    loop of [cortex/backtester.py] and of the agents of [cortex/agents] and
    [cortex/strategies] that decide without a language model.

    Numbers.  Python's [float] is modelled by the exact rationals [Q]: every
    arithmetic identity below is the one the code computes before rounding, and
    equality of amounts is [Qeq] ([==]).  Where the code can produce an
    infinity (float("inf") in the profit factor, the numpy divisions of the
    drawdown and of the returns column) the extended type [xfloat] is used.
    The division of [ExchangeMock.buy] and that of the score rule are
    modelled as divisions of Python floats: by zero they raise
    [ZeroDivisionError].  That is what a call of the ledger with a Python
    float does.  The engine hands the ledger the close it reads from the
    data, a numpy float, and for such a price a BUY at an execution price of
    exactly zero (a zero close, or a slippage of -1) does not raise in the
    code: it fills an infinite quantity.  The model raises there as well;
    the statements about the engine that need a BUY to return assume
    positive closes and a slippage that is not negative, and the others
    hold on either path.

    Effects.  Every method takes the object and returns the object after the
    call together with an [outcome]: the value returned or the exception
    raised.  A method that raises keeps whatever it had already written.
    [datetime.now()] is the explicit argument [now]. *)

From Stdlib Require Import QArith Qminmax Qabs Lqa ZArith Lia.
From stdpp Require Import base option list strings gmap fin_maps.

Open Scope Q_scope.

(** ** Comparisons of floats as booleans *)

Definition Qltb (x y : Q) : bool := negb (Qle_bool y x).
Definition Qleb (x y : Q) : bool := Qle_bool x y.

Declare Scope pyfloat_scope.
Infix "<?" := Qltb (at level 70) : pyfloat_scope.
Infix "<=?" := Qleb (at level 70) : pyfloat_scope.
Infix "=?" := Qeq_bool (at level 70) : pyfloat_scope.
Open Scope pyfloat_scope.

(** Amounts written as decimal literals in the source. *)
Definition cent : Q := 1 # 100.              (* 0.01  *)
Definition dust : Q := 1 # 10000000000.      (* 1e-10 *)

(** ** Exceptions and outcomes *)

Inductive exn : Type :=
  | RuntimeError (msg : string)
  | IndexError
  | ZeroDivisionError.

Inductive outcome (A : Type) : Type :=
  | Return (a : A)
  | Raise (e : exn).
Arguments Return {A} a.
Arguments Raise {A} e.

(** Timestamps are opaque to the ledger; an instant is a number. *)
Definition datetime : Type := Z.

(** ** exchange_mock.py *)

Module Fill.
Record t : Type := mk {
  timestamp : datetime;
  symbol : string;
  side : string;
  quantity : Q;
  price : Q;
  fee : Q;
  total_cost : Q
}.
End Fill.

Module Position.
Record t : Type := mk {
  symbol : string;
  quantity : Q;
  avg_entry_price : Q;
  total_invested : Q
}.

(** [Position(symbol=symbol)]: the dataclass defaults. *)
Definition new (symbol : string) : t := mk symbol 0 0 0.

Definition is_open (self : t) : bool := dust <? quantity self.

Definition value_at (self : t) (current_price : Q) : Q :=
  quantity self * current_price.

Definition unrealized_pnl (self : t) (current_price : Q) : Q :=
  if negb (is_open self) then 0
  else (current_price - avg_entry_price self) * quantity self.
End Position.

Module ExchangeMock.
Record t : Type := mk {
  initial_capital : Q;
  fee_rate : Q;
  slippage : Q;
  cash : Q;
  positions : gmap string Position.t;
  trade_history : list Fill.t;
  realized_pnl : Q
}.

(** [__init__] *)
Definition init (initial_capital fee_rate slippage : Q) : t :=
  mk initial_capital fee_rate slippage initial_capital ∅ [] 0.

Definition reset (self : t) : t :=
  mk (initial_capital self) (fee_rate self) (slippage self)
     (initial_capital self) ∅ [] 0.

Definition buy (now : datetime) (self : t) (symbol : string)
    (usd_amount market_price : Q) (timestamp : option datetime)
    : t * outcome (option Fill.t) :=
  if usd_amount <=? 0 then (self, Return None) else
  let usd_amount := Qmin usd_amount (cash self) in
  if usd_amount <? cent then (self, Return None) else
  let execution_price := market_price * (1 + slippage self) in
  let fee := usd_amount * fee_rate self in
  let effective_usd := usd_amount - fee in
  if execution_price =? 0 then (self, Raise ZeroDivisionError) else
  let quantity := effective_usd / execution_price in
  let cash' := cash self - usd_amount in
  let pos := default (Position.new symbol) (positions self !! symbol) in
  let total_qty := Position.quantity pos + quantity in
  let avg_entry_price' :=
    if 0 <? total_qty then
      (Position.avg_entry_price pos * Position.quantity pos
       + execution_price * quantity) / total_qty
    else Position.avg_entry_price pos in
  let pos' := Position.mk (Position.symbol pos) total_qty avg_entry_price'
                (Position.total_invested pos + effective_usd) in
  let fill := Fill.mk (default now timestamp) symbol "BUY"
                quantity execution_price fee usd_amount in
  (mk (initial_capital self) (fee_rate self) (slippage self) cash'
      (<[symbol := pos']> (positions self))
      (trade_history self ++ [fill]) (realized_pnl self),
   Return (Some fill)).

Definition sell (now : datetime) (self : t) (symbol : string)
    (quantity : option Q) (market_price : Q) (timestamp : option datetime)
    : t * outcome (option Fill.t) :=
  match positions self !! symbol with
  | None => (self, Return None)
  | Some pos =>
    if negb (Position.is_open pos) then (self, Return None) else
    let quantity := default (Position.quantity pos) quantity in
    let quantity := Qmin quantity (Position.quantity pos) in
    if quantity <? dust then (self, Return None) else
    let execution_price := market_price * (1 - slippage self) in
    let gross_value := quantity * execution_price in
    let fee := gross_value * fee_rate self in
    let net_value := gross_value - fee in
    let cost_basis := Position.avg_entry_price pos * quantity in
    let trade_pnl := net_value - cost_basis in
    let remaining := Position.quantity pos - quantity in
    let pos' :=
      if remaining <? dust then Position.mk (Position.symbol pos) 0 0 0
      else Position.mk (Position.symbol pos) remaining
             (Position.avg_entry_price pos) (Position.total_invested pos) in
    let fill := Fill.mk (default now timestamp) symbol "SELL"
                  quantity execution_price fee net_value in
    (mk (initial_capital self) (fee_rate self) (slippage self)
        (cash self + net_value)
        (<[symbol := pos']> (positions self))
        (trade_history self ++ [fill]) (realized_pnl self + trade_pnl),
     Return (Some fill))
  end.

(** The loop over [self.positions.items()]; the sum does not depend on the
    order of the items up to [==]. *)
Definition get_portfolio_value (self : t) (current_prices : gmap string Q) : Q :=
  map_fold (fun symbol pos total =>
              if Position.is_open pos then
                match current_prices !! symbol with
                | Some p => total + Position.value_at pos p
                | None => total
                end
              else total)
           (cash self) (positions self).
End ExchangeMock.

(** ** environment.py *)

(** A float that may have overflowed to an infinity (numpy arithmetic does not
    raise on a division by zero).  A NaN never survives in the modelled code:
    the only place that can make one fills it with 0. *)
Inductive xfloat : Type :=
  | Finite (q : Q)
  | PosInf
  | NegInf.

Module Row.
(** One row of the DataFrame.  [sentiment_score] is [None] when the column
    is absent, which is the case [row.get("sentiment_score", 0.0)] guards. *)
Record t : Type := mk {
  timestamp : datetime;
  open : Q;
  high : Q;
  low : Q;
  close : Q;
  volume : Q;
  sentiment_score : option Q
}.
End Row.

(** [df.iloc[i]] for an integer [i]: negative positions count from the end,
    anything out of range is an [IndexError] (here [None]). *)
Definition iloc {A : Type} (df : list A) (i : Z) : option A :=
  let n := Z.of_nat (length df) in
  if (0 <=? i)%Z then df !! Z.to_nat i
  else if (- n <=? i)%Z then df !! Z.to_nat (n + i)
  else None.

(** [df.iloc[start:stop]]: Python slice positions are clipped, never raise. *)
Definition slice_index (n i : Z) : Z :=
  if (i <? 0)%Z then Z.max 0 (n + i) else Z.min i n.

Definition iloc_slice {A : Type} (df : list A) (start stop : Z) : list A :=
  let n := Z.of_nat (length df) in
  let a := slice_index n start in
  let b := slice_index n stop in
  take (Z.to_nat (b - a)) (drop (Z.to_nat a) df).

(** [close.pct_change().fillna(0)]: [close[i] / close[i-1] - 1], the first
    entry and every 0/0 being NaN and so filled with 0. *)
Definition pct_change_one (prev cur : Q) : xfloat :=
  if prev =? 0 then
    (if 0 <? cur then PosInf else if cur <? 0 then NegInf else Finite 0)
  else Finite (cur / prev - 1).

Fixpoint pct_change_from (prev : Q) (l : list Q) : list xfloat :=
  match l with
  | [] => []
  | x :: l' => pct_change_one prev x :: pct_change_from x l'
  end.

Definition pct_change (l : list Q) : list xfloat :=
  match l with
  | [] => []
  | x :: l' => Finite 0 :: pct_change_from x l'
  end.

Definition HOLD : Z := 0.
Definition BUY : Z := 1.
Definition SELL : Z := 2.

(** [ACTION_NAMES.get(action, "UNKNOWN")] *)
Definition action_name (action : Z) : string :=
  if (action =? HOLD)%Z then "HOLD"
  else if (action =? BUY)%Z then "BUY"
  else if (action =? SELL)%Z then "SELL"
  else "UNKNOWN".

Module StepRecord.
Record t : Type := mk {
  timestamp : datetime;
  action : string;
  price : Q;
  portfolio_value : Q;
  cash : Q;
  position_qty : Q;
  reward : Q;
  score : Q;
  hold_penalty : Q;
  sentiment : Q
}.
End StepRecord.

Module Observation.
Record t : Type := mk {
  prices : list (Q * Q * Q * Q * Q);
  returns : list xfloat;
  current_price : Q;
  position : Q;
  portfolio_value : Q;
  cash : Q;
  sentiment : Q;
  score : Q;
  timestamp : datetime;
  step : Z
}.
End Observation.

Module Info.
Record t : Type := mk {
  fill : option Fill.t;
  portfolio_value : Q;
  score : Q;
  hold_penalty : Q;
  total_hold_penalty : Q;
  step : Z;
  total_steps : Z
}.
End Info.

Module TradingEnvironment.
Record t : Type := mk {
  data : list Row.t;
  initial_capital : Q;
  risk_per_trade_pct : Q;
  window_size : Z;
  symbol : string;
  hold_penalty_rate : Q;
  exchange : ExchangeMock.t;
  current_step : Z;
  done : bool;
  equity_curve : list Q;
  trade_pnls : list Q;
  step_log : list StepRecord.t;
  score : Q;
  score_history : list Q;
  total_hold_penalty : Q
}.

(** [__init__]; the column [data["returns"]] is [returns_column]. *)
Definition init (data : list Row.t)
    (initial_capital fee_rate slippage risk_per_trade_pct : Q)
    (window_size : Z) (symbol : string) (hold_penalty_rate : Q) : t :=
  mk data initial_capital risk_per_trade_pct window_size symbol
     hold_penalty_rate
     (ExchangeMock.init initial_capital fee_rate slippage)
     0%Z false [] [] [] 1000 [] 0.

Definition returns_column (self : t) : list xfloat :=
  pct_change (map Row.close (data self)).

Definition total_steps (self : t) : Z := Z.of_nat (length (data self)).

(** [self.exchange.positions[self.symbol].quantity if ... else 0.0] *)
Definition position_qty (self : t) : Q :=
  match ExchangeMock.positions (exchange self) !! symbol self with
  | Some pos => Position.quantity pos
  | None => 0
  end.

Definition _get_observation (self : t) : outcome Observation.t :=
  let idx := current_step self in
  let start := Z.max 0 (idx - window_size self) in
  let window := iloc_slice (data self) start idx in
  let prices :=
    map (fun r => (Row.open r, Row.high r, Row.low r, Row.close r,
                   Row.volume r)) window in
  let returns := iloc_slice (returns_column self) start idx in
  let pos_qty := position_qty self in
  match iloc (data self) idx with
  | None => Raise IndexError
  | Some row =>
    let current_price := Row.close row in
    let portfolio_value :=
      ExchangeMock.get_portfolio_value (exchange self)
        {[symbol self := current_price]} in
    let sentiment := default 0 (Row.sentiment_score row) in
    Return (Observation.mk prices returns current_price pos_qty
              portfolio_value (ExchangeMock.cash (exchange self)) sentiment
              (score self) (Row.timestamp row) idx)
  end.

Definition reset (self : t) : t * outcome Observation.t :=
  let self' :=
    mk (data self) (initial_capital self) (risk_per_trade_pct self)
       (window_size self) (symbol self) (hold_penalty_rate self)
       (ExchangeMock.reset (exchange self))
       (window_size self) false [] [] [] 1000 [] 0 in
  (self', _get_observation self').

(** Field writes used by [step]. *)
Definition set_exchange (self : t) (ex : ExchangeMock.t) : t :=
  mk (data self) (initial_capital self) (risk_per_trade_pct self)
     (window_size self) (symbol self) (hold_penalty_rate self) ex
     (current_step self) (done self) (equity_curve self) (trade_pnls self)
     (step_log self) (score self) (score_history self)
     (total_hold_penalty self).

Definition set_cash (ex : ExchangeMock.t) (c : Q) : ExchangeMock.t :=
  ExchangeMock.mk (ExchangeMock.initial_capital ex) (ExchangeMock.fee_rate ex)
    (ExchangeMock.slippage ex) c (ExchangeMock.positions ex)
    (ExchangeMock.trade_history ex) (ExchangeMock.realized_pnl ex).

Definition set_total_hold_penalty (self : t) (p : Q) : t :=
  mk (data self) (initial_capital self) (risk_per_trade_pct self)
     (window_size self) (symbol self) (hold_penalty_rate self)
     (exchange self) (current_step self) (done self) (equity_curve self)
     (trade_pnls self) (step_log self) (score self) (score_history self) p.

Definition set_trade_pnls (self : t) (l : list Q) : t :=
  mk (data self) (initial_capital self) (risk_per_trade_pct self)
     (window_size self) (symbol self) (hold_penalty_rate self)
     (exchange self) (current_step self) (done self) (equity_curve self)
     l (step_log self) (score self) (score_history self)
     (total_hold_penalty self).

Definition set_equity_curve (self : t) (l : list Q) : t :=
  mk (data self) (initial_capital self) (risk_per_trade_pct self)
     (window_size self) (symbol self) (hold_penalty_rate self)
     (exchange self) (current_step self) (done self) l
     (trade_pnls self) (step_log self) (score self) (score_history self)
     (total_hold_penalty self).

Definition set_score (self : t) (s : Q) : t :=
  mk (data self) (initial_capital self) (risk_per_trade_pct self)
     (window_size self) (symbol self) (hold_penalty_rate self)
     (exchange self) (current_step self) (done self) (equity_curve self)
     (trade_pnls self) (step_log self) s (score_history self)
     (total_hold_penalty self).

(** Lines 116-144 of [step]: the action applied to the ledger.  Returns the
    fill and the hold penalty of this step. *)
Definition apply_action (now : datetime) (self : t) (action : Z)
    (price : Q) (timestamp : datetime) (prev_value : Q)
    : t * outcome (option Fill.t * Q) :=
  if (action =? HOLD)%Z then
    let penalty := ExchangeMock.cash (exchange self) * hold_penalty_rate self in
    if cent <? penalty then
      let self1 :=
        set_exchange self
          (set_cash (exchange self)
             (ExchangeMock.cash (exchange self) - penalty)) in
      (set_total_hold_penalty self1 (total_hold_penalty self1 + penalty),
       Return (None, penalty))
    else (self, Return (None, 0))
  else if (action =? BUY)%Z then
    let trade_amount := prev_value * risk_per_trade_pct self in
    match ExchangeMock.buy now (exchange self) (symbol self) trade_amount
            price (Some timestamp) with
    | (ex, Raise e) => (set_exchange self ex, Raise e)
    | (ex, Return fill) => (set_exchange self ex, Return (fill, 0))
    end
  else if (action =? SELL)%Z then
    match ExchangeMock.sell now (exchange self) (symbol self) None price
            (Some timestamp) with
    | (ex, Raise e) => (set_exchange self ex, Raise e)
    | (ex, Return None) => (set_exchange self ex, Return (None, 0))
    | (ex, Return (Some fill)) =>
      let self1 := set_exchange self ex in
      (set_trade_pnls self1
         (trade_pnls self1
          ++ [Fill.total_cost fill - Fill.quantity fill * Fill.price fill]),
       Return (Some fill, 0))
    end
  else (self, Return (None, 0)).

Definition step_result : Type :=
  (option Observation.t * Q * bool * bool * Info.t)%type.

Definition step (now : datetime) (self : t) (action : Z)
    : t * outcome step_result :=
  if done self then
    (self, Raise (RuntimeError "Environment is done. Call reset()."))
  else
  match iloc (data self) (current_step self) with
  | None => (self, Raise IndexError)
  | Some row =>
    let price := Row.close row in
    let timestamp := Row.timestamp row in
    let prev_value :=
      ExchangeMock.get_portfolio_value (exchange self)
        {[symbol self := price]} in
    match apply_action now self action price timestamp prev_value with
    | (self1, Raise e) => (self1, Raise e)
    | (self1, Return (fill, hold_penalty)) =>
      let current_value :=
        ExchangeMock.get_portfolio_value (exchange self1)
          {[symbol self1 := price]} in
      let self2 :=
        set_equity_curve self1 (equity_curve self1 ++ [current_value]) in
      let reward :=
        if 0 <? prev_value then (current_value - prev_value) / prev_value
        else 0 in
      let score1 :=
        if 0 <? reward then score self2 + reward * 100
        else if reward <? 0 then score self2 + reward * 150
        else score self2 in
      if (0 <? hold_penalty) && (initial_capital self2 =? 0) then
        (set_score self2 score1, Raise ZeroDivisionError)
      else
      let score2 :=
        if 0 <? hold_penalty then
          score1 - (hold_penalty / initial_capital self2) * 50
        else score1 in
      let score3 := Qmax 0 (Qmin 1000 score2) in
      let log :=
        StepRecord.mk timestamp (action_name action) price current_value
          (ExchangeMock.cash (exchange self2)) (position_qty self2) reward
          score3 hold_penalty (default 0 (Row.sentiment_score row)) in
      let current_step' := (current_step self2 + 1)%Z in
      let terminated :=
        (Z.of_nat (length (data self2)) - 1 <=? current_step')%Z in
      let self3 :=
        mk (data self2) (initial_capital self2) (risk_per_trade_pct self2)
           (window_size self2) (symbol self2) (hold_penalty_rate self2)
           (exchange self2) current_step' terminated (equity_curve self2)
           (trade_pnls self2) (step_log self2 ++ [log]) score3
           (score_history self2 ++ [score3]) (total_hold_penalty self2) in
      let info :=
        Info.mk fill current_value score3 hold_penalty
          (total_hold_penalty self3) current_step' (total_steps self3) in
      if terminated then
        (self3, Return (None, reward, terminated, false, info))
      else
        match _get_observation self3 with
        | Raise e => (self3, Raise e)
        | Return obs =>
          (self3, Return (Some obs, reward, terminated, false, info))
        end
    end
  end.
End TradingEnvironment.

(** ** metrics.py *)

(** [a > b] on floats that may be infinite. *)
Definition xgtb (a b : xfloat) : bool :=
  match a, b with
  | Finite x, Finite y => y <? x
  | PosInf, PosInf => false
  | PosInf, _ => true
  | _, PosInf => false
  | Finite _, NegInf => true
  | NegInf, _ => false
  end.

(** [a * c] for a finite [c > 0]. *)
Definition xscale (a : xfloat) (c : Q) : xfloat :=
  match a with
  | Finite x => Finite (x * c)
  | PosInf => PosInf
  | NegInf => NegInf
  end.

(** Python's [sum]: starts from 0 and adds from the left. *)
Definition pysum (l : list Q) : Q := fold_left Qplus l 0.

Definition len {A : Type} (l : list A) : Q := inject_Z (Z.of_nat (length l)).

Module TradeStats.
Record t : Type := mk {
  total_trades : nat;
  winning_trades : nat;
  losing_trades : nat;
  win_rate : Q;
  profit_factor : xfloat;
  avg_win : Q;
  avg_loss : Q
}.
End TradeStats.

Module MetricsEngine.
(** The local variables of the loop of [max_drawdown]. *)
Record dd_state : Type := mk_dd {
  peak : Q;
  max_dd : xfloat;
  dd_start : Z;
  max_dd_duration : Z;
  current_dd_start : Z
}.

(** One iteration, at index [i] with value [val].  The division is numpy's:
    with [val < peak = 0] the quotient is +inf. *)
Definition dd_iter (st : dd_state) (i : Z) (val : Q) : dd_state :=
  if peak st <=? val then
    mk_dd val (max_dd st) (dd_start st) (max_dd_duration st) i
  else
    let dd :=
      if peak st =? 0 then PosInf
      else Finite ((peak st - val) / peak st) in
    if xgtb dd (max_dd st) then
      mk_dd (peak st) dd (current_dd_start st) (i - current_dd_start st)
            (current_dd_start st)
    else st.

Fixpoint dd_loop (values : list Q) (i : Z) (st : dd_state) : dd_state :=
  match values with
  | [] => st
  | val :: rest => dd_loop rest (i + 1)%Z (dd_iter st i val)
  end.

Definition max_drawdown (equity_curve : list Q) : xfloat * Z :=
  match equity_curve with
  | [] | [_] => (Finite 0, 0%Z)
  | v0 :: _ =>
    let st := dd_loop equity_curve 0%Z (mk_dd v0 (Finite 0) 0 0 0) in
    (xscale (max_dd st) 100, max_dd_duration st)
  end.

Definition analyze_trades (trade_pnls : list Q) : TradeStats.t :=
  match trade_pnls with
  | [] => TradeStats.mk 0 0 0 0 (Finite 0) 0 0
  | _ =>
    let wins := List.filter (fun p => 0 <? p) trade_pnls in
    let losses := List.filter (fun p => p <=? 0) trade_pnls in
    let gross_profit := match wins with [] => 0 | _ => pysum wins end in
    let gross_loss :=
      match losses with [] => 0 | _ => Qabs (pysum losses) end in
    TradeStats.mk
      (length trade_pnls) (length wins) (length losses)
      (len wins / len trade_pnls * 100)
      (if 0 <? gross_loss then Finite (gross_profit / gross_loss)
       else PosInf)
      (match wins with [] => 0 | _ => pysum wins / len wins end)
      (match losses with [] => 0 | _ => pysum losses / len losses end)
  end.
End MetricsEngine.

(** * Scenarios and specification-side definitions *)

(** Scenario A: a ledger with capital 100, fee 0.1 percent, slippage 0.05
    percent; 50 USD bought at 100, then everything sold at 110. *)
Definition ledger_A : ExchangeMock.t :=
  ExchangeMock.init 100 (1 # 1000) (5 # 10000).

Definition scenario_A_buy : ExchangeMock.t * outcome (option Fill.t) :=
  ExchangeMock.buy 0%Z ledger_A "BTCUSDT" 50 100 None.

Definition scenario_A_sell : ExchangeMock.t * outcome (option Fill.t) :=
  ExchangeMock.sell 0%Z (fst scenario_A_buy) "BTCUSDT" None 110 None.

(** The fill of an outcome, with a zero fill where there is none. *)
Definition no_fill : Fill.t := Fill.mk 0%Z "" "" 0 0 0 0.

Definition fill_of (r : ExchangeMock.t * outcome (option Fill.t)) : Fill.t :=
  match snd r with
  | Return (Some f) => f
  | _ => no_fill
  end.

(** [x] agrees with the decimal [v] to within [tol]. *)
Definition approx (x v tol : Q) : Prop := Qabs (x - v) <= tol.

(** Sequences of ledger calls.  A call that raises leaves the ledger as the
    call left it, so a run is the fold of the calls. *)
Inductive ledger_op : Type :=
  | OpBuy (symbol : string) (usd_amount market_price : Q)
          (timestamp : option datetime)
  | OpSell (symbol : string) (quantity : option Q) (market_price : Q)
           (timestamp : option datetime).

Definition op_price (op : ledger_op) : Q :=
  match op with
  | OpBuy _ _ p _ => p
  | OpSell _ _ p _ => p
  end.

Definition apply_op (now : datetime) (self : ExchangeMock.t) (op : ledger_op)
    : ExchangeMock.t :=
  match op with
  | OpBuy symbol usd_amount market_price timestamp =>
    fst (ExchangeMock.buy now self symbol usd_amount market_price timestamp)
  | OpSell symbol quantity market_price timestamp =>
    fst (ExchangeMock.sell now self symbol quantity market_price timestamp)
  end.

Definition run_ops (now : datetime) (self : ExchangeMock.t)
    (ops : list ledger_op) : ExchangeMock.t :=
  fold_left (apply_op now) ops self.

(** The side of the most recent fill on [symbol] in a trade history. *)
Definition last_fill_side (symbol : string) (history : list Fill.t)
    : option string :=
  Fill.side <$>
    last (List.filter (fun f => String.eqb (Fill.symbol f) symbol) history).

(** A position below the dust threshold is fully reset. *)
Definition dust_reset (pos : Position.t) : Prop :=
  Position.quantity pos < dust ->
  Position.quantity pos == 0 /\ Position.avg_entry_price pos == 0
  /\ Position.total_invested pos == 0.

(** The invariant carried along a run of ledger calls: quantities are
    non-negative, and a position whose latest fill is a SELL obeys
    [dust_reset]. *)
Definition positions_ok (self : ExchangeMock.t) : Prop :=
  forall symbol pos,
    ExchangeMock.positions self !! symbol = Some pos ->
    0 <= Position.quantity pos /\
    (last_fill_side symbol (ExchangeMock.trade_history self) = Some "SELL"
     -> dust_reset pos).

(** One cent bought at a price of 10^9 with the default fee and slippage. *)
Definition dust_buy : ExchangeMock.t * outcome (option Fill.t) :=
  ExchangeMock.buy 0%Z ledger_A "BTCUSDT" (1 # 100) 1000000000 None.

(** A ledger whose fee rate is 200 percent. *)
Definition overcharged_buy : ExchangeMock.t * outcome (option Fill.t) :=
  ExchangeMock.buy 0%Z (ExchangeMock.init 100 2 0) "BTCUSDT" 50 100 None.

(** The ledger invariant as the specification words it: every quantity is
    non-negative and every position below the dust threshold is reset. *)
Definition claimed_positions_invariant (self : ExchangeMock.t) : Prop :=
  forall symbol pos,
    ExchangeMock.positions self !! symbol = Some pos ->
    0 <= Position.quantity pos /\ dust_reset pos.

(** Scenario A as a run of ledger calls, and the closed position it ends in. *)
Definition round_trip_ops : list ledger_op :=
  [OpBuy "BTCUSDT" 50 100 None; OpSell "BTCUSDT" None 110 None].

Definition closed_position : Position.t := Position.mk "BTCUSDT" 0 0 0.

(** Runs of the engine: the actions are applied in order, and a call of
    [step] that raises leaves the engine as the call left it. *)
Definition run_steps (now : datetime) (self : TradingEnvironment.t)
    (actions : list Z) : TradingEnvironment.t :=
  fold_left (fun e a => fst (TradingEnvironment.step now e a)) actions self.

(** The score rule in the words of the specification. *)
Definition clamp (lo hi x : Q) : Q :=
  if x <? lo then lo else if hi <? x then hi else x.

Definition score_update_spec (score reward penalty initial_capital : Q) : Q :=
  let gained :=
    if 0 <? reward then score + reward * 100
    else if reward <? 0 then score + reward * 150
    else score in
  let charged :=
    if 0 <? penalty then gained - (penalty / initial_capital) * 50
    else gained in
  clamp 0 1000 charged.

(** The invalid-state error of [step]. *)
Definition raises_invalid_state {A : Type} (o : outcome A) : bool :=
  match o with
  | Raise (RuntimeError _) => true
  | _ => false
  end.

(** A row whose four prices are all [close]. *)
Definition candle (timestamp : datetime) (close : Q) : Row.t :=
  Row.mk timestamp close close close close 1 None.

(** Four rows closing at 100, 100, 110, 110, and an engine over them that
    commits half of the portfolio on a BUY and looks back one row, so that
    [reset; BUY; SELL] is Scenario A played through the engine. *)
Definition rows_A : list Row.t :=
  [candle 0%Z 100; candle 1%Z 100; candle 2%Z 110; candle 3%Z 110].

Definition env_A : TradingEnvironment.t :=
  TradingEnvironment.init rows_A 100 (1 # 1000) (5 # 10000) (1 # 2) 1%Z
    "BTCUSDT" (5 # 100).

Definition env_A_reset : TradingEnvironment.t :=
  fst (TradingEnvironment.reset env_A).

Definition env_A_terminal : TradingEnvironment.t :=
  run_steps 0%Z env_A_reset [BUY; SELL].

(** What [step] never writes: the data and the configuration of the engine
    and of its ledger. *)
Definition same_config (e e' : TradingEnvironment.t) : Prop :=
  TradingEnvironment.data e' = TradingEnvironment.data e
  /\ TradingEnvironment.initial_capital e'
     = TradingEnvironment.initial_capital e
  /\ TradingEnvironment.risk_per_trade_pct e'
     = TradingEnvironment.risk_per_trade_pct e
  /\ TradingEnvironment.window_size e' = TradingEnvironment.window_size e
  /\ TradingEnvironment.symbol e' = TradingEnvironment.symbol e
  /\ TradingEnvironment.hold_penalty_rate e'
     = TradingEnvironment.hold_penalty_rate e
  /\ ExchangeMock.initial_capital (TradingEnvironment.exchange e')
     = ExchangeMock.initial_capital (TradingEnvironment.exchange e)
  /\ ExchangeMock.fee_rate (TradingEnvironment.exchange e')
     = ExchangeMock.fee_rate (TradingEnvironment.exchange e)
  /\ ExchangeMock.slippage (TradingEnvironment.exchange e')
     = ExchangeMock.slippage (TradingEnvironment.exchange e).

(** The configurations the non-negative cash property is stated for. *)
Definition rates_in_unit_interval (e : TradingEnvironment.t) : Prop :=
  0 <= ExchangeMock.fee_rate (TradingEnvironment.exchange e) <= 1
  /\ 0 <= ExchangeMock.slippage (TradingEnvironment.exchange e) <= 1
  /\ 0 <= TradingEnvironment.hold_penalty_rate e <= 1
  /\ 0 <= TradingEnvironment.risk_per_trade_pct e <= 1
  /\ Forall (fun row => 0 < Row.close row) (TradingEnvironment.data e).

(** An engine without capital has no cash and no position; this is what keeps
    the division by [initial_capital] in the score rule from raising. *)
Definition broke_when_unfunded (e : TradingEnvironment.t) : Prop :=
  TradingEnvironment.initial_capital e == 0 ->
  ExchangeMock.cash (TradingEnvironment.exchange e) == 0
  /\ ExchangeMock.positions (TradingEnvironment.exchange e) = ∅.

(** The two facts carried along a run for the score bound. *)
Definition score_ok (e : TradingEnvironment.t) : Prop :=
  0 <= TradingEnvironment.score e <= 1000 /\ broke_when_unfunded e.

(** An engine built with a negative initial capital. *)
Definition env_indebted : TradingEnvironment.t :=
  TradingEnvironment.init rows_A (-1) (1 # 1000) (5 # 10000) (1 # 10) 1%Z
    "BTCUSDT" (5 # 100).

(** An engine whose ledger fills a BUY below the market price (a negative
    slippage), so that a BUY step has a positive reward. *)
Definition env_rebate : TradingEnvironment.t :=
  TradingEnvironment.init rows_A 100 (1 # 1000) (- (1 # 10)) (1 # 2) 1%Z
    "BTCUSDT" (5 # 100).

(** The invariant of the loop of [max_drawdown] on non-negative values. *)
Definition dd_inv (st : MetricsEngine.dd_state) : Prop :=
  0 <= MetricsEngine.peak st /\
  exists m, MetricsEngine.max_dd st = Finite m /\ 0 <= m <= 1.

(** Scenario C. *)
Definition curve_C : list Q := [100; 120; 90; 110].

(** Trade statistics in the words of the specification: wins are the P&Ls
    above 0, losses the others; counts and sums run over the whole list. *)
Definition is_win (p : Q) : bool := 0 <? p.
Definition is_loss (p : Q) : bool := p <=? 0.

Fixpoint count_where (f : Q -> bool) (l : list Q) : nat :=
  match l with
  | [] => 0%nat
  | p :: l' => if f p then S (count_where f l') else count_where f l'
  end.

Fixpoint sum_where (f : Q -> bool) (l : list Q) : Q :=
  match l with
  | [] => 0
  | p :: l' => if f p then p + sum_where f l' else sum_where f l'
  end.

Definition of_nat (n : nat) : Q := inject_Z (Z.of_nat n).

(** * The rest of the ledger, the engine and the analytics *)

(** [ExchangeMock.get_total_unrealized_pnl] *)
Definition get_total_unrealized_pnl (self : ExchangeMock.t)
    (current_prices : gmap string Q) : Q :=
  map_fold (fun symbol pos total =>
              if Position.is_open pos then
                match current_prices !! symbol with
                | Some p => total + Position.unrealized_pnl pos p
                | None => total
                end
              else total)
           0 (ExchangeMock.positions self).

(** What a fill moved into the cash: a BUY took its total cost out, a SELL
    put its total cost (the net proceeds) in. *)
Definition cash_flow (f : Fill.t) : Q :=
  if String.eqb (Fill.side f) "SELL" then Fill.total_cost f
  else - Fill.total_cost f.

Fixpoint net_cash_flow (history : list Fill.t) : Q :=
  match history with
  | [] => 0
  | f :: rest => cash_flow f + net_cash_flow rest
  end.

(** The market value and the cost basis a position contributes while open. *)
Definition open_value (o : option Position.t) (price : Q) : Q :=
  match o with
  | Some pos =>
    if Position.is_open pos then Position.quantity pos * price else 0
  | None => 0
  end.

Definition open_basis (o : option Position.t) : Q :=
  match o with
  | Some pos =>
    if Position.is_open pos
    then Position.avg_entry_price pos * Position.quantity pos else 0
  | None => 0
  end.

(** The instrument a ledger call is about. *)
Definition op_symbol (op : ledger_op) : string :=
  match op with
  | OpBuy s _ _ _ => s
  | OpSell s _ _ _ => s
  end.

(** Nothing to sell: no position, a position that is not open, or a request
    below the dust threshold. *)
Definition nothing_to_sell (self : ExchangeMock.t) (symbol : string)
    (quantity : option Q) : Prop :=
  match ExchangeMock.positions self !! symbol with
  | None => True
  | Some pos =>
    Position.quantity pos <= dust
    \/ exists r, quantity = Some r /\ r < dust
  end.

(** A ledger in the middle of a run: it holds 0.3 units bought in two lots. *)
Definition ledger_two_lots : ExchangeMock.t :=
  run_ops 0%Z ledger_A
    [OpBuy "BTCUSDT" 20 100 None; OpBuy "BTCUSDT" 10 80 None].

(** The two lots of [ledger_two_lots], one call at a time. *)
Definition ledger_first_lot : ExchangeMock.t :=
  run_ops 0%Z ledger_A [OpBuy "BTCUSDT" 20 100 None].

Definition second_lot : ExchangeMock.t * outcome (option Fill.t) :=
  ExchangeMock.buy 0%Z ledger_first_lot "BTCUSDT" 10 80 None.

(** backtester.py, [run_backtest], lines 176-183: the trade P&Ls handed to
    the analytics are recomputed from the SELL fills of the ledger, and when
    there is none the change of the portfolio value stands in for them. *)
Definition sell_pnls (history : list Fill.t) : list Q :=
  map (fun fill =>
         Fill.total_cost fill - Fill.quantity fill * Fill.price fill)
      (List.filter (fun fill => String.eqb (Fill.side fill) "SELL") history).

Definition collect_trade_pnls (env : TradingEnvironment.t)
    (initial_capital : Q) : list Q :=
  let trade_pnls :=
    sell_pnls (ExchangeMock.trade_history (TradingEnvironment.exchange env)) in
  match trade_pnls, last (TradingEnvironment.equity_curve env) with
  | [], Some final_value => [final_value - initial_capital]
  | _, _ => trade_pnls
  end.

(** The last record of the step log repeats the state the step ended in. *)
Definition log_mirrors_state (e : TradingEnvironment.t) : Prop :=
  match last (TradingEnvironment.step_log e) with
  | None => TradingEnvironment.equity_curve e = []
  | Some record =>
    last (TradingEnvironment.equity_curve e)
      = Some (StepRecord.portfolio_value record)
    /\ StepRecord.cash record
       = ExchangeMock.cash (TradingEnvironment.exchange e)
    /\ StepRecord.position_qty record = TradingEnvironment.position_qty e
    /\ StepRecord.score record = TradingEnvironment.score e
  end.

(** The books of the engine: the three per-step lists advance together with
    the cursor, the recorded trade P&Ls follow the SELL fills, and the cash
    is accounted for by the penalties and the fills. *)
Definition engine_books (e : TradingEnvironment.t) : Prop :=
  length (TradingEnvironment.step_log e)
    = length (TradingEnvironment.equity_curve e)
  /\ length (TradingEnvironment.score_history e)
     = length (TradingEnvironment.equity_curve e)
  /\ TradingEnvironment.current_step e
     = (TradingEnvironment.window_size e
        + Z.of_nat (length (TradingEnvironment.equity_curve e)))%Z
  /\ last (TradingEnvironment.score_history e)
     = match TradingEnvironment.score_history e with
       | [] => None
       | _ => Some (TradingEnvironment.score e)
       end
  /\ log_mirrors_state e
  /\ TradingEnvironment.trade_pnls e
     = sell_pnls (ExchangeMock.trade_history (TradingEnvironment.exchange e))
  /\ 0 <= TradingEnvironment.total_hold_penalty e
  /\ ExchangeMock.cash (TradingEnvironment.exchange e)
     + TradingEnvironment.total_hold_penalty e
     == ExchangeMock.initial_capital (TradingEnvironment.exchange e)
        + net_cash_flow
            (ExchangeMock.trade_history (TradingEnvironment.exchange e)).
(** An engine built from its configuration, reset, and driven through a
    sequence of actions. *)
Definition engine_after (now : datetime) (data : list Row.t)
    (initial_capital fee_rate slippage risk_per_trade_pct : Q)
    (window_size : Z) (symbol : string) (hold_penalty_rate : Q)
    (actions : list Z) : TradingEnvironment.t :=
  run_steps now
    (fst (TradingEnvironment.reset
            (TradingEnvironment.init data initial_capital fee_rate slippage
               risk_per_trade_pct window_size symbol hold_penalty_rate)))
    actions.

(** The number of steps an engine can take: the rows after the lookback
    window, the last row excepted. *)
Definition steps_available (data : list Row.t) (window_size : Z) : nat :=
  Z.to_nat (Z.of_nat (length data) - 1 - window_size).

(** Where an engine stands after [k] calls of [step]. *)
Definition on_schedule (data : list Row.t) (window_size : Z) (slippage : Q)
    (k : nat) (e : TradingEnvironment.t) : Prop :=
  TradingEnvironment.data e = data
  /\ TradingEnvironment.window_size e = window_size
  /\ ExchangeMock.slippage (TradingEnvironment.exchange e) = slippage
  /\ length (TradingEnvironment.equity_curve e)
     = (k `min` steps_available data window_size)%nat
  /\ TradingEnvironment.current_step e
     = (window_size
        + Z.of_nat (k `min` steps_available data window_size))%Z
  /\ TradingEnvironment.done e = (steps_available data window_size <=? k)%nat.

(** An engine over a single row with a lookback of one row. *)
Definition env_short : TradingEnvironment.t :=
  TradingEnvironment.init [candle 0%Z 100] 100 (1 # 1000) (5 # 10000)
    (1 # 2) 1%Z "BTCUSDT" (5 # 100).

(** ** More of metrics.py *)

(** A numpy float: unlike Python's division, numpy's returns an infinity or
    a NaN where the divisor is zero. *)
Inductive npfloat : Type :=
  | NFinite (q : Q)
  | NPosInf
  | NNegInf
  | NNaN.

(** [x / y] on numpy floats with finite operands. *)
Definition np_div (x y : Q) : npfloat :=
  if y =? 0 then
    (if 0 <? x then NPosInf else if x <? 0 then NNegInf else NNaN)
  else NFinite (x / y).

(** [np.diff(values) / values[:-1]], the value before the first one of
    [values] being [prev]. *)
Fixpoint diff_over_prev (prev : Q) (values : list Q) : list npfloat :=
  match values with
  | [] => []
  | v :: rest => np_div (v - prev) prev :: diff_over_prev v rest
  end.

(** [MetricsEngine.calculate_returns] *)
Definition calculate_returns (equity_curve : list Q) : list npfloat :=
  match equity_curve with
  | [] | [_] => [NFinite 0]
  | v0 :: rest => diff_over_prev v0 rest
  end.

(** A trajectory rebuilt from its first value and its step returns. *)
Fixpoint compound (v0 : Q) (returns : list Q) : list Q :=
  match returns with
  | [] => []
  | r :: rest => v0 * (1 + r) :: compound (v0 * (1 + r)) rest
  end.

(** A trajectory that never falls below the value before it. *)
Fixpoint never_falls (prev : Q) (values : list Q) : Prop :=
  match values with
  | [] => True
  | v :: rest => prev <= v /\ never_falls v rest
  end.

(** The sum of a list of amounts. *)
Fixpoint total (l : list Q) : Q :=
  match l with
  | [] => 0
  | x :: rest => x + total rest
  end.

(** ** backtester.py and the agents *)

(** An agent decides on the observation the engine returned: [Some] of an
    observation, or [None] for the empty dict [{}] that [step] returns once
    terminated.  [decide] returns the agent after the call and the action,
    or the exception it raised. *)
Section Backtest.
Context {Agent : Type}.
Variable decide : Agent -> option Observation.t -> Agent * outcome Z.
Variable now : datetime.

(** [run_backtest], lines 158-162: the loop [while not done].  The fuel
    bounds the number of iterations; [None] is a loop still running when
    the fuel is spent.  An exception raised by [decide] or by [step] ends
    the run. *)
Fixpoint backtest_loop (fuel : nat) (agent : Agent)
    (env : TradingEnvironment.t) (observation : option Observation.t)
    : option (outcome (Agent * TradingEnvironment.t)) :=
  match fuel with
  | O => None
  | S fuel' =>
    match decide agent observation with
    | (_, Raise e) => Some (Raise e)
    | (agent', Return action) =>
      match TradingEnvironment.step now env action with
      | (_, Raise e) => Some (Raise e)
      | (env', Return (observation', _, terminated, truncated, _)) =>
        if terminated || truncated then Some (Return (agent', env'))
        else backtest_loop fuel' agent' env' observation'
      end
    end
  end.

(** Lines 154-162: [env.reset()] and the loop. *)
Definition simulate (fuel : nat) (agent : Agent)
    (env : TradingEnvironment.t)
    : option (outcome (Agent * TradingEnvironment.t)) :=
  match TradingEnvironment.reset env with
  | (_, Raise e) => Some (Raise e)
  | (env0, Return observation) =>
    backtest_loop fuel agent env0 (Some observation)
  end.

(** The actions an agent decides on a sequence of observations, up to the
    first exception. *)
Fixpoint decisions (agent : Agent)
    (observations : list (option Observation.t))
    : Agent * outcome (list Z) :=
  match observations with
  | [] => (agent, Return [])
  | o :: rest =>
    match decide agent o with
    | (agent', Raise e) => (agent', Raise e)
    | (agent', Return action) =>
      match decisions agent' rest with
      | (agent'', Return actions) => (agent'', Return (action :: actions))
      | (agent'', Raise e) => (agent'', Raise e)
      end
    end
  end.
End Backtest.

(** buy_hold_agent.py.  [_reasoning] is [None] until [decide] or [reset]
    sets the attribute: [__init__] does not. *)
Module BuyHoldAgent.
Record t : Type := mk {
  name : string;
  _step_count : Z;
  _has_bought : bool;
  _reasoning : option string
}.

Definition init : t := mk "BuyHold" 0%Z false None.

Definition decide (self : t) (observation : option Observation.t)
    : t * outcome Z :=
  let count := (_step_count self + 1)%Z in
  if negb (_has_bought self) then
    (mk (name self) count true (Some "Primer paso: comprar y mantener"),
     Return BUY)
  else
    (mk (name self) count (_has_bought self) (Some "Mantener posición"),
     Return HOLD).

Definition reset (self : t) : t := mk (name self) 0%Z false (Some "").

(** [get_reasoning]; [None] is the [AttributeError] of a missing
    [_reasoning]. *)
Definition get_reasoning (self : t) : option string := _reasoning self.
End BuyHoldAgent.

(** An observation of the engine over [data] with a lookback of
    [window_size] rows: what [_get_observation] returns at a cursor that is
    not before the window. *)
Definition engine_observation (data : list Row.t) (window_size : Z)
    (o : Observation.t) : Prop :=
  exists env,
    TradingEnvironment.data env = data
    /\ TradingEnvironment.window_size env = window_size
    /\ (window_size <= TradingEnvironment.current_step env)%Z
    /\ TradingEnvironment._get_observation env = Return o.

(** ** numpy arrays of floats *)

(** [a[start:]] *)
Definition np_from {A : Type} (a : list A) (start : Z) : list A :=
  drop (Z.to_nat (slice_index (Z.of_nat (length a)) start)) a.

(** [np.diff(a)] *)
Fixpoint np_diff_from (prev : Q) (a : list Q) : list Q :=
  match a with
  | [] => []
  | x :: rest => x - prev :: np_diff_from x rest
  end.

Definition np_diff (a : list Q) : list Q :=
  match a with
  | [] => []
  | x :: rest => np_diff_from x rest
  end.

(** [np.mean(a)]: NaN for an empty array. *)
Definition np_mean (a : list Q) : npfloat :=
  match a with
  | [] => NNaN
  | _ => NFinite (pysum a / len a)
  end.

(** [x < y] and [x <= y] on numpy floats: every comparison with a NaN is
    false. *)
Definition np_ltb (x y : npfloat) : bool :=
  match x, y with
  | NNaN, _ | _, NNaN => false
  | NFinite a, NFinite b => a <? b
  | NNegInf, NNegInf => false
  | NNegInf, _ => true
  | NPosInf, _ => false
  | NFinite _, NPosInf => true
  | NFinite _, NNegInf => false
  end.

Definition np_leb (x y : npfloat) : bool :=
  match x, y with
  | NNaN, _ | _, NNaN => false
  | NFinite a, NFinite b => a <=? b
  | NNegInf, _ => true
  | _, NPosInf => true
  | NPosInf, _ => false
  | NFinite _, NNegInf => false
  end.

(** [x * c] for a finite [c]. *)
Definition np_mul (x : npfloat) (c : Q) : npfloat :=
  match x with
  | NFinite a => NFinite (a * c)
  | NNaN => NNaN
  | NPosInf => if 0 <? c then NPosInf else if c <? 0 then NNegInf else NNaN
  | NNegInf => if 0 <? c then NNegInf else if c <? 0 then NPosInf else NNaN
  end.

(** [c - x] for a finite [c]. *)
Definition np_rsub (c : Q) (x : npfloat) : npfloat :=
  match x with
  | NFinite a => NFinite (c - a)
  | NNaN => NNaN
  | NPosInf => NNegInf
  | NNegInf => NPosInf
  end.

(** [abs(x)] *)
Definition np_abs (x : npfloat) : npfloat :=
  match x with
  | NFinite a => NFinite (Qabs a)
  | NNaN => NNaN
  | NPosInf | NNegInf => NPosInf
  end.

(** [prices[:, 3]] and [prices[:, 4]] of an OHLCV array. *)
Definition closes_of (prices : list (Q * Q * Q * Q * Q)) : list Q :=
  map (fun '(_, _, _, close, _) => close) prices.

Definition volumes_of (prices : list (Q * Q * Q * Q * Q)) : list Q :=
  map (fun '(_, _, _, _, volume) => volume) prices.

(** ** statistical_agent.py *)

Module StatisticalAgent.

(** What the reasoning string reports: the f-strings are kept as the values
    they format. *)
Inductive reason : Type :=
  | SmaAbove (sma_fast sma_slow_val : npfloat)
  | SmaBelow (sma_fast sma_slow_val : npfloat)
  | Oversold (rsi : npfloat)
  | Overbought (rsi : npfloat)
  | Sentiment (sentiment : Q).

Inductive reasoning : Type :=
  | Empty
  | Insufficient
  | Scored (reasons : list reason) (signal_score : Q) (action : Z).

Record t : Type := mk {
  name : string;
  _step_count : Z;
  sma_fast : Z;
  sma_slow : Z;
  rsi_period : Z;
  rsi_oversold : Q;
  rsi_overbought : Q;
  sentiment_weight : Q;
  _reasoning : reasoning
}.

Definition init (sma_fast sma_slow rsi_period : Z)
    (rsi_oversold rsi_overbought sentiment_weight : Q) : t :=
  mk "Statistical" 0%Z sma_fast sma_slow rsi_period rsi_oversold
     rsi_overbought sentiment_weight Empty.

Definition set_reasoning (self : t) (r : reasoning) : t :=
  mk (name self) (_step_count self) (sma_fast self) (sma_slow self)
     (rsi_period self) (rsi_oversold self) (rsi_overbought self)
     (sentiment_weight self) r.

Definition count_step (self : t) : t :=
  mk (name self) (_step_count self + 1)%Z (sma_fast self) (sma_slow self)
     (rsi_period self) (rsi_oversold self) (rsi_overbought self)
     (sentiment_weight self) (_reasoning self).

Definition gains (deltas : list Q) : list Q :=
  map (fun d => if 0 <? d then d else 0) deltas.

Definition losses (deltas : list Q) : list Q :=
  map (fun d => if d <? 0 then - d else 0) deltas.

Definition _calculate_rsi (closes : list Q) (period : Z) : npfloat :=
  if (Z.of_nat (length closes) <? period + 1)%Z then NFinite 50
  else
    let deltas := np_diff (np_from closes (- (period + 1))) in
    match np_mean (gains deltas), np_mean (losses deltas) with
    | NFinite avg_gain, NFinite avg_loss =>
      if avg_loss =? 0 then NFinite 100
      else
        let rs := avg_gain / avg_loss in
        np_rsub 100 (np_div 100 (1 + rs))
    | _, _ => NNaN
    end.

(** The signal score and the reasons behind it. *)
Definition signal (self : t) (sma_fast_val sma_slow_val rsi : npfloat)
    (sentiment : Q) : Q * list reason :=
  let '(score1, reasons1) :=
    if np_ltb sma_slow_val sma_fast_val then
      (0 + (4 # 10), [SmaAbove sma_fast_val sma_slow_val])
    else if np_ltb sma_fast_val sma_slow_val then
      (0 - (4 # 10), [SmaBelow sma_fast_val sma_slow_val])
    else (0, []) in
  let '(score2, reasons2) :=
    if np_ltb rsi (NFinite (rsi_oversold self)) then
      (score1 + (3 # 10), reasons1 ++ [Oversold rsi])
    else if np_ltb (NFinite (rsi_overbought self)) rsi then
      (score1 - (3 # 10), reasons1 ++ [Overbought rsi])
    else (score1, reasons1) in
  if sentiment =? 0 then (score2, reasons2)
  else (score2 + sentiment * sentiment_weight self,
        reasons2 ++ [Sentiment sentiment]).

Definition decide (self : t) (observation : option Observation.t)
    : t * outcome Z :=
  let self := count_step self in
  match observation with
  | None => (set_reasoning self Insufficient, Return HOLD)
  | Some obs =>
    let prices := Observation.prices obs in
    if (Z.of_nat (length prices) <? sma_slow self)%Z then
      (set_reasoning self Insufficient, Return HOLD)
    else
      let closes := closes_of prices in
      let sma_fast_val := np_mean (np_from closes (- sma_fast self)) in
      let sma_slow_val := np_mean (np_from closes (- sma_slow self)) in
      let rsi := _calculate_rsi closes (rsi_period self) in
      let sentiment := Observation.sentiment obs in
      let '(signal_score, reasons) :=
        signal self sma_fast_val sma_slow_val rsi sentiment in
      let has_position := 0 <? Observation.position obs in
      let action :=
        if (3 # 10 <? signal_score) && negb has_position then BUY
        else if (signal_score <? - (3 # 10)) && has_position then SELL
        else HOLD in
      (set_reasoning self (Scored reasons signal_score action), Return action)
  end.

Definition reset (self : t) : t :=
  mk (name self) 0%Z (sma_fast self) (sma_slow self) (rsi_period self)
     (rsi_oversold self) (rsi_overbought self) (sentiment_weight self) Empty.
End StatisticalAgent.

(** ** strategies/swing.py *)

Module SwingStrategy.

(** What the reasoning string reports. *)
Inductive reasoning : Type :=
  | Empty
  | Insufficient
  | StopLoss (pnl_pct stop_loss_pct : Q)
  | TakeProfit (pnl_pct take_profit_pct : Q)
  | Downtrend (current_price : Q) (sma : npfloat)
  | Entry (current_price : Q) (sma : npfloat) (sentiment : Q)
  | Bounce (current_price : Q) (sma : npfloat)
  | Holding (current_price : Q) (sma : npfloat) (sentiment : Q).

Record t : Type := mk {
  name : string;
  _step_count : Z;
  sma_period : Z;
  stop_loss_pct : Q;
  take_profit_pct : Q;
  sentiment_threshold : Q;
  _entry_price : Q;
  _reasoning : reasoning
}.

Definition init (sma_period : Z)
    (stop_loss_pct take_profit_pct sentiment_threshold : Q) : t :=
  mk "Swing" 0%Z sma_period stop_loss_pct take_profit_pct
     sentiment_threshold 0 Empty.

Definition count_step (self : t) : t :=
  mk (name self) (_step_count self + 1)%Z (sma_period self)
     (stop_loss_pct self) (take_profit_pct self) (sentiment_threshold self)
     (_entry_price self) (_reasoning self).

Definition set_reasoning (self : t) (r : reasoning) : t :=
  mk (name self) (_step_count self) (sma_period self) (stop_loss_pct self)
     (take_profit_pct self) (sentiment_threshold self) (_entry_price self) r.

Definition set_entry_price (self : t) (p : Q) : t :=
  mk (name self) (_step_count self) (sma_period self) (stop_loss_pct self)
     (take_profit_pct self) (sentiment_threshold self) p (_reasoning self).

(** Lines 76-94 of [decide]: the search for an entry and the final HOLD. *)
Definition look_for_entry (self : t) (has_position : bool)
    (current_price : Q) (sma : npfloat) (sentiment : Q) : t * outcome Z :=
  let hold :=
    (set_reasoning self (Holding current_price sma sentiment), Return HOLD) in
  if negb has_position then
    if np_ltb sma (NFinite current_price)
       && (sentiment_threshold self <=? sentiment) then
      (set_entry_price
         (set_reasoning self (Entry current_price sma sentiment))
         current_price,
       Return BUY)
    else if np_leb (np_mul sma (98 # 100)) (NFinite current_price)
            && np_leb (NFinite current_price) (np_mul sma (101 # 100))
            && (0 <? sentiment) then
      (set_entry_price (set_reasoning self (Bounce current_price sma))
         current_price,
       Return BUY)
    else hold
  else hold.

Definition decide (self : t) (observation : option Observation.t)
    : t * outcome Z :=
  let self := count_step self in
  match observation with
  | None => (set_reasoning self Insufficient, Return HOLD)
  | Some obs =>
    let prices := Observation.prices obs in
    if (Z.of_nat (length prices) <? sma_period self)%Z then
      (set_reasoning self Insufficient, Return HOLD)
    else
      (* the default [prices[-1, 3]] of [.get] is evaluated first *)
      match iloc prices (-1) with
      | None => (self, Raise IndexError)
      | Some _ =>
        let current_price := Observation.current_price obs in
        let has_position := 0 <? Observation.position obs in
        let sentiment := Observation.sentiment obs in
        let closes := closes_of prices in
        let sma := np_mean (np_from closes (- sma_period self)) in
        if has_position && (0 <? _entry_price self) then
          let pnl_pct :=
            (current_price - _entry_price self) / _entry_price self in
          if pnl_pct <=? - stop_loss_pct self then
            (set_entry_price
               (set_reasoning self (StopLoss pnl_pct (stop_loss_pct self)))
               0,
             Return SELL)
          else if take_profit_pct self <=? pnl_pct then
            (set_entry_price
               (set_reasoning self
                  (TakeProfit pnl_pct (take_profit_pct self)))
               0,
             Return SELL)
          else if np_ltb (NFinite current_price) (np_mul sma (98 # 100)) then
            (set_entry_price
               (set_reasoning self (Downtrend current_price sma)) 0,
             Return SELL)
          else look_for_entry self has_position current_price sma sentiment
        else look_for_entry self has_position current_price sma sentiment
      end
  end.

Definition reset (self : t) : t :=
  mk (name self) 0%Z (sma_period self) (stop_loss_pct self)
     (take_profit_pct self) (sentiment_threshold self) 0 Empty.
End SwingStrategy.

(** Every SELL of a sequence of actions comes after a BUY that no other SELL
    has used; [armed] tells whether such a BUY is pending at the start. *)
Fixpoint sells_follow_buys (armed : bool) (actions : list Z) : Prop :=
  match actions with
  | [] => True
  | action :: rest =>
    if (action =? SELL)%Z then armed = true /\ sells_follow_buys false rest
    else if (action =? BUY)%Z then sells_follow_buys true rest
    else sells_follow_buys armed rest
  end.

(** Two observations over a flat market at 100: the price has risen to 105
    on good news and nothing is held; then 1 unit is held and the price has
    dropped to 90. *)
Definition flat_prices : list (Q * Q * Q * Q * Q) :=
  [(100, 100, 100, 100, 1); (100, 100, 100, 100, 1)].

Definition observation_risen : Observation.t :=
  Observation.mk flat_prices [Finite 0; Finite 0] 105 0 100 100 (1 # 2) 1000
    2%Z 2%Z.

Definition observation_dropped : Observation.t :=
  Observation.mk flat_prices [Finite 0; Finite 0] 90 1 100 0 (1 # 2) 1000
    3%Z 3%Z.

(** ** strategies/contrarian.py *)

Module ContrarianStrategy.

Inductive direction : Type := UP | DOWN.

(** The dict [_detect_spike] returns; the description string is made of the
    first two fields. *)
Record spike_info : Type := mk_info {
  pct_change : npfloat;
  volume_ratio : Q;
  spike_direction : direction
}.

(** What the reasoning string reports. *)
Inductive reasoning : Type :=
  | Empty
  | Insufficient
  | StopLoss (pnl_pct : npfloat)
  | TimeExit (hold_counter : Z) (pnl_pct : npfloat)
  | TakeProfit (pnl_pct : npfloat)
  | Holding (hold_counter max_hold_periods : Z) (pnl_pct : npfloat)
  | NoAnomaly
  | NotManipulation (info : spike_info)
  | Pump (pct_change : npfloat) (sentiment : Q)
  | Dump (pct_change : npfloat) (sentiment : Q).

Record t : Type := mk {
  name : string;
  _step_count : Z;
  price_spike_threshold : Q;
  volume_multiplier : Q;
  sentiment_extreme : Q;
  max_hold_periods : Z;
  stop_loss_pct : Q;
  _entry_price : Q;
  _hold_counter : Z;
  _reasoning : reasoning;
  _position_direction : option string
}.

Definition init (price_spike_threshold volume_multiplier sentiment_extreme : Q)
    (max_hold_periods : Z) (stop_loss_pct : Q) : t :=
  mk "Contrarian" 0%Z price_spike_threshold volume_multiplier
     sentiment_extreme max_hold_periods stop_loss_pct 0 0%Z Empty None.

Definition count_step (self : t) : t :=
  mk (name self) (_step_count self + 1)%Z (price_spike_threshold self)
     (volume_multiplier self) (sentiment_extreme self)
     (max_hold_periods self) (stop_loss_pct self) (_entry_price self)
     (_hold_counter self) (_reasoning self) (_position_direction self).

Definition set_reasoning (self : t) (r : reasoning) : t :=
  mk (name self) (_step_count self) (price_spike_threshold self)
     (volume_multiplier self) (sentiment_extreme self)
     (max_hold_periods self) (stop_loss_pct self) (_entry_price self)
     (_hold_counter self) r (_position_direction self).

Definition set_position (self : t) (entry_price : Q) (hold_counter : Z)
    (position_direction : option string) : t :=
  mk (name self) (_step_count self) (price_spike_threshold self)
     (volume_multiplier self) (sentiment_extreme self)
     (max_hold_periods self) (stop_loss_pct self) entry_price hold_counter
     (_reasoning self) position_direction.

Definition _reset_position (self : t) : t := set_position self 0 0%Z None.

(** [_detect_spike]; [(false, None)] is the [False, {}] of a short series,
    and an empty [volumes] makes [volumes[-1]] raise. *)
Definition _detect_spike (self : t) (closes volumes : list Q)
    : outcome (bool * option spike_info) :=
  if (Z.of_nat (length closes) <? 5)%Z then Return (false, None)
  else
    match iloc closes (-1), iloc closes (-2) with
    | Some last_close, Some prev_close =>
      let pct_change := np_div (last_close - prev_close) prev_close in
      let avg_volume :=
        if (20 <? Z.of_nat (length volumes))%Z
        then np_mean (iloc_slice volumes (-20) (-1))
        else np_mean (iloc_slice volumes 0 (-1)) in
      match iloc volumes (-1) with
      | None => Raise IndexError
      | Some current_volume =>
        let volume_ratio :=
          match avg_volume with
          | NFinite avg => if 0 <? avg then current_volume / avg else 1
          | NPosInf => 0
          | NNegInf | NNaN => 1
          end in
        let is_spike :=
          np_leb (NFinite (price_spike_threshold self)) (np_abs pct_change)
          && (volume_multiplier self <=? volume_ratio) in
        Return
          (is_spike,
           Some (mk_info pct_change volume_ratio
                   (if np_ltb (NFinite 0) pct_change then UP else DOWN)))
      end
    | _, _ => Raise IndexError
    end.

Definition _assess_manipulation (self : t) (info : spike_info)
    (sentiment : Q) : bool :=
  if np_ltb (NFinite 0) (pct_change info)
     && (sentiment_extreme self <? sentiment) then true
  else if np_ltb (pct_change info) (NFinite 0)
          && (sentiment <? - sentiment_extreme self) then true
  else if volume_multiplier self * 2 <? volume_ratio info then true
  else false.

(** Lines 66-89 of [decide]: the management of an open position. *)
Definition manage_position (self : t) (current_price : Q) : t * outcome Z :=
  let self :=
    set_position self (_entry_price self) (_hold_counter self + 1)%Z
      (_position_direction self) in
  let pnl_pct :=
    np_div (current_price - _entry_price self) (_entry_price self) in
  if np_leb pnl_pct (NFinite (- stop_loss_pct self)) then
    (_reset_position (set_reasoning self (StopLoss pnl_pct)), Return SELL)
  else if (max_hold_periods self <=? _hold_counter self)%Z then
    (_reset_position
       (set_reasoning self (TimeExit (_hold_counter self) pnl_pct)),
     Return SELL)
  else if np_leb (NFinite (price_spike_threshold self)) pnl_pct then
    (_reset_position (set_reasoning self (TakeProfit pnl_pct)), Return SELL)
  else
    (set_reasoning self
       (Holding (_hold_counter self) (max_hold_periods self) pnl_pct),
     Return HOLD).

Definition decide (self : t) (observation : option Observation.t)
    : t * outcome Z :=
  let self := count_step self in
  match observation with
  | None => (set_reasoning self Insufficient, Return HOLD)
  | Some obs =>
    let prices := Observation.prices obs in
    if (Z.of_nat (length prices) <? 10)%Z then
      (set_reasoning self Insufficient, Return HOLD)
    else
      (* the default [prices[-1, 3]] of [.get] is evaluated first *)
      match iloc prices (-1) with
      | None => (self, Raise IndexError)
      | Some _ =>
        let current_price := Observation.current_price obs in
        let has_position := 0 <? Observation.position obs in
        let sentiment := Observation.sentiment obs in
        let closes := closes_of prices in
        let volumes := volumes_of prices in
        if has_position then manage_position self current_price
        else
          match _detect_spike self closes volumes with
          | Raise e => (self, Raise e)
          | Return (_, None) => (set_reasoning self NoAnomaly, Return HOLD)
          | Return (spike_detected, Some info) =>
            if negb spike_detected then
              (set_reasoning self NoAnomaly, Return HOLD)
            else if negb (_assess_manipulation self info sentiment) then
              (set_reasoning self (NotManipulation info), Return HOLD)
            else
              match spike_direction info with
              | UP =>
                (set_reasoning self (Pump (pct_change info) sentiment),
                 Return HOLD)
              | DOWN =>
                (set_position
                   (set_reasoning self (Dump (pct_change info) sentiment))
                   current_price 0%Z (Some "contrarian_long"),
                 Return BUY)
              end
          end
      end
  end.

Definition reset (self : t) : t :=
  set_reasoning
    (_reset_position
       (mk (name self) 0%Z (price_spike_threshold self)
          (volume_multiplier self) (sentiment_extreme self)
          (max_hold_periods self) (stop_loss_pct self) (_entry_price self)
          (_hold_counter self) (_reasoning self) (_position_direction self)))
    Empty.
End ContrarianStrategy.

(** An observation the contrarian reads while a position is held. *)
Definition holding_observation (o : option Observation.t) : Prop :=
  exists obs,
    o = Some obs
    /\ (10 <= Z.of_nat (length (Observation.prices obs)))%Z
    /\ 0 < Observation.position obs.

(** Ten flat rows of prices, and an observation over them while 1 unit is
    held and the price has not moved. *)
Definition ten_flat_prices : list (Q * Q * Q * Q * Q) :=
  repeat (100, 100, 100, 100, 1) 10.

Definition observation_held : Observation.t :=
  Observation.mk ten_flat_prices (repeat (Finite 0) 10) 100 1 100 0 0 1000
    10%Z 10%Z.

(** * Properties *)

(** ** Booleans and propositions *)

Lemma Qltb_spec (x y : Q) : reflect (x < y) (x <? y).
Proof.
  unfold Qltb. destruct (Qle_bool y x) eqn:E; constructor.
  - apply Qle_bool_iff in E. lra.
  - apply Qnot_le_lt. intros H. apply Qle_bool_iff in H. congruence.
Qed.

Lemma Qleb_spec (x y : Q) : reflect (x <= y) (x <=? y).
Proof.
  unfold Qleb. destruct (Qle_bool x y) eqn:E; constructor.
  - by apply Qle_bool_iff.
  - intros H. apply Qle_bool_iff in H. congruence.
Qed.

Lemma Qeqb_spec (x y : Q) : reflect (x == y) (x =? y).
Proof.
  destruct (Qeq_bool x y) eqn:E; constructor.
  - by apply Qeq_bool_iff.
  - intros H. apply Qeq_bool_iff in H. congruence.
Qed.

(** Case analysis on the first float comparison found in the goal. *)
Ltac qcase :=
  match goal with
  | |- context [?x <? ?y] => destruct (Qltb_spec x y)
  | |- context [?x <=? ?y] => destruct (Qleb_spec x y)
  | |- context [?x =? ?y] => destruct (Qeqb_spec x y)
  end.

Ltac qcase_in H :=
  match type of H with
  | context [?x <? ?y] => destruct (Qltb_spec x y)
  | context [?x <=? ?y] => destruct (Qleb_spec x y)
  | context [?x =? ?y] => destruct (Qeqb_spec x y)
  end.

Lemma Qmin_le_r (x y : Q) : Qmin x y <= y.
Proof. apply Q.le_min_r. Qed.

(** ** The ledger *)

Section Ledger.
Variable now : datetime.

(** What a filled BUY looks like: the three guards passed and the new
    state and fill are the ones computed from the clamped amount. *)
Lemma buy_fill_inv (self self' : ExchangeMock.t) (symbol : string)
    (usd_amount market_price : Q) (timestamp : option datetime)
    (f : Fill.t) :
  ExchangeMock.buy now self symbol usd_amount market_price timestamp
    = (self', Return (Some f)) ->
  let a := Qmin usd_amount (ExchangeMock.cash self) in
  let ep := market_price * (1 + ExchangeMock.slippage self) in
  0 < usd_amount /\ cent <= a /\ ~ ep == 0 /\
  f = Fill.mk (default now timestamp) symbol "BUY"
        ((a - a * ExchangeMock.fee_rate self) / ep) ep
        (a * ExchangeMock.fee_rate self) a /\
  ExchangeMock.cash self' = ExchangeMock.cash self - a.
Proof.
  unfold ExchangeMock.buy. intros H.
  repeat qcase_in H; try discriminate H;
    injection H as <- <-; cbn; repeat split; try done; lra.
Qed.

(** ** Buying *)

(** A BUY fills as soon as its three guards pass. *)
Lemma buy_fills (self : ExchangeMock.t) (symbol : string)
    (usd_amount market_price : Q) (timestamp : option datetime) :
  0 < usd_amount ->
  cent <= Qmin usd_amount (ExchangeMock.cash self) ->
  ~ market_price * (1 + ExchangeMock.slippage self) == 0 ->
  exists self' f,
    ExchangeMock.buy now self symbol usd_amount market_price timestamp
      = (self', Return (Some f)).
Proof.
  intros Hpos Ha Hep. unfold ExchangeMock.buy.
  destruct (Qleb_spec usd_amount 0); [lra|].
  destruct (Qltb_spec (Qmin usd_amount (ExchangeMock.cash self)) cent);
    [lra|].
  destruct (Qeqb_spec (market_price * (1 + ExchangeMock.slippage self)) 0);
    [contradiction|].
  eauto.
Qed.

(** C1. A BUY that fills takes exactly the clamped amount [a] out of cash,
    and [a] is the fee plus quantity times execution price, with
    fee = a * fee_rate, execution price = market price * (1 + slippage)
    and quantity = (a - fee) / execution price. *)
Theorem buy_value_conservation (self self' : ExchangeMock.t)
    (symbol : string) (usd_amount market_price : Q)
    (timestamp : option datetime) (f : Fill.t) :
  ExchangeMock.buy now self symbol usd_amount market_price timestamp
    = (self', Return (Some f)) ->
  let a := Qmin usd_amount (ExchangeMock.cash self) in
  let fee := a * ExchangeMock.fee_rate self in
  let execution_price := market_price * (1 + ExchangeMock.slippage self) in
  let quantity := (a - fee) / execution_price in
  cent <= a /\
  ExchangeMock.cash self' == ExchangeMock.cash self - a /\
  Fill.fee f == fee /\
  Fill.price f == execution_price /\
  Fill.quantity f == quantity /\
  Fill.total_cost f == a /\
  a == fee + quantity * execution_price.
Proof.
  intros H. apply buy_fill_inv in H as (_ & Ha & Hep & -> & ->).
  cbn. repeat split; try reflexivity; try assumption.
  field. split; intros E; apply Hep; rewrite E; ring.
Qed.

(** C10. A BUY of a non-positive amount, or of an amount whose clamp to
    the available cash is below one cent, returns no fill, raises nothing
    and leaves the whole ledger as it was. *)
Theorem buy_negligible_is_noop (self : ExchangeMock.t) (symbol : string)
    (usd_amount market_price : Q) (timestamp : option datetime) :
  usd_amount <= 0 \/ Qmin usd_amount (ExchangeMock.cash self) < cent ->
  ExchangeMock.buy now self symbol usd_amount market_price timestamp
    = (self, Return None).
Proof.
  intros H. unfold ExchangeMock.buy.
  destruct (Qleb_spec usd_amount 0) as [|Hpos]; [reflexivity|].
  destruct (Qltb_spec (Qmin usd_amount (ExchangeMock.cash self)) cent)
    as [|Hbig]; [reflexivity|].
  destruct H; contradiction.
Qed.
End Ledger.

Lemma buy_value_conservation_witness :
  ExchangeMock.cash (fst scenario_A_buy)
    == ExchangeMock.cash ledger_A - Qmin 50 (ExchangeMock.cash ledger_A).
Proof.
  refine (proj1 (proj2
    (buy_value_conservation 0%Z ledger_A (fst scenario_A_buy) "BTCUSDT"
       50 100 None (fill_of scenario_A_buy) _))).
  vm_compute. reflexivity.
Defined.

Lemma buy_negligible_is_noop_witness :
  ExchangeMock.buy 0%Z ledger_A "BTCUSDT" (-3) 100 None
    = (ledger_A, Return None)
  /\ ExchangeMock.buy 0%Z (fst scenario_A_sell) "BTCUSDT" (1 # 1000) 100 None
    = (fst scenario_A_sell, Return None).
Proof.
  split.
  - apply buy_negligible_is_noop. left. vm_compute. discriminate.
  - apply buy_negligible_is_noop. right. vm_compute. reflexivity.
Defined.

(** C7. Scenario A, the buy and sell round trip, to the digits quoted. *)
Theorem scenario_A_round_trip :
  let fb := fill_of scenario_A_buy in
  let fs := fill_of scenario_A_sell in
  snd scenario_A_buy = Return (Some fb) /\
  Fill.price fb == 100.05 /\
  Fill.fee fb == 0.05 /\
  approx (Fill.quantity fb) 0.4992503748 (1 # 10000000000) /\
  ExchangeMock.cash (fst scenario_A_buy) == 50 /\
  snd scenario_A_sell = Return (Some fs) /\
  Fill.quantity fs == Fill.quantity fb /\
  Fill.price fs == 109.945 /\
  approx (Fill.quantity fs * Fill.price fs) 54.89008 (1 # 100000) /\
  approx (Fill.fee fs) 0.054890 (1 # 1000000) /\
  approx (Fill.total_cost fs) 54.83519 (1 # 100000) /\
  approx (ExchangeMock.realized_pnl (fst scenario_A_sell)) 4.88519
    (1 # 100000) /\
  approx (ExchangeMock.cash (fst scenario_A_sell)) 104.83519 (1 # 100000).
Proof.
  cbv zeta. repeat split; try (vm_compute; reflexivity);
    vm_compute; discriminate.
Qed.

(** ** Positions *)

Section Positions.
Variable now : datetime.

Lemma last_fill_side_snoc_same (symbol : string) (h : list Fill.t)
    (f : Fill.t) :
  Fill.symbol f = symbol ->
  last_fill_side symbol (h ++ [f]) = Some (Fill.side f).
Proof.
  intros E. unfold last_fill_side. rewrite List.filter_app. cbn.
  rewrite E, String.eqb_refl. by rewrite last_snoc.
Qed.

Lemma last_fill_side_snoc_other (symbol : string) (h : list Fill.t)
    (f : Fill.t) :
  Fill.symbol f <> symbol ->
  last_fill_side symbol (h ++ [f]) = last_fill_side symbol h.
Proof.
  intros E. unfold last_fill_side. rewrite List.filter_app. cbn.
  apply String.eqb_neq in E. rewrite E. by rewrite app_nil_r.
Qed.

Lemma buy_positions_ok (self : ExchangeMock.t) (symbol : string)
    (usd_amount market_price : Q) (timestamp : option datetime) :
  0 <= ExchangeMock.fee_rate self <= 1 ->
  0 <= ExchangeMock.slippage self ->
  0 < market_price ->
  positions_ok self ->
  positions_ok
    (fst (ExchangeMock.buy now self symbol usd_amount market_price
            timestamp)).
Proof.
  intros Hfee Hslip Hprice Hok. unfold ExchangeMock.buy.
  destruct (Qleb_spec usd_amount 0); [exact Hok|].
  destruct (Qltb_spec (Qmin usd_amount (ExchangeMock.cash self)) cent)
    as [|Ha]; [exact Hok|].
  destruct (Qeqb_spec (market_price * (1 + ExchangeMock.slippage self)) 0)
    as [|Hep]; [exact Hok|].
  cbn [fst]. intros sym pos. cbn [ExchangeMock.positions
    ExchangeMock.trade_history].
  destruct (decide (symbol = sym)) as [<-|Hne].
  - rewrite lookup_insert_eq. intros [= <-]. split.
    + cbn. set (a := Qmin usd_amount (ExchangeMock.cash self)) in *.
      assert (0 <= Position.quantity
                     (default (Position.new symbol)
                        (ExchangeMock.positions self !! symbol))) as Hq.
      { destruct (ExchangeMock.positions self !! symbol) as [p|] eqn:E.
        - cbn. by destruct (Hok _ _ E).
        - cbn. lra. }
      assert (0 <= (a - a * ExchangeMock.fee_rate self)
                   / (market_price * (1 + ExchangeMock.slippage self))).
      { apply Qle_shift_div_l; [nra|]. unfold cent in Ha. nra. }
      lra.
    + rewrite last_fill_side_snoc_same by reflexivity. cbn. discriminate.
  - rewrite lookup_insert_ne by done. intros E.
    rewrite last_fill_side_snoc_other by (cbn; congruence).
    by apply Hok.
Qed.

Lemma sell_positions_ok (self : ExchangeMock.t) (symbol : string)
    (quantity : option Q) (market_price : Q) (timestamp : option datetime) :
  positions_ok self ->
  positions_ok
    (fst (ExchangeMock.sell now self symbol quantity market_price
            timestamp)).
Proof.
  intros Hok. unfold ExchangeMock.sell.
  destruct (ExchangeMock.positions self !! symbol) as [p|] eqn:E;
    [|exact Hok].
  destruct (Position.is_open p); [|exact Hok]. cbn [negb].
  set (q := Qmin (default (Position.quantity p) quantity)
              (Position.quantity p)).
  destruct (Qltb_spec q dust) as [|Hq]; [exact Hok|].
  cbn [fst]. intros sym pos. cbn [ExchangeMock.positions
    ExchangeMock.trade_history].
  destruct (decide (symbol = sym)) as [<-|Hne].
  - rewrite lookup_insert_eq. intros [= <-].
    pose proof (Qmin_le_r (default (Position.quantity p) quantity)
                  (Position.quantity p)) as Hle. fold q in Hle.
    destruct (Qltb_spec (Position.quantity p - q) dust) as [Hr|Hr]; cbn.
    + split; [lra|]. intros _ _. cbn. repeat split; reflexivity.
    + split; [unfold dust in *; lra|]. intros _ Hd. cbn in Hd. lra.
  - rewrite lookup_insert_ne by done. intros E'.
    rewrite last_fill_side_snoc_other by (cbn; congruence).
    by apply Hok.
Qed.

Lemma apply_op_params (self : ExchangeMock.t) (op : ledger_op) :
  ExchangeMock.fee_rate (apply_op now self op) = ExchangeMock.fee_rate self
  /\ ExchangeMock.slippage (apply_op now self op)
     = ExchangeMock.slippage self.
Proof.
  destruct op as [sym a p ts|sym q p ts]; cbn.
  - unfold ExchangeMock.buy. repeat qcase; done.
  - unfold ExchangeMock.sell.
    destruct (ExchangeMock.positions self !! sym); [|done].
    destruct (negb _); [done|]. qcase; done.
Qed.

Lemma run_ops_positions_ok (ops : list ledger_op) (self : ExchangeMock.t) :
  0 <= ExchangeMock.fee_rate self <= 1 ->
  0 <= ExchangeMock.slippage self ->
  Forall (fun op => 0 < op_price op) ops ->
  positions_ok self ->
  positions_ok (run_ops now self ops).
Proof.
  revert self. induction ops as [|op ops IH]; intros self Hfee Hslip Hp Hok.
  - exact Hok.
  - apply Forall_cons in Hp as [Hp1 Hp].
    destruct (apply_op_params self op) as [Ef Es].
    cbn. apply IH; try done; try (by rewrite ?Ef, ?Es).
    destruct op as [sym a p ts|sym q p ts]; cbn.
    + by apply buy_positions_ok.
    + by apply sell_positions_ok.
Qed.

(** C6, as the code has it.  From a fresh ledger with a fee rate in [0, 1]
    and a non-negative slippage, after any calls of buy and sell at positive
    prices every position has a non-negative quantity, and a position whose
    latest fill is a SELL and whose quantity is below the dust threshold has
    quantity, average entry price and invested amount 0. *)
Theorem ledger_positions_invariant (initial_capital fee_rate slippage : Q)
    (ops : list ledger_op) (symbol : string) (pos : Position.t) :
  0 <= fee_rate <= 1 ->
  0 <= slippage ->
  Forall (fun op => 0 < op_price op) ops ->
  let self :=
    run_ops now (ExchangeMock.init initial_capital fee_rate slippage) ops in
  ExchangeMock.positions self !! symbol = Some pos ->
  0 <= Position.quantity pos /\
  (last_fill_side symbol (ExchangeMock.trade_history self) = Some "SELL" ->
   Position.quantity pos < dust ->
   Position.quantity pos == 0 /\ Position.avg_entry_price pos == 0
   /\ Position.total_invested pos == 0).
Proof.
  intros Hfee Hslip Hp self E.
  apply (run_ops_positions_ok ops
           (ExchangeMock.init initial_capital fee_rate slippage));
    done.
Qed.
End Positions.

Lemma ledger_positions_invariant_witness :
  0 <= Position.quantity closed_position /\
  (last_fill_side "BTCUSDT"
     (ExchangeMock.trade_history
        (run_ops 0%Z (ExchangeMock.init 100 (1 # 1000) (5 # 10000))
           round_trip_ops)) = Some "SELL" ->
   Position.quantity closed_position < dust ->
   Position.quantity closed_position == 0
   /\ Position.avg_entry_price closed_position == 0
   /\ Position.total_invested closed_position == 0).
Proof.
  apply (ledger_positions_invariant 0%Z 100 (1 # 1000) (5 # 10000)
           round_trip_ops "BTCUSDT" closed_position).
  - split; vm_compute; discriminate.
  - vm_compute; discriminate.
  - repeat constructor.
  - vm_compute. reflexivity.
Defined.

(** C6, as stated, fails.  With the default fee and slippage, one cent bought
    at a price of 10^9 leaves a quantity below the dust threshold whose
    average entry price and invested amount are not 0; and with a fee rate
    above 1 a BUY leaves a negative quantity. *)
Lemma ledger_dust_invariant_counterexample :
  ~ claimed_positions_invariant
      (run_ops 0%Z ledger_A [OpBuy "BTCUSDT" (1 # 100) 1000000000 None])
  /\ (exists pos,
        ExchangeMock.positions (fst dust_buy) !! "BTCUSDT" = Some pos
        /\ 0 <= Position.quantity pos < dust
        /\ ~ Position.avg_entry_price pos == 0
        /\ ~ Position.total_invested pos == 0)
  /\ (exists pos,
        ExchangeMock.positions (fst overcharged_buy) !! "BTCUSDT" = Some pos
        /\ Position.quantity pos < 0).
Proof.
  assert (exists pos,
    ExchangeMock.positions (fst dust_buy) !! "BTCUSDT" = Some pos
    /\ 0 <= Position.quantity pos < dust
    /\ ~ Position.avg_entry_price pos == 0
    /\ ~ Position.total_invested pos == 0) as Hdust.
  { eexists. split; [vm_compute; reflexivity|].
    repeat split; vm_compute; discriminate. }
  split; [|split].
  - intros Hinv. destruct Hdust as (pos & E & [_ Hq] & Havg & _).
    destruct (Hinv "BTCUSDT" pos E) as [_ Hreset].
    destruct (Hreset Hq) as (_ & Hz & _). contradiction.
  - exact Hdust.
  - eexists. split; [vm_compute; reflexivity|]. vm_compute. reflexivity.
Qed.

(** ** The engine *)

Lemma iloc_Forall {A : Type} (P : A -> Prop) (df : list A) (i : Z) (x : A) :
  Forall P df -> iloc df i = Some x -> P x.
Proof.
  intros HP. unfold iloc.
  destruct (0 <=? i)%Z; [|destruct (- Z.of_nat (length df) <=? i)%Z];
    intros H; try discriminate H; by eapply Forall_lookup_1.
Qed.

(** A cursor that reads a row and is not yet on the second-to-last row reads
    a row again after advancing. *)
Lemma iloc_next {A : Type} (df : list A) (i : Z) (x : A) :
  iloc df i = Some x ->
  (Z.of_nat (length df) - 1 <=? i + 1)%Z = false ->
  is_Some (iloc df (i + 1)).
Proof.
  unfold iloc. intros Hi Hlt. apply Z.leb_gt in Hlt.
  destruct (Z.leb_spec 0 i) as [Hpos|Hneg].
  - destruct (Z.leb_spec 0 (i + 1)); [|lia].
    apply lookup_lt_is_Some. lia.
  - destruct (Z.leb_spec (- Z.of_nat (length df)) i) as [Hin|]; [|done].
    destruct (Z.leb_spec 0 (i + 1)).
    + apply lookup_lt_is_Some. lia.
    + destruct (Z.leb_spec (- Z.of_nat (length df)) (i + 1)); [|lia].
      apply lookup_lt_is_Some. lia.
Qed.

Section Engine.
Variable now : datetime.

Lemma same_config_refl (e : TradingEnvironment.t) : same_config e e.
Proof. by repeat split. Qed.

Lemma same_config_trans (e1 e2 e3 : TradingEnvironment.t) :
  same_config e1 e2 -> same_config e2 e3 -> same_config e1 e3.
Proof.
  unfold same_config.
  intros (?&?&?&?&?&?&?&?&?) (?&?&?&?&?&?&?&?&?).
  repeat split; congruence.
Qed.

Lemma buy_params (self : ExchangeMock.t) (symbol : string)
    (usd_amount market_price : Q) (timestamp : option datetime) :
  let self' :=
    fst (ExchangeMock.buy now self symbol usd_amount market_price
           timestamp) in
  ExchangeMock.initial_capital self' = ExchangeMock.initial_capital self
  /\ ExchangeMock.fee_rate self' = ExchangeMock.fee_rate self
  /\ ExchangeMock.slippage self' = ExchangeMock.slippage self.
Proof. unfold ExchangeMock.buy. repeat qcase; done. Qed.

Lemma sell_params (self : ExchangeMock.t) (symbol : string)
    (quantity : option Q) (market_price : Q)
    (timestamp : option datetime) :
  let self' :=
    fst (ExchangeMock.sell now self symbol quantity market_price
           timestamp) in
  ExchangeMock.initial_capital self' = ExchangeMock.initial_capital self
  /\ ExchangeMock.fee_rate self' = ExchangeMock.fee_rate self
  /\ ExchangeMock.slippage self' = ExchangeMock.slippage self.
Proof.
  unfold ExchangeMock.sell.
  destruct (ExchangeMock.positions self !! symbol); [|done].
  destruct (negb _); [done|]. qcase; done.
Qed.

(** The action writes the ledger, the penalty total and the trade P&L list,
    nothing else. *)
Lemma apply_action_frame (self : TradingEnvironment.t) (action : Z)
    (price : Q) (timestamp : datetime) (prev_value : Q) :
  let self1 :=
    fst (TradingEnvironment.apply_action now self action price timestamp
           prev_value) in
  same_config self self1
  /\ TradingEnvironment.current_step self1
     = TradingEnvironment.current_step self
  /\ TradingEnvironment.done self1 = TradingEnvironment.done self
  /\ TradingEnvironment.equity_curve self1
     = TradingEnvironment.equity_curve self
  /\ TradingEnvironment.step_log self1 = TradingEnvironment.step_log self
  /\ TradingEnvironment.score self1 = TradingEnvironment.score self
  /\ TradingEnvironment.score_history self1
     = TradingEnvironment.score_history self.
Proof.
  unfold TradingEnvironment.apply_action.
  destruct (action =? HOLD)%Z.
  { qcase; cbn; by repeat split. }
  destruct (action =? BUY)%Z.
  { pose proof (buy_params (TradingEnvironment.exchange self)
      (TradingEnvironment.symbol self)
      (prev_value * TradingEnvironment.risk_per_trade_pct self) price
      (Some timestamp)) as Hb.
    destruct (ExchangeMock.buy _ _ _ _ _ _) as [ex [fill|e]];
      cbn in *; destruct Hb as (?&?&?); by repeat split. }
  destruct (action =? SELL)%Z.
  { pose proof (sell_params (TradingEnvironment.exchange self)
      (TradingEnvironment.symbol self) None price (Some timestamp)) as Hs.
    destruct (ExchangeMock.sell _ _ _ _ _ _) as [ex [[fill|]|e]];
      cbn in *; destruct Hs as (?&?&?); by repeat split. }
  cbn. by repeat split.
Qed.

(** The shape of every call of [step]: either it raises before writing
    anything, or the action raises, or the score rule divides by a zero
    capital, or the step completes. *)
Lemma step_cases (self : TradingEnvironment.t) (action : Z) :
  let r := TradingEnvironment.step now self action in
  (fst r = self /\
   (TradingEnvironment.done self = true /\
    snd r = Raise (RuntimeError "Environment is done. Call reset().")
    \/ TradingEnvironment.done self = false /\ snd r = Raise IndexError))
  \/
  exists row,
    TradingEnvironment.done self = false /\
    iloc (TradingEnvironment.data self) (TradingEnvironment.current_step self)
      = Some row /\
    let price := Row.close row in
    let prev_value :=
      ExchangeMock.get_portfolio_value (TradingEnvironment.exchange self)
        {[TradingEnvironment.symbol self := price]} in
    let a :=
      TradingEnvironment.apply_action now self action price
        (Row.timestamp row) prev_value in
    let self1 := fst a in
    (fst r = self1 /\ exists e, snd a = Raise e /\ snd r = Raise e) \/
    exists fill hold_penalty,
      snd a = Return (fill, hold_penalty) /\
      let current_value :=
        ExchangeMock.get_portfolio_value (TradingEnvironment.exchange self1)
          {[TradingEnvironment.symbol self1 := price]} in
      let reward :=
        if 0 <? prev_value then (current_value - prev_value) / prev_value
        else 0 in
      let score1 :=
        if 0 <? reward then TradingEnvironment.score self + reward * 100
        else if reward <? 0 then TradingEnvironment.score self + reward * 150
        else TradingEnvironment.score self in
      let score2 :=
        if 0 <? hold_penalty then
          score1
          - (hold_penalty / TradingEnvironment.initial_capital self) * 50
        else score1 in
      (0 < hold_penalty /\ TradingEnvironment.initial_capital self == 0 /\
       TradingEnvironment.exchange (fst r) = TradingEnvironment.exchange self1
       /\ same_config self (fst r)
       /\ TradingEnvironment.score (fst r) = score1
       /\ snd r = Raise ZeroDivisionError) \/
      (~ (0 < hold_penalty /\ TradingEnvironment.initial_capital self == 0)
       /\ TradingEnvironment.exchange (fst r)
          = TradingEnvironment.exchange self1
       /\ same_config self (fst r)
       /\ TradingEnvironment.trade_pnls (fst r)
          = TradingEnvironment.trade_pnls self1
       /\ TradingEnvironment.equity_curve (fst r)
          = TradingEnvironment.equity_curve self ++ [current_value]
       /\ TradingEnvironment.score (fst r) = Qmax 0 (Qmin 1000 score2)
       /\ exists obs terminated info,
            snd r = Return (obs, reward, terminated, false, info)
            /\ Info.fill info = fill
            /\ Info.hold_penalty info = hold_penalty
            /\ Info.score info = TradingEnvironment.score (fst r)).
Proof.
  unfold TradingEnvironment.step.
  destruct (TradingEnvironment.done self) eqn:Hdone.
  { left. cbn. eauto. }
  destruct (iloc _ _) as [row|] eqn:Hrow.
  2: { left. cbn. eauto. }
  right. exists row. split; [done|]. split; [done|]. cbv zeta.
  pose proof (apply_action_frame self action (Row.close row)
    (Row.timestamp row)
    (ExchangeMock.get_portfolio_value (TradingEnvironment.exchange self)
       {[TradingEnvironment.symbol self := Row.close row]})) as Hframe.
  destruct (TradingEnvironment.apply_action _ _ _ _ _ _)
    as [self1 [[fill hp]|e]] eqn:Hact; cbn [fst snd] in *.
  2: { left. eauto. }
  destruct Hframe as (Hcfg & Hcs & Hd & Heq & Hlog & Hsc & Hhist).
  pose proof Hcfg as (Hdata & Hic & _).
  right. exists fill, hp. split; [done|].
  cbn [TradingEnvironment.score TradingEnvironment.set_equity_curve
       TradingEnvironment.initial_capital TradingEnvironment.exchange
       TradingEnvironment.symbol TradingEnvironment.data
       TradingEnvironment.current_step].
  rewrite Hsc, Hic.
  destruct (Qltb_spec 0 hp) as [Hhp|Hhp];
    [destruct (Qeqb_spec (TradingEnvironment.initial_capital self) 0)
       as [Hz|Hz]|]; cbn [andb].
  - left. cbn. repeat split; try done; apply Hcfg.
  - right. rewrite Hcs, Hdata.
    destruct (_ <=? _)%Z eqn:Hterm.
    + cbn. rewrite Heq. repeat split; try tauto; try apply Hcfg.
      eauto 10.
    + destruct (iloc_next _ _ _ Hrow Hterm) as [row' Hrow'].
      unfold TradingEnvironment._get_observation.
      cbn [TradingEnvironment.score TradingEnvironment.data
           TradingEnvironment.current_step].
      rewrite Hrow'. cbn. rewrite Heq.
      repeat split; try tauto; try apply Hcfg. eauto 10.
  - right. rewrite Hcs, Hdata.
    destruct (_ <=? _)%Z eqn:Hterm.
    + cbn. rewrite Heq. repeat split; try tauto; try apply Hcfg.
      eauto 10.
    + destruct (iloc_next _ _ _ Hrow Hterm) as [row' Hrow'].
      unfold TradingEnvironment._get_observation.
      cbn [TradingEnvironment.score TradingEnvironment.data
           TradingEnvironment.current_step].
      rewrite Hrow'. cbn. rewrite Heq.
      repeat split; try tauto; try apply Hcfg. eauto 10.
Qed.

(** The only exception an action can raise is the division by a zero
    execution price inside [buy]. *)
Lemma apply_action_raises (self : TradingEnvironment.t) (action : Z)
    (price : Q) (timestamp : datetime) (prev_value : Q) (e : exn) :
  snd (TradingEnvironment.apply_action now self action price timestamp
         prev_value) = Raise e ->
  e = ZeroDivisionError.
Proof.
  unfold TradingEnvironment.apply_action.
  destruct (action =? HOLD)%Z; [qcase; discriminate|].
  destruct (action =? BUY)%Z.
  { unfold ExchangeMock.buy. repeat qcase; cbn; congruence. }
  destruct (action =? SELL)%Z; [|discriminate].
  unfold ExchangeMock.sell.
  destruct (ExchangeMock.positions _ !! _); [|discriminate].
  destruct (negb _); [discriminate|]. qcase; discriminate.
Qed.

(** C5, as the code has it.  [step] signals the invalid-state error exactly
    when the [done] flag is set, and then nothing is written: the value
    trajectory, the step log and the ledger (indeed the whole engine) are
    as before.  The flag is unset in a newly built engine. *)
Theorem step_invalid_state_iff_done (self : TradingEnvironment.t)
    (action : Z) :
  let r := TradingEnvironment.step now self action in
  raises_invalid_state (snd r) = TradingEnvironment.done self /\
  (TradingEnvironment.done self = true ->
   snd r = Raise (RuntimeError "Environment is done. Call reset().")
   /\ fst r = self
   /\ TradingEnvironment.equity_curve (fst r)
      = TradingEnvironment.equity_curve self
   /\ TradingEnvironment.step_log (fst r) = TradingEnvironment.step_log self
   /\ TradingEnvironment.exchange (fst r)
      = TradingEnvironment.exchange self).
Proof.
  cbv zeta. split.
  - destruct (step_cases self action)
      as [[_ [[-> ->]|[-> ->]]]|(row & -> & _ & Hrest)]; try done.
    cbv zeta in Hrest.
    destruct Hrest as [(_ & e & He & ->)|(fill & hp & _ & Hrest)].
    + by rewrite (apply_action_raises _ _ _ _ _ _ He).
    + destruct Hrest as [(_ & _ & _ & _ & _ & ->)
                        |(_ & _ & _ & _ & _ & _ & ? & ? & ? & -> & _)];
        done.
  - intros Hdone. unfold TradingEnvironment.step. rewrite Hdone. done.
Qed.
End Engine.

Lemma step_invalid_state_iff_done_witness :
  TradingEnvironment.done env_A_terminal = true /\
  snd (TradingEnvironment.step 0%Z env_A_terminal BUY)
    = Raise (RuntimeError "Environment is done. Call reset().") /\
  fst (TradingEnvironment.step 0%Z env_A_terminal BUY) = env_A_terminal.
Proof.
  assert (TradingEnvironment.done env_A_terminal = true) as Hdone
    by (vm_compute; reflexivity).
  split; [exact Hdone|].
  destruct (proj2 (step_invalid_state_iff_done 0%Z env_A_terminal BUY) Hdone)
    as (Hraise & Hsame & _).
  split; assumption.
Defined.

(** C5, as stated, fails on an engine that was never reset: its first
    [step] raises nothing and appends to the value trajectory and to the
    step log. *)
Lemma step_before_reset_counterexample :
  let r := TradingEnvironment.step 0%Z env_A HOLD in
  raises_invalid_state (snd r) = false
  /\ TradingEnvironment.equity_curve env_A = []
  /\ length (TradingEnvironment.equity_curve (fst r)) = 1%nat
  /\ length (TradingEnvironment.step_log (fst r)) = 1%nat
  /\ ExchangeMock.cash (TradingEnvironment.exchange (fst r)) == 95.
Proof. repeat split; vm_compute; reflexivity. Qed.

(** Scenario B: with cash 100 and a hold penalty rate of 5 percent, one HOLD
    step charges 5, leaves 95 and brings the penalty total to 5. *)
Example scenario_B_hold_penalty :
  let r := TradingEnvironment.step 0%Z env_A_reset HOLD in
  match snd r with
  | Return (_, _, _, _, info) =>
    Info.hold_penalty info == 5 /\ Info.total_hold_penalty info == 5
  | Raise _ => False
  end
  /\ ExchangeMock.cash (TradingEnvironment.exchange (fst r)) == 95
  /\ TradingEnvironment.score (fst r) == 990.
Proof. vm_compute. repeat split; reflexivity. Qed.

(** The engine over [rows_A] is ACTIVE after [reset] and TERMINAL after two
    steps, the cursor then standing on the last row. *)
Example env_A_lifecycle :
  TradingEnvironment.done env_A_reset = false
  /\ TradingEnvironment.current_step env_A_reset = 1%Z
  /\ TradingEnvironment.done env_A_terminal = true
  /\ TradingEnvironment.current_step env_A_terminal = 3%Z.
Proof. repeat split; vm_compute; reflexivity. Qed.

(** ** Invariants of a run of the engine *)

Lemma Qclamp_range (x : Q) : 0 <= Qmax 0 (Qmin 1000 x) <= 1000.
Proof.
  destruct (Q.max_spec 0 (Qmin 1000 x)) as [[? ->]|[? ->]];
  destruct (Q.min_spec 1000 x) as [[? E]|[? E]]; rewrite ?E in *; lra.
Qed.

Lemma Qclamp_spec (x : Q) : Qmax 0 (Qmin 1000 x) == clamp 0 1000 x.
Proof.
  unfold clamp. repeat qcase;
  destruct (Q.max_spec 0 (Qmin 1000 x)) as [[? ->]|[? ->]];
  destruct (Q.min_spec 1000 x) as [[? E]|[? E]]; rewrite ?E in *; lra.
Qed.

Section Runs.
Variable now : datetime.

Lemma rates_same_config (e e' : TradingEnvironment.t) :
  same_config e e' -> rates_in_unit_interval e -> rates_in_unit_interval e'.
Proof.
  unfold same_config, rates_in_unit_interval.
  intros (Hd & _ & Hr & _ & _ & Hh & _ & Hf & Hs).
  by rewrite Hd, Hr, Hh, Hf, Hs.
Qed.

(** BUY is clamped to the cash; the HOLD penalty is a fraction of the cash;
    SELL adds proceeds that are not negative. *)
Lemma apply_action_cash (self : TradingEnvironment.t) (action : Z)
    (price : Q) (timestamp : datetime) (prev_value : Q) :
  rates_in_unit_interval self ->
  0 < price ->
  0 <= ExchangeMock.cash (TradingEnvironment.exchange self) ->
  0 <= ExchangeMock.cash
         (TradingEnvironment.exchange
            (fst (TradingEnvironment.apply_action now self action price
                    timestamp prev_value))).
Proof.
  intros (Hfee & Hslip & Hhold & _ & _) Hprice Hcash.
  unfold TradingEnvironment.apply_action.
  destruct (action =? HOLD)%Z.
  { qcase; cbn; [nra|done]. }
  destruct (action =? BUY)%Z.
  { unfold ExchangeMock.buy.
    set (amount := prev_value * TradingEnvironment.risk_per_trade_pct self).
    set (cash := ExchangeMock.cash (TradingEnvironment.exchange self)) in *.
    destruct (Qleb_spec amount 0); [done|].
    destruct (Qltb_spec (Qmin amount cash) cent); [done|].
    destruct (Qeqb_spec
      (price * (1 + ExchangeMock.slippage (TradingEnvironment.exchange self)))
      0); [done|].
    cbn. fold cash. pose proof (Qmin_le_r amount cash). lra. }
  destruct (action =? SELL)%Z; [|done].
  unfold ExchangeMock.sell.
  destruct (ExchangeMock.positions _ !! _) as [p|]; [|done].
  destruct (Position.is_open p); [|done]. cbn [negb default].
  set (q := Qmin (Position.quantity p) (Position.quantity p)).
  destruct (Qltb_spec q dust) as [|Hq]; [done|]. cbn.
  set (slip := ExchangeMock.slippage (TradingEnvironment.exchange self))
    in *.
  set (fee := ExchangeMock.fee_rate (TradingEnvironment.exchange self))
    in *.
  assert (0 <= q) by (unfold dust in Hq; lra).
  assert (0 <= price * (1 - slip)) by nra.
  assert (0 <= q * (price * (1 - slip))) by nra.
  assert (0 <= q * (price * (1 - slip)) * (1 - fee)) by nra.
  lra.
Qed.

Lemma step_cash (self : TradingEnvironment.t) (action : Z) :
  rates_in_unit_interval self ->
  0 <= ExchangeMock.cash (TradingEnvironment.exchange self) ->
  let self' := fst (TradingEnvironment.step now self action) in
  rates_in_unit_interval self'
  /\ 0 <= ExchangeMock.cash (TradingEnvironment.exchange self').
Proof.
  intros Hrates Hcash. cbv zeta.
  destruct (step_cases now self action)
    as [[-> _]|(row & _ & Hrow & Hrest)]; [done|].
  cbv zeta in Hrest.
  assert (0 < Row.close row) as Hprice.
  { destruct Hrates as (_ & _ & _ & _ & Hdata).
    exact (iloc_Forall _ _ _ _ Hdata Hrow). }
  pose proof (apply_action_cash self action (Row.close row)
    (Row.timestamp row)
    (ExchangeMock.get_portfolio_value (TradingEnvironment.exchange self)
       {[TradingEnvironment.symbol self := Row.close row]})
    Hrates Hprice Hcash) as Hc.
  pose proof (apply_action_frame now self action (Row.close row)
    (Row.timestamp row)
    (ExchangeMock.get_portfolio_value (TradingEnvironment.exchange self)
       {[TradingEnvironment.symbol self := Row.close row]}))
    as (Hcfg & _).
  destruct Hrest as [(-> & _)|(fill & hp & _ & Hrest)].
  - split; [by eapply rates_same_config|done].
  - destruct Hrest as [(_ & _ & -> & Hc' & _)|(_ & -> & Hc' & _)];
      (split; [by eapply rates_same_config|done]).
Qed.

Lemma run_steps_cash (actions : list Z) (self : TradingEnvironment.t) :
  rates_in_unit_interval self ->
  0 <= ExchangeMock.cash (TradingEnvironment.exchange self) ->
  0 <= ExchangeMock.cash
         (TradingEnvironment.exchange (run_steps now self actions)).
Proof.
  revert self. induction actions as [|a actions IH]; intros self Hr Hc.
  - exact Hc.
  - cbn. destruct (step_cash self a Hr Hc) as [Hr' Hc']. by apply IH.
Qed.

(** C2, as the code has it.  With a non-negative initial capital, rates in
    [0, 1] and positive close prices, the cash of the ledger is not
    negative after [reset] followed by any sequence of actions. *)
Theorem cash_never_negative (data : list Row.t)
    (initial_capital fee_rate slippage risk_per_trade_pct : Q)
    (window_size : Z) (symbol : string) (hold_penalty_rate : Q)
    (actions : list Z) :
  0 <= initial_capital ->
  0 <= fee_rate <= 1 ->
  0 <= slippage <= 1 ->
  0 <= hold_penalty_rate <= 1 ->
  0 <= risk_per_trade_pct <= 1 ->
  Forall (fun row => 0 < Row.close row) data ->
  let env :=
    TradingEnvironment.init data initial_capital fee_rate slippage
      risk_per_trade_pct window_size symbol hold_penalty_rate in
  0 <= ExchangeMock.cash
         (TradingEnvironment.exchange
            (run_steps now (fst (TradingEnvironment.reset env)) actions)).
Proof.
  intros Hic Hfee Hslip Hhold Hrisk Hdata env.
  apply run_steps_cash; [|exact Hic].
  repeat split; cbn; tauto.
Qed.
End Runs.

Lemma cash_never_negative_witness :
  0 <= ExchangeMock.cash
         (TradingEnvironment.exchange
            (run_steps 0%Z env_A_reset [BUY; HOLD; SELL])).
Proof.
  apply (cash_never_negative 0%Z rows_A 100 (1 # 1000) (5 # 10000) (1 # 2)
           1%Z "BTCUSDT" (5 # 100) [BUY; HOLD; SELL]).
  - vm_compute; discriminate.
  - split; vm_compute; discriminate.
  - split; vm_compute; discriminate.
  - split; vm_compute; discriminate.
  - split; vm_compute; discriminate.
  - repeat constructor.
Defined.

(** C2, as stated, fails: all four rates are in [0, 1] and the closes are
    positive, yet with an initial capital of -1 the cash is negative after
    [reset] and after the actions that follow. *)
Lemma cash_negative_counterexample :
  rates_in_unit_interval env_indebted
  /\ ExchangeMock.cash
       (TradingEnvironment.exchange
          (run_steps 0%Z (fst (TradingEnvironment.reset env_indebted)) []))
     < 0
  /\ ExchangeMock.cash
       (TradingEnvironment.exchange
          (run_steps 0%Z (fst (TradingEnvironment.reset env_indebted))
             [BUY; HOLD]))
     < 0.
Proof.
  split; [|split; vm_compute; reflexivity].
  repeat split; try (vm_compute; discriminate). repeat constructor.
Qed.

(** ** The score *)

Section Score.
Variable now : datetime.

(** Without capital nothing is ever bought, sold or charged. *)
Lemma apply_action_broke (self : TradingEnvironment.t) (action : Z)
    (price : Q) (timestamp : datetime) (prev_value : Q) :
  broke_when_unfunded self ->
  broke_when_unfunded
    (fst (TradingEnvironment.apply_action now self action price timestamp
            prev_value)).
Proof.
  intros Hb.
  pose proof (apply_action_frame now self action price timestamp prev_value)
    as ((_ & Hic & _) & _).
  intros Hz. rewrite Hic in Hz. destruct (Hb Hz) as [Hc Hp].
  revert Hic. unfold TradingEnvironment.apply_action.
  destruct (action =? HOLD)%Z.
  { destruct (Qltb_spec cent
      (ExchangeMock.cash (TradingEnvironment.exchange self)
       * TradingEnvironment.hold_penalty_rate self)) as [Hpen|]; [|done].
    rewrite Hc in Hpen. unfold cent in Hpen. lra. }
  destruct (action =? BUY)%Z.
  { unfold ExchangeMock.buy.
    set (amount := prev_value * TradingEnvironment.risk_per_trade_pct self).
    destruct (Qleb_spec amount 0); [done|].
    destruct (Qltb_spec
      (Qmin amount (ExchangeMock.cash (TradingEnvironment.exchange self)))
      cent) as [|Hbig]; [done|].
    pose proof (Qmin_le_r amount
      (ExchangeMock.cash (TradingEnvironment.exchange self))).
    unfold cent in Hbig. lra. }
  destruct (action =? SELL)%Z; [|done].
  unfold ExchangeMock.sell. rewrite Hp, lookup_empty. done.
Qed.

(** A penalty is charged only out of positive cash, so only with capital. *)
Lemma apply_action_penalty (self : TradingEnvironment.t) (action : Z)
    (price : Q) (timestamp : datetime) (prev_value : Q)
    (fill : option Fill.t) (hold_penalty : Q) :
  broke_when_unfunded self ->
  snd (TradingEnvironment.apply_action now self action price timestamp
         prev_value) = Return (fill, hold_penalty) ->
  0 < hold_penalty ->
  ~ TradingEnvironment.initial_capital self == 0.
Proof.
  intros Hb Ha Hpos Hz. destruct (Hb Hz) as [Hc _].
  revert Ha. unfold TradingEnvironment.apply_action.
  destruct (action =? HOLD)%Z.
  { destruct (Qltb_spec cent
      (ExchangeMock.cash (TradingEnvironment.exchange self)
       * TradingEnvironment.hold_penalty_rate self)) as [Hpen|].
    - rewrite Hc in Hpen. unfold cent in Hpen. lra.
    - cbn. intros [= _ <-]. lra. }
  destruct (action =? BUY)%Z.
  { destruct (ExchangeMock.buy _ _ _ _ _ _) as [ex [f|e]]; cbn;
      [intros [= _ <-]; lra|discriminate]. }
  destruct (action =? SELL)%Z.
  { destruct (ExchangeMock.sell _ _ _ _ _ _) as [ex [[f|]|e]]; cbn;
      try discriminate; intros [= _ <-]; lra. }
  cbn. intros [= _ <-]. lra.
Qed.

Lemma broke_same_ledger (e e' : TradingEnvironment.t) :
  same_config e e' ->
  TradingEnvironment.exchange e' = TradingEnvironment.exchange e ->
  broke_when_unfunded e -> broke_when_unfunded e'.
Proof.
  intros (_ & Hic & _) Hex Hb. unfold broke_when_unfunded.
  by rewrite Hic, Hex.
Qed.

(** How [step] treats the score from a state in which [score_ok] holds. *)
Lemma step_score (self : TradingEnvironment.t) (action : Z) :
  score_ok self ->
  let r := TradingEnvironment.step now self action in
  score_ok (fst r) /\
  match snd r with
  | Return (_, reward, _, _, info) =>
    TradingEnvironment.score (fst r)
      == score_update_spec (TradingEnvironment.score self) reward
           (Info.hold_penalty info)
           (TradingEnvironment.initial_capital self)
    /\ Info.score info = TradingEnvironment.score (fst r)
  | Raise _ =>
    TradingEnvironment.score (fst r) = TradingEnvironment.score self
  end.
Proof.
  intros [Hrange Hb]. cbv zeta.
  destruct (step_cases now self action)
    as [[-> [[_ ->]|[_ ->]]]|(row & _ & _ & Hrest)]; try done.
  cbv zeta in Hrest.
  set (price := Row.close row) in *.
  set (prev_value :=
    ExchangeMock.get_portfolio_value (TradingEnvironment.exchange self)
      {[TradingEnvironment.symbol self := price]}) in *.
  pose proof (apply_action_frame now self action price (Row.timestamp row)
    prev_value) as (Hcfg & _ & _ & _ & _ & Hsc & _).
  pose proof (apply_action_broke self action price (Row.timestamp row)
    prev_value Hb) as Hb1.
  destruct Hrest as [(-> & e & _ & ->)|(fill & hp & Ha & Hrest)].
  { split; [split|]; try done. by rewrite Hsc. }
  destruct Hrest
    as [(Hhp & Hz & _)
       |(_ & Hex & Hcfg' & _ & _ & Hscore & obs & term & info & -> & _
         & Hinfo & Hiscore)].
  { by destruct (apply_action_penalty _ _ _ _ _ _ _ Hb Ha Hhp). }
  split; [split|split].
  - rewrite Hscore. apply Qclamp_range.
  - intros Hz. unfold broke_when_unfunded in Hb1.
    destruct Hcfg as (_ & Hic1 & _), Hcfg' as (_ & Hic' & _).
    rewrite Hex. apply Hb1. by rewrite Hic1, <- Hic'.
  - rewrite Hscore, Hinfo. unfold score_update_spec.
    apply Qclamp_spec.
  - exact Hiscore.
Qed.

Lemma step_same_config (self : TradingEnvironment.t) (action : Z) :
  same_config self (fst (TradingEnvironment.step now self action)).
Proof.
  destruct (step_cases now self action)
    as [[-> _]|(row & _ & _ & Hrest)]; [apply same_config_refl|].
  cbv zeta in Hrest.
  destruct Hrest as [(-> & _)|(fill & hp & _ & Hrest)].
  - apply apply_action_frame.
  - destruct Hrest as [(_ & _ & _ & Hc & _)|(_ & _ & Hc & _)]; exact Hc.
Qed.

Lemma run_steps_same_config (actions : list Z)
    (self : TradingEnvironment.t) :
  same_config self (run_steps now self actions).
Proof.
  revert self. induction actions as [|a actions IH]; intros self.
  - apply same_config_refl.
  - cbn. eapply same_config_trans; [apply step_same_config|apply IH].
Qed.

Lemma run_steps_score_ok (actions : list Z) (self : TradingEnvironment.t) :
  score_ok self -> score_ok (run_steps now self actions).
Proof.
  revert self. induction actions as [|a actions IH]; intros self Hok.
  - exact Hok.
  - cbn. apply IH. by apply step_score.
Qed.

Lemma reset_score_ok (self : TradingEnvironment.t) :
  ExchangeMock.initial_capital (TradingEnvironment.exchange self)
    = TradingEnvironment.initial_capital self ->
  score_ok (fst (TradingEnvironment.reset self)).
Proof.
  intros Hic. split; cbn.
  - split; vm_compute; discriminate.
  - intros Hz. cbn in *. rewrite Hic. by split.
Qed.
End Score.

(** ** The score rule *)

Section ScoreRule.
Variable now : datetime.

(** The penalty an action reports: the charge of a HOLD, and 0 for every
    other action. *)
Lemma apply_action_reports_penalty (self : TradingEnvironment.t) (action : Z)
    (price : Q) (timestamp : datetime) (prev_value : Q)
    (fill : option Fill.t) (hold_penalty : Q) :
  snd (TradingEnvironment.apply_action now self action price timestamp
         prev_value) = Return (fill, hold_penalty) ->
  let penalty :=
    ExchangeMock.cash (TradingEnvironment.exchange self)
    * TradingEnvironment.hold_penalty_rate self in
  hold_penalty
  = (if (action =? HOLD)%Z && (cent <? penalty) then penalty else 0).
Proof.
  unfold TradingEnvironment.apply_action. cbv zeta.
  destruct (action =? HOLD)%Z; cbn [andb].
  { destruct (cent <? _); cbn; by intros [= _ <-]. }
  destruct (action =? BUY)%Z.
  { destruct (ExchangeMock.buy _ _ _ _ _ _) as [ex [f|e]]; cbn;
      [by intros [= _ <-]|discriminate]. }
  destruct (action =? SELL)%Z.
  { destruct (ExchangeMock.sell _ _ _ _ _ _) as [ex [[f|]|e]]; cbn;
      try discriminate; by intros [= _ <-]. }
  cbn. by intros [= _ <-].
Qed.

(** An action raises only as a BUY at an execution price of zero. *)
Lemma apply_action_raises_at_zero (self : TradingEnvironment.t)
    (action : Z) (price : Q) (timestamp : datetime) (prev_value : Q)
    (e : exn) :
  snd (TradingEnvironment.apply_action now self action price timestamp
         prev_value) = Raise e ->
  action = BUY
  /\ price * (1 + ExchangeMock.slippage (TradingEnvironment.exchange self))
     == 0.
Proof.
  unfold TradingEnvironment.apply_action.
  destruct (action =? HOLD)%Z; [qcase; discriminate|].
  destruct (Z.eqb_spec action BUY) as [->|_].
  { unfold ExchangeMock.buy.
    set (amount := prev_value * TradingEnvironment.risk_per_trade_pct self).
    destruct (Qleb_spec amount 0); [discriminate|].
    destruct (Qltb_spec
      (Qmin amount (ExchangeMock.cash (TradingEnvironment.exchange self)))
      cent); [discriminate|].
    destruct (Qeqb_spec
      (price * (1 + ExchangeMock.slippage (TradingEnvironment.exchange self)))
      0); [done|discriminate]. }
  destruct (action =? SELL)%Z; [|discriminate].
  unfold ExchangeMock.sell.
  destruct (ExchangeMock.positions _ !! _); [|discriminate].
  destruct (negb _); [discriminate|]. qcase; discriminate.
Qed.

(** What a [step] reports, and why it raises when it does. *)
Lemma step_reports (self : TradingEnvironment.t) (action : Z) :
  score_ok self ->
  let r := TradingEnvironment.step now self action in
  match snd r with
  | Return (_, reward, _, _, info) =>
    exists row,
      TradingEnvironment.done self = false
      /\ iloc (TradingEnvironment.data self)
           (TradingEnvironment.current_step self) = Some row
      /\ let price := Row.close row in
         let prev_value :=
           ExchangeMock.get_portfolio_value (TradingEnvironment.exchange self)
             {[TradingEnvironment.symbol self := price]} in
         let current_value :=
           ExchangeMock.get_portfolio_value
             (TradingEnvironment.exchange (fst r))
             {[TradingEnvironment.symbol self := price]} in
         let penalty :=
           ExchangeMock.cash (TradingEnvironment.exchange self)
           * TradingEnvironment.hold_penalty_rate self in
         reward
         = (if 0 <? prev_value then (current_value - prev_value) / prev_value
            else 0)
         /\ Info.hold_penalty info
            = (if (action =? HOLD)%Z && (cent <? penalty) then penalty
               else 0)
  | Raise _ =>
    TradingEnvironment.done self = true
    \/ iloc (TradingEnvironment.data self)
         (TradingEnvironment.current_step self) = None
    \/ action = BUY
       /\ exists row,
            iloc (TradingEnvironment.data self)
              (TradingEnvironment.current_step self) = Some row
            /\ Row.close row
               * (1 + ExchangeMock.slippage (TradingEnvironment.exchange self))
               == 0
  end.
Proof.
  intros [_ Hb]. cbv zeta. unfold TradingEnvironment.step.
  destruct (TradingEnvironment.done self) eqn:Hdone; [cbn; by left|].
  destruct (iloc (TradingEnvironment.data self)
              (TradingEnvironment.current_step self)) as [row|] eqn:Hrow;
    [|cbn; by right; left].
  cbv zeta.
  set (price := Row.close row).
  set (prev_value :=
    ExchangeMock.get_portfolio_value (TradingEnvironment.exchange self)
      {[TradingEnvironment.symbol self := price]}).
  pose proof (apply_action_frame now self action price (Row.timestamp row)
    prev_value) as ((Hdata1 & Hic1 & _ & _ & Hsym1 & _) & Hcs1 & _).
  pose proof (apply_action_reports_penalty self action price
    (Row.timestamp row) prev_value) as Hpen.
  pose proof (apply_action_penalty now self action price (Row.timestamp row)
    prev_value) as Hfunded.
  pose proof (apply_action_raises_at_zero self action price
    (Row.timestamp row) prev_value) as Hzero.
  destruct (TradingEnvironment.apply_action _ _ _ _ _ _)
    as [s1 [[f hp]|e]]; cbn [fst snd] in *.
  2: { right; right. destruct (Hzero e eq_refl) as [-> Hp].
       split; [done|]. by exists row. }
  specialize (Hpen f hp eq_refl). cbv zeta in Hpen.
  cbn [TradingEnvironment.data TradingEnvironment.current_step
       TradingEnvironment.set_equity_curve TradingEnvironment.initial_capital
       TradingEnvironment.score TradingEnvironment.exchange
       TradingEnvironment.symbol].
  rewrite Hdata1, Hcs1, Hic1, Hsym1.
  destruct (Qltb_spec 0 hp) as [Hhp|Hhp];
    [destruct (Qeqb_spec (TradingEnvironment.initial_capital self) 0)
       as [Hz|Hz]|]; cbn [andb].
  - by destruct (Hfunded f hp Hb eq_refl Hhp).
  - destruct (_ <=? _)%Z eqn:Hterm.
    + cbn. exists row. by repeat split.
    + destruct (iloc_next _ _ _ Hrow Hterm) as [row' Hrow'].
      unfold TradingEnvironment._get_observation.
      cbn [TradingEnvironment.data TradingEnvironment.current_step].
      rewrite Hrow'. cbn. exists row. by repeat split.
  - destruct (_ <=? _)%Z eqn:Hterm.
    + cbn. exists row. by repeat split.
    + destruct (iloc_next _ _ _ Hrow Hterm) as [row' Hrow'].
      unfold TradingEnvironment._get_observation.
      cbn [TradingEnvironment.data TradingEnvironment.current_step].
      rewrite Hrow'. cbn. exists row. by repeat split.
Qed.

(** C4. After [reset] the score is 1000; after [reset] and any sequence of
    actions it lies in [0, 1000], before and after one more [step].  A
    [step] that returns reports the reward
    (current_value - prev_value) / prev_value (0 when prev_value is not
    positive), the two values being those of the portfolio at the close of
    the row before and after the action, and the hold penalty, which is
    cash * hold_penalty_rate for a HOLD when that exceeds 0.01 and 0
    otherwise; it sets the score to the clamp to [0, 1000] of the old score
    plus reward * 100 for a positive reward, plus reward * 150 for a
    negative one, minus (penalty / initial_capital) * 50 when a hold
    penalty was applied.  A [step] raises, and then leaves the score as it
    was, only when the engine is done, when there is no row at the cursor,
    or for a BUY at an execution price of zero. *)
Theorem score_bounded_and_updated (data : list Row.t)
    (initial_capital fee_rate slippage risk_per_trade_pct : Q)
    (window_size : Z) (symbol : string) (hold_penalty_rate : Q)
    (actions : list Z) (action : Z) :
  let env0 :=
    fst (TradingEnvironment.reset
           (TradingEnvironment.init data initial_capital fee_rate slippage
              risk_per_trade_pct window_size symbol hold_penalty_rate)) in
  let env := run_steps now env0 actions in
  let r := TradingEnvironment.step now env action in
  TradingEnvironment.score env0 = 1000 /\
  0 <= TradingEnvironment.score env <= 1000 /\
  0 <= TradingEnvironment.score (fst r) <= 1000 /\
  match snd r with
  | Return (_, reward, _, _, info) =>
    TradingEnvironment.score (fst r)
      == score_update_spec (TradingEnvironment.score env) reward
           (Info.hold_penalty info) initial_capital
    /\ Info.score info = TradingEnvironment.score (fst r)
    /\ exists row,
         TradingEnvironment.done env = false
         /\ iloc data (TradingEnvironment.current_step env) = Some row
         /\ let price := Row.close row in
            let prev_value :=
              ExchangeMock.get_portfolio_value
                (TradingEnvironment.exchange env) {[symbol := price]} in
            let current_value :=
              ExchangeMock.get_portfolio_value
                (TradingEnvironment.exchange (fst r)) {[symbol := price]} in
            let penalty :=
              ExchangeMock.cash (TradingEnvironment.exchange env)
              * hold_penalty_rate in
            reward
            = (if 0 <? prev_value
               then (current_value - prev_value) / prev_value else 0)
            /\ Info.hold_penalty info
               = (if (action =? HOLD)%Z && (cent <? penalty) then penalty
                  else 0)
  | Raise _ =>
    TradingEnvironment.score (fst r) = TradingEnvironment.score env
    /\ (TradingEnvironment.done env = true
        \/ iloc data (TradingEnvironment.current_step env) = None
        \/ action = BUY
           /\ exists row,
                iloc data (TradingEnvironment.current_step env) = Some row
                /\ Row.close row * (1 + slippage) == 0)
  end.
Proof.
  intros env0 env r.
  assert (score_ok env) as Hok.
  { apply run_steps_score_ok, reset_score_ok. reflexivity. }
  split; [reflexivity|]. split; [apply Hok|].
  destruct (run_steps_same_config now actions env0)
    as (Hd & Hic & _ & _ & Hsym & Hh & _ & _ & Hslip).
  fold env in Hd, Hic, Hsym, Hh, Hslip. cbn in Hd, Hic, Hsym, Hh, Hslip.
  pose proof (step_score now env action Hok) as [Hok' Hstep].
  pose proof (step_reports env action Hok) as Hrep.
  cbv zeta in Hstep, Hrep, Hok'. fold r in Hstep, Hrep, Hok'.
  rewrite Hic in Hstep. rewrite Hd, Hsym, Hh, Hslip in Hrep.
  split; [apply Hok'|].
  destruct (snd r) as [[[[[obs reward] term] trunc] info]|e].
  - destruct Hstep as [Hs Hi]. by repeat split.
  - by split.
Qed.
End ScoreRule.

Lemma score_bounded_and_updated_witness :
  let penalized := TradingEnvironment.step 0%Z env_A_reset HOLD in
  let before :=
    run_steps 0%Z (fst (TradingEnvironment.reset env_rebate)) [HOLD] in
  let rebated := TradingEnvironment.step 0%Z before BUY in
  (exists obs reward terminated truncated info,
     snd penalized = Return (obs, reward, terminated, truncated, info)
     /\ reward == - (5 # 100)
     /\ Info.hold_penalty info == 5
     /\ TradingEnvironment.score (fst penalized)
        == score_update_spec 1000 reward (Info.hold_penalty info) 100
     /\ TradingEnvironment.score (fst penalized) == 990)
  /\ (exists obs reward terminated truncated info,
        snd rebated = Return (obs, reward, terminated, truncated, info)
        /\ 0 < reward
        /\ Info.hold_penalty info == 0
        /\ TradingEnvironment.score before == 990
        /\ TradingEnvironment.score (fst rebated)
           == score_update_spec (TradingEnvironment.score before) reward
                (Info.hold_penalty info) 100
        /\ TradingEnvironment.score (fst rebated) == 990 + reward * 100
        /\ 990 < TradingEnvironment.score (fst rebated) < 1000).
Proof.
  split.
  - pose proof (score_bounded_and_updated 0%Z rows_A 100 (1 # 1000)
                  (5 # 10000) (1 # 2) 1%Z "BTCUSDT" (5 # 100) [] HOLD)
      as (_ & _ & _ & Hstep).
    cbv zeta in Hstep. cbn [run_steps fold_left] in Hstep.
    change (fst (TradingEnvironment.reset
                   (TradingEnvironment.init rows_A 100 (1 # 1000) (5 # 10000)
                      (1 # 2) 1%Z "BTCUSDT" (5 # 100))))
      with env_A_reset in Hstep.
    destruct (TradingEnvironment.step 0%Z env_A_reset HOLD)
      as [e [[[[[obs reward] term] trunc] info]|ex]] eqn:E;
      cbn [fst snd] in *.
    2: { exfalso. revert E. vm_compute. discriminate. }
    destruct Hstep as (Hscore & _ & _).
    assert (reward == - (5 # 100) /\ Info.hold_penalty info == 5
            /\ TradingEnvironment.score e == 990) as (Hr & Hp & Hs).
    { revert E. vm_compute. intros [= <- _ <- _ _ <-]. by repeat split. }
    exists obs, reward, term, trunc, info.
    repeat split; try done.
  - pose proof (score_bounded_and_updated 0%Z rows_A 100 (1 # 1000)
                  (- (1 # 10)) (1 # 2) 1%Z "BTCUSDT" (5 # 100) [HOLD] BUY)
      as (_ & _ & _ & Hstep).
    cbv zeta in Hstep.
    change (TradingEnvironment.init rows_A 100 (1 # 1000) (- (1 # 10))
              (1 # 2) 1%Z "BTCUSDT" (5 # 100))
      with env_rebate in Hstep.
    set (before :=
      run_steps 0%Z (fst (TradingEnvironment.reset env_rebate)) [HOLD]) in *.
    assert (TradingEnvironment.score before == 990) as Hbefore
      by (vm_compute; reflexivity).
    destruct (TradingEnvironment.step 0%Z before BUY)
      as [e [[[[[obs reward] term] trunc] info]|ex]] eqn:E;
      cbn [fst snd] in *.
    2: { exfalso. revert E. vm_compute. discriminate. }
    destruct Hstep as (Hscore & _ & _).
    assert (0 < reward /\ reward < 1 # 10 /\ Info.hold_penalty info == 0)
      as (Hr & Hr' & Hp).
    { revert E. vm_compute. intros [= <- _ <- _ _ <-]. by repeat split. }
    assert (TradingEnvironment.score e == 990 + reward * 100) as Hs.
    { rewrite Hscore. unfold score_update_spec, clamp.
      set (s := TradingEnvironment.score before) in *.
      destruct (Qltb_spec 0 reward); [|lra].
      destruct (Qltb_spec 0 (Info.hold_penalty info)); [lra|].
      destruct (Qltb_spec (s + reward * 100) 0); [lra|].
      destruct (Qltb_spec 1000 (s + reward * 100)); lra. }
    exists obs, reward, term, trunc, info.
    repeat split; try done; lra.
Defined.

(** ** The P&L recorded by a SELL step *)

Section TradePnl.
Variable now : datetime.

(** What a filled SELL returns and writes. *)
Lemma sell_fill_inv (self self' : ExchangeMock.t) (symbol : string)
    (market_price : Q) (timestamp : option datetime) (f : Fill.t) :
  ExchangeMock.sell now self symbol None market_price timestamp
    = (self', Return (Some f)) ->
  exists pos,
    ExchangeMock.positions self !! symbol = Some pos /\
    Fill.quantity f == Position.quantity pos /\
    Fill.total_cost f == Fill.quantity f * Fill.price f - Fill.fee f /\
    ExchangeMock.realized_pnl self'
      == ExchangeMock.realized_pnl self
         + (Fill.total_cost f
            - Position.avg_entry_price pos * Fill.quantity f).
Proof.
  unfold ExchangeMock.sell.
  destruct (ExchangeMock.positions self !! symbol) as [pos|];
    [|discriminate].
  destruct (negb _); [discriminate|]. cbn [default].
  destruct (Qltb_spec (Qmin (Position.quantity pos) (Position.quantity pos))
              dust); [discriminate|].
  intros [= <- <-]. exists pos. cbn.
  assert (Qmin (Position.quantity pos) (Position.quantity pos)
          == Position.quantity pos) as Hq by apply Q.min_id.
  repeat split; try done; ring.
Qed.

(** For every SELL step that fills, the value appended to [trade_pnls] is
    the fill's net proceeds minus its own gross value, that is minus the
    fee, whatever the entry price was. *)
Lemma sell_step_records_minus_fee (self : TradingEnvironment.t)
    (price : Q) (timestamp : datetime) (prev_value : Q)
    (self1 : TradingEnvironment.t) (f : Fill.t) (hold_penalty : Q) :
  TradingEnvironment.apply_action now self SELL price timestamp prev_value
    = (self1, Return (Some f, hold_penalty)) ->
  exists recorded,
    TradingEnvironment.trade_pnls self1
      = TradingEnvironment.trade_pnls self ++ [recorded]
    /\ recorded == - Fill.fee f.
Proof.
  unfold TradingEnvironment.apply_action. cbn [Z.eqb SELL HOLD BUY].
  destruct (ExchangeMock.sell _ _ _ _ _ _) as [ex [[f'|]|e]] eqn:Hs;
    try discriminate.
  intros [= <- <- _]. eexists. split; [reflexivity|].
  apply sell_fill_inv in Hs as (pos & _ & _ & Hnet & _).
  rewrite Hnet. ring.
Qed.
End TradePnl.

(** C3 at Scenario A played through the engine (reset, BUY at 100, SELL at
    110): the ledger realizes a profit of about 4.88519 on the fill, and the
    value recorded for analytics is about -0.054890, minus the fee. *)
Theorem sell_step_pnl_scenario :
  match TradingEnvironment.trade_pnls env_A_terminal with
  | [recorded] =>
    approx recorded (-0.054890) (1 # 1000000)
    /\ approx
         (ExchangeMock.realized_pnl
            (TradingEnvironment.exchange env_A_terminal))
         4.88519 (1 # 100000)
    /\ recorded < 0
         < ExchangeMock.realized_pnl
             (TradingEnvironment.exchange env_A_terminal)
  | _ => False
  end.
Proof.
  vm_compute. repeat split; (reflexivity || discriminate).
Qed.

(** ** Drawdown *)

Lemma dd_iter_inv (st : MetricsEngine.dd_state) (i : Z) (val : Q) :
  dd_inv st -> 0 <= val -> dd_inv (MetricsEngine.dd_iter st i val).
Proof.
  intros (Hpeak & m & Hm & Hrange) Hval. unfold MetricsEngine.dd_iter.
  destruct (Qleb_spec (MetricsEngine.peak st) val) as [|Hlt].
  { split; cbn; [done|eauto]. }
  apply Qnot_le_lt in Hlt.
  destruct (Qeqb_spec (MetricsEngine.peak st) 0) as [Hz|_]; [lra|].
  rewrite Hm. cbn [xgtb]. qcase; [|split; eauto].
  split; cbn; [done|]. eexists. split; [reflexivity|]. split.
  - apply Qle_shift_div_l; lra.
  - apply Qle_shift_div_r; lra.
Qed.

Lemma dd_loop_inv (values : list Q) (i : Z) (st : MetricsEngine.dd_state) :
  Forall (fun v => 0 <= v) values -> dd_inv st ->
  dd_inv (MetricsEngine.dd_loop values i st).
Proof.
  revert i st. induction values as [|v values IH]; intros i st Hall Hst.
  - exact Hst.
  - apply Forall_cons in Hall as [Hv Hall]. cbn.
    apply IH; [done|]. by apply dd_iter_inv.
Qed.

(** C8. On [100, 120, 90, 110] the maximum drawdown is 25 percent with a
    duration of 1 step; a trajectory of fewer than 2 points gives (0, 0); and
    on every trajectory of non-negative values the percentage is finite and
    lies in [0, 100]. *)
Theorem max_drawdown_bounded (equity_curve : list Q) :
  (exists pct,
     MetricsEngine.max_drawdown curve_C = (Finite pct, 1%Z) /\ pct == 25)
  /\ ((length equity_curve < 2)%nat ->
      MetricsEngine.max_drawdown equity_curve = (Finite 0, 0%Z))
  /\ (Forall (fun v => 0 <= v) equity_curve ->
      exists pct,
        fst (MetricsEngine.max_drawdown equity_curve) = Finite pct
        /\ 0 <= pct <= 100).
Proof.
  split; [|split].
  - eexists. split; vm_compute; reflexivity.
  - destruct equity_curve as [|v0 [|v1 rest]]; cbn; intros H;
      (reflexivity || lia).
  - intros Hall. unfold MetricsEngine.max_drawdown.
    destruct equity_curve as [|v0 [|v1 rest]].
    1,2: exists 0; split; [reflexivity|lra].
    cbn [fst].
    destruct (dd_loop_inv (v0 :: v1 :: rest) 0%Z
                (MetricsEngine.mk_dd v0 (Finite 0) 0 0 0) Hall)
      as (_ & m & -> & Hm).
    + apply Forall_cons in Hall as [Hv0 _].
      split; cbn; [done|]. exists 0. split; [done|lra].
    + exists (m * 100). split; [reflexivity|lra].
Qed.

Lemma max_drawdown_bounded_witness :
  MetricsEngine.max_drawdown [100] = (Finite 0, 0%Z)
  /\ exists pct,
       fst (MetricsEngine.max_drawdown curve_C) = Finite pct
       /\ 0 <= pct <= 100.
Proof.
  split.
  - apply (proj1 (proj2 (max_drawdown_bounded [100]))). vm_compute. lia.
  - apply (proj2 (proj2 (max_drawdown_bounded curve_C))).
    repeat constructor; vm_compute; discriminate.
Defined.

(** ** Trade statistics *)

Lemma fold_left_Qplus (l : list Q) (a : Q) :
  fold_left Qplus l a == a + fold_left Qplus l 0.
Proof.
  revert a. induction l as [|x l IH]; intros a; cbn.
  - ring.
  - rewrite (IH (a + x)), (IH (0 + x)). ring.
Qed.

Lemma pysum_filter (f : Q -> bool) (l : list Q) :
  pysum (List.filter f l) == sum_where f l.
Proof.
  unfold pysum. induction l as [|x l IH]; cbn; [reflexivity|].
  destruct (f x); [|exact IH].
  cbn. rewrite fold_left_Qplus, IH. ring.
Qed.

Lemma length_filter_count (f : Q -> bool) (l : list Q) :
  length (List.filter f l) = count_where f l.
Proof.
  induction l as [|x l IH]; cbn; [reflexivity|].
  destruct (f x); cbn; by rewrite IH.
Qed.

Lemma count_wins_losses (l : list Q) :
  (count_where is_win l + count_where is_loss l = length l)%nat.
Proof.
  induction l as [|x l IH]; cbn; [reflexivity|].
  unfold is_win, is_loss, Qltb, Qleb in *.
  destruct (Qle_bool x 0); cbn; lia.
Qed.

(** The two sums as the code guards them. *)
Lemma guarded_sum (f : Q -> bool) (l : list Q) :
  match List.filter f l with [] => 0 | _ => pysum (List.filter f l) end
  == sum_where f l.
Proof.
  rewrite <- pysum_filter. by destruct (List.filter f l).
Qed.

Lemma guarded_abs_sum (f : Q -> bool) (l : list Q) :
  match List.filter f l with
  | [] => 0
  | _ => Qabs (pysum (List.filter f l))
  end == Qabs (sum_where f l).
Proof.
  rewrite <- pysum_filter. by destruct (List.filter f l).
Qed.

(** C9. The statistics count the wins (P&L > 0) and the losses (P&L <= 0);
    with trades, the win rate is wins / total * 100; the profit factor is the
    gross profit over the absolute gross loss when that is positive, +inf
    when there are wins and the gross loss is zero, and 0 without trades; and
    the P&Ls [5, 3, 2] give +inf and 100 percent. *)
Theorem analyze_trades_spec (trade_pnls : list Q) :
  let stats := MetricsEngine.analyze_trades trade_pnls in
  let wins := count_where is_win trade_pnls in
  let losses := count_where is_loss trade_pnls in
  let gross_profit := sum_where is_win trade_pnls in
  let gross_loss := Qabs (sum_where is_loss trade_pnls) in
  TradeStats.total_trades stats = length trade_pnls
  /\ TradeStats.winning_trades stats = wins
  /\ TradeStats.losing_trades stats = losses
  /\ (wins + losses)%nat = length trade_pnls
  /\ (trade_pnls <> [] ->
      TradeStats.win_rate stats
        == of_nat wins / of_nat (length trade_pnls) * 100)
  /\ (0 < gross_loss ->
      exists pf,
        TradeStats.profit_factor stats = Finite pf
        /\ pf == gross_profit / gross_loss)
  /\ ((0 < wins)%nat -> gross_loss == 0 ->
      TradeStats.profit_factor stats = PosInf)
  /\ (trade_pnls = [] ->
      TradeStats.profit_factor stats = Finite 0
      /\ TradeStats.win_rate stats == 0)
  /\ TradeStats.profit_factor (MetricsEngine.analyze_trades [5; 3; 2])
     = PosInf
  /\ TradeStats.win_rate (MetricsEngine.analyze_trades [5; 3; 2]) == 100.
Proof.
  cbv zeta.
  pose proof (guarded_sum is_win trade_pnls) as Hgp.
  pose proof (guarded_abs_sum is_loss trade_pnls) as Hgl.
  pose proof (length_filter_count is_win trade_pnls) as Hw.
  pose proof (length_filter_count is_loss trade_pnls) as Hl.
  pose proof (count_wins_losses trade_pnls) as Hsum.
  destruct trade_pnls as [|p rest].
  { cbn. repeat split; try done; try lra; try lia. }
  set (l := p :: rest) in *.
  unfold MetricsEngine.analyze_trades. fold l.
  change (match l with [] => _ | _ :: _ => ?x end) with x.
  cbn [TradeStats.total_trades TradeStats.winning_trades
       TradeStats.losing_trades TradeStats.win_rate
       TradeStats.profit_factor].
  fold is_win is_loss.
  repeat split; try done.
  - intros _. unfold len, of_nat. by rewrite Hw.
  - intros Hpos. rewrite <- Hgl in Hpos.
    destruct (Qltb_spec 0
      (match List.filter is_loss l with
       | [] => 0
       | _ :: _ => Qabs (pysum (List.filter is_loss l))
       end)) as [_|Hn]; [|contradiction].
    eexists. split; [reflexivity|]. by rewrite Hgp, Hgl.
  - intros _ Hzero. rewrite <- Hgl in Hzero.
    destruct (Qltb_spec 0
      (match List.filter is_loss l with
       | [] => 0
       | _ :: _ => Qabs (pysum (List.filter is_loss l))
       end)) as [Hp|_]; [lra|reflexivity].
Qed.

Lemma analyze_trades_spec_witness :
  (TradeStats.win_rate (MetricsEngine.analyze_trades [5; -3; 2])
     == of_nat 2 / of_nat 3 * 100)
  /\ (exists pf,
       TradeStats.profit_factor (MetricsEngine.analyze_trades [5; -3; 2])
         = Finite pf
       /\ pf == 7 / 3)
  /\ TradeStats.profit_factor (MetricsEngine.analyze_trades [5; 3; 2])
     = PosInf
  /\ TradeStats.profit_factor (MetricsEngine.analyze_trades []) = Finite 0.
Proof.
  pose proof (analyze_trades_spec [5; -3; 2])
    as (_ & _ & _ & _ & Hrate & Hpf & _).
  pose proof (analyze_trades_spec [5; 3; 2])
    as (_ & _ & _ & _ & _ & _ & Hinf & _).
  pose proof (analyze_trades_spec [])
    as (_ & _ & _ & _ & _ & _ & _ & Hnone & _).
  split; [|split; [|split]].
  - apply Hrate. discriminate.
  - destruct Hpf as (pf & E & Hpf); [vm_compute; reflexivity|].
    exists pf. split; [exact E|]. rewrite Hpf. vm_compute. reflexivity.
  - apply Hinf; [vm_compute; lia|vm_compute; reflexivity].
  - apply Hnone. reflexivity.
Defined.

(** * Further properties of the ledger *)

Section Selling.
Variable now : datetime.

(** X1. With nothing to sell the ledger is left as it was and the call
    returns no fill; and [sell] raises for no arguments at all. *)
Theorem sell_nothing_is_noop (self : ExchangeMock.t) (symbol : string)
    (quantity : option Q) (market_price : Q) (timestamp : option datetime) :
  (nothing_to_sell self symbol quantity ->
   ExchangeMock.sell now self symbol quantity market_price timestamp
     = (self, Return None))
  /\ (forall e,
       snd (ExchangeMock.sell now self symbol quantity market_price timestamp)
         <> Raise e).
Proof.
  unfold nothing_to_sell, ExchangeMock.sell, Position.is_open.
  destruct (ExchangeMock.positions self !! symbol) as [pos|]; [|done].
  destruct (Qltb_spec dust (Position.quantity pos)) as [Hopen|Hclosed];
    cbn [negb]; [|done].
  set (q := Qmin (default (Position.quantity pos) quantity)
              (Position.quantity pos)).
  destruct (Qltb_spec q dust) as [Hq|Hq]; [done|].
  split; [|done]. intros [Hle|(r & -> & Hr)]; [lra|].
  cbn in q. pose proof (Q.le_min_l r (Position.quantity pos)).
  fold q in H. lra.
Qed.

(** X2. A SELL that fills sells the requested quantity clamped to the
    quantity held (all of it when none is requested), at the market price
    less slippage; the fee is the rate times the gross value, the cash grows
    by the net value, the realized P&L by the net value less the cost basis
    of what was sold, and the fill is appended to the history. *)
Theorem sell_value_conservation (self self' : ExchangeMock.t)
    (symbol : string) (quantity : option Q) (market_price : Q)
    (timestamp : option datetime) (f : Fill.t) :
  ExchangeMock.sell now self symbol quantity market_price timestamp
    = (self', Return (Some f)) ->
  exists pos,
    ExchangeMock.positions self !! symbol = Some pos /\
    let q :=
      Qmin (default (Position.quantity pos) quantity) (Position.quantity pos)
    in
    let gross := q * (market_price * (1 - ExchangeMock.slippage self)) in
    dust <= q <= Position.quantity pos /\
    Fill.side f = "SELL" /\
    Fill.quantity f = q /\
    Fill.price f = market_price * (1 - ExchangeMock.slippage self) /\
    Fill.fee f == gross * ExchangeMock.fee_rate self /\
    Fill.total_cost f == gross - Fill.fee f /\
    ExchangeMock.cash self' == ExchangeMock.cash self + Fill.total_cost f /\
    ExchangeMock.realized_pnl self'
      == ExchangeMock.realized_pnl self
         + (Fill.total_cost f - Position.avg_entry_price pos * q) /\
    ExchangeMock.trade_history self'
      = ExchangeMock.trade_history self ++ [f].
Proof.
  unfold ExchangeMock.sell.
  destruct (ExchangeMock.positions self !! symbol) as [pos|];
    [|discriminate].
  destruct (negb _); [discriminate|].
  set (q := Qmin (default (Position.quantity pos) quantity)
              (Position.quantity pos)).
  destruct (Qltb_spec q dust) as [|Hq]; [discriminate|].
  intros [= <- <-]. exists pos. split; [done|]. cbn.
  pose proof (Qmin_le_r (default (Position.quantity pos) quantity)
                (Position.quantity pos)) as Hle. fold q in Hle.
  repeat split; try done; try reflexivity; try ring; fold q; lra.
Qed.
End Selling.

Lemma sell_nothing_is_noop_witness :
  ExchangeMock.sell 0%Z ledger_A "BTCUSDT" None 110 None
    = (ledger_A, Return None)
  /\ ExchangeMock.sell 0%Z (fst scenario_A_buy) "BTCUSDT"
       (Some (1 # 100000000000)) 110 None
     = (fst scenario_A_buy, Return None).
Proof.
  split.
  - apply (proj1 (sell_nothing_is_noop 0%Z ledger_A "BTCUSDT" None 110 None)).
    vm_compute. exact I.
  - apply (proj1 (sell_nothing_is_noop 0%Z (fst scenario_A_buy) "BTCUSDT"
                    (Some (1 # 100000000000)) 110 None)).
    right. eexists. split; [reflexivity|]. vm_compute. reflexivity.
Defined.

Lemma sell_value_conservation_witness :
  exists pos,
    ExchangeMock.positions (fst scenario_A_buy) !! "BTCUSDT" = Some pos /\
    ExchangeMock.cash (fst scenario_A_sell)
      == ExchangeMock.cash (fst scenario_A_buy)
         + Fill.total_cost (fill_of scenario_A_sell).
Proof.
  destruct (sell_value_conservation 0%Z (fst scenario_A_buy)
              (fst scenario_A_sell) "BTCUSDT" None 110 None
              (fill_of scenario_A_sell))
    as (pos & Hpos & H); [vm_compute; reflexivity|].
  exists pos. split; [exact Hpos|]. cbv zeta in H. tauto.
Defined.

Section Averaging.
Variable now : datetime.

(** X3. A BUY that fills adds the bought quantity to the position and the
    amount net of fee to its invested total; the new average entry price
    times the new quantity is the old cost basis plus the cost of the lot,
    so the average lies between the old average and the execution price,
    and is the execution price when the position was empty. *)
Theorem buy_weighted_average (self self' : ExchangeMock.t) (symbol : string)
    (usd_amount market_price : Q) (timestamp : option datetime)
    (f : Fill.t) :
  ExchangeMock.buy now self symbol usd_amount market_price timestamp
    = (self', Return (Some f)) ->
  let old :=
    default (Position.new symbol) (ExchangeMock.positions self !! symbol) in
  exists pos',
    ExchangeMock.positions self' !! symbol = Some pos' /\
    Position.quantity pos' = Position.quantity old + Fill.quantity f /\
    Position.total_invested pos'
      == Position.total_invested old + (Fill.total_cost f - Fill.fee f) /\
    (0 < Position.quantity pos' ->
     Position.avg_entry_price pos' * Position.quantity pos'
       == Position.avg_entry_price old * Position.quantity old
          + Fill.price f * Fill.quantity f) /\
    (0 <= Position.quantity old -> 0 < Fill.quantity f ->
     Qmin (Position.avg_entry_price old) (Fill.price f)
       <= Position.avg_entry_price pos'
       <= Qmax (Position.avg_entry_price old) (Fill.price f)) /\
    (Position.quantity old == 0 -> 0 < Fill.quantity f ->
     Position.avg_entry_price pos' == Fill.price f).
Proof.
  unfold ExchangeMock.buy.
  destruct (Qleb_spec usd_amount 0); [discriminate|].
  destruct (Qltb_spec (Qmin usd_amount (ExchangeMock.cash self)) cent);
    [discriminate|].
  destruct (Qeqb_spec (market_price * (1 + ExchangeMock.slippage self)) 0);
    [discriminate|].
  intros [= <- <-]. cbv zeta. cbn [ExchangeMock.positions].
  rewrite lookup_insert_eq. eexists. split; [reflexivity|].
  cbn [Position.quantity Position.total_invested Position.avg_entry_price
       Fill.quantity Fill.total_cost Fill.fee Fill.price].
  set (old := default (Position.new symbol)
                (ExchangeMock.positions self !! symbol)).
  set (P := market_price * (1 + ExchangeMock.slippage self)).
  set (q := (Qmin usd_amount (ExchangeMock.cash self)
             - Qmin usd_amount (ExchangeMock.cash self)
               * ExchangeMock.fee_rate self) / P).
  set (A := Position.avg_entry_price old).
  set (Q0 := Position.quantity old).
  split; [reflexivity|]. split; [reflexivity|].
  destruct (Qltb_spec 0 (Q0 + q)) as [HT|HT].
  - assert ((A * Q0 + P * q) / (Q0 + q) * (Q0 + q) == A * Q0 + P * q) as Hmul
      by (field; lra).
    split; [intros _; exact Hmul|]. split.
    + intros HQ0 Hq.
      destruct (Q.min_spec A P) as [[HAP ->]|[HAP ->]];
      destruct (Q.max_spec A P) as [[HAP' ->]|[HAP' ->]]; try lra;
        (split; [apply Qle_shift_div_l|apply Qle_shift_div_r]; try lra; nra).
    + intros HQ0 Hq. rewrite HQ0. field. lra.
  - split; [intros H; lra|]. split; intros; lra.
Qed.
End Averaging.

Lemma buy_weighted_average_witness :
  let old :=
    default (Position.new "BTCUSDT")
      (ExchangeMock.positions ledger_first_lot !! "BTCUSDT") in
  exists pos',
    ExchangeMock.positions (fst second_lot) !! "BTCUSDT" = Some pos'
    /\ Qmin (Position.avg_entry_price old) (Fill.price (fill_of second_lot))
       <= Position.avg_entry_price pos'
       <= Qmax (Position.avg_entry_price old)
            (Fill.price (fill_of second_lot)).
Proof.
  destruct (buy_weighted_average 0%Z ledger_first_lot (fst second_lot)
              "BTCUSDT" 10 80 None (fill_of second_lot))
    as (pos' & Hpos & _ & _ & _ & Hbetween & _); [vm_compute; reflexivity|].
  exists pos'. split; [exact Hpos|].
  apply Hbetween; [vm_compute; discriminate|vm_compute; reflexivity].
Defined.

Section LedgerRuns.
Variable now : datetime.

Lemma net_cash_flow_app (h1 h2 : list Fill.t) :
  net_cash_flow (h1 ++ h2) == net_cash_flow h1 + net_cash_flow h2.
Proof.
  induction h1 as [|f h1 IH]; cbn; [ring|]. rewrite IH. ring.
Qed.

(** One ledger call: the configuration stays, the history grows by the fills
    of the call (none or one), and the cash moves by their cash flow. *)
Lemma apply_op_effect (self : ExchangeMock.t) (op : ledger_op) :
  let self' := apply_op now self op in
  ExchangeMock.initial_capital self' = ExchangeMock.initial_capital self
  /\ ExchangeMock.fee_rate self' = ExchangeMock.fee_rate self
  /\ ExchangeMock.slippage self' = ExchangeMock.slippage self
  /\ exists fills,
       ExchangeMock.trade_history self'
         = ExchangeMock.trade_history self ++ fills
       /\ (length fills <= 1)%nat
       /\ ExchangeMock.cash self'
          == ExchangeMock.cash self + net_cash_flow fills.
Proof.
  destruct op as [sym a p ts|sym q p ts]; cbn.
  - unfold ExchangeMock.buy.
    destruct (Qleb_spec a 0);
      [|destruct (Qltb_spec (Qmin a (ExchangeMock.cash self)) cent);
        [|destruct (Qeqb_spec (p * (1 + ExchangeMock.slippage self)) 0)]];
      cbn; repeat split;
      try (exists []; rewrite app_nil_r; repeat split; [cbn; lia|cbn; ring]).
    eexists [_]. repeat split; [cbn; lia|]. cbn. ring.
  - unfold ExchangeMock.sell.
    destruct (ExchangeMock.positions self !! sym) as [pos|];
      [destruct (negb _);
        [|destruct (Qltb_spec
             (Qmin (default (Position.quantity pos) q) (Position.quantity pos))
             dust)]|];
      cbn; repeat split;
      try (exists []; rewrite app_nil_r; repeat split; [cbn; lia|cbn; ring]).
    eexists [_]. repeat split; [cbn; lia|]. cbn. ring.
Qed.

Lemma run_ops_effect (ops : list ledger_op) (self : ExchangeMock.t) :
  let self' := run_ops now self ops in
  ExchangeMock.initial_capital self' = ExchangeMock.initial_capital self
  /\ ExchangeMock.fee_rate self' = ExchangeMock.fee_rate self
  /\ ExchangeMock.slippage self' = ExchangeMock.slippage self
  /\ exists fills,
       ExchangeMock.trade_history self'
         = ExchangeMock.trade_history self ++ fills
       /\ (length fills <= length ops)%nat
       /\ ExchangeMock.cash self'
          == ExchangeMock.cash self + net_cash_flow fills.
Proof.
  revert self. induction ops as [|op ops IH]; intros self; cbn.
  - repeat split. exists []. rewrite app_nil_r. repeat split; cbn; [lia|ring].
  - destruct (apply_op_effect self op)
      as (Hic & Hfee & Hslip & l1 & Hh1 & Hl1 & Hc1).
    destruct (IH (apply_op now self op))
      as (Hic' & Hfee' & Hslip' & l2 & Hh2 & Hl2 & Hc2).
    cbv zeta in *. fold (run_ops now (apply_op now self op) ops).
    repeat split; try congruence.
    exists (l1 ++ l2). rewrite Hh2, Hh1, <- app_assoc.
    repeat split.
    + rewrite length_app. lia.
    + rewrite Hc2, Hc1, net_cash_flow_app. ring.
Qed.

(** X4. A call on one instrument leaves the position of every other
    instrument as it was; no call changes the configuration of the ledger,
    and a BUY leaves the realized P&L as it was. *)
Theorem ledger_op_locality (self : ExchangeMock.t) (op : ledger_op)
    (symbol : string) :
  let self' := apply_op now self op in
  (symbol <> op_symbol op ->
   ExchangeMock.positions self' !! symbol
     = ExchangeMock.positions self !! symbol)
  /\ ExchangeMock.initial_capital self' = ExchangeMock.initial_capital self
  /\ ExchangeMock.fee_rate self' = ExchangeMock.fee_rate self
  /\ ExchangeMock.slippage self' = ExchangeMock.slippage self
  /\ (forall s a p ts, op = OpBuy s a p ts ->
      ExchangeMock.realized_pnl self' = ExchangeMock.realized_pnl self).
Proof.
  cbv zeta. destruct (apply_op_effect self op) as (Hic & Hfee & Hslip & _).
  split; [|repeat split; try done].
  - intros Hne. destruct op as [sym a p ts|sym q p ts]; cbn in *.
    + unfold ExchangeMock.buy.
      destruct (Qleb_spec a 0); [done|].
      destruct (Qltb_spec (Qmin a (ExchangeMock.cash self)) cent); [done|].
      destruct (Qeqb_spec (p * (1 + ExchangeMock.slippage self)) 0);
        [done|].
      cbn. by rewrite lookup_insert_ne.
    + unfold ExchangeMock.sell.
      destruct (ExchangeMock.positions self !! sym) as [pos|]; [|done].
      destruct (negb _); [done|].
      destruct (Qltb_spec
        (Qmin (default (Position.quantity pos) q) (Position.quantity pos))
        dust); [done|].
      cbn. by rewrite lookup_insert_ne.
  - intros s a p ts ->. cbn. unfold ExchangeMock.buy.
    destruct (Qleb_spec a 0); [done|].
    destruct (Qltb_spec (Qmin a (ExchangeMock.cash self)) cent); [done|].
    destruct (Qeqb_spec (p * (1 + ExchangeMock.slippage self)) 0); done.
Qed.

(** X5. After any calls of buy and sell on a new ledger, the cash is the
    initial capital plus the cash flows of the fills in the trade history
    (a BUY takes its total cost out, a SELL puts its net proceeds in), and
    the history holds at most one fill per call. *)
Theorem ledger_cash_matches_history (initial_capital fee_rate slippage : Q)
    (ops : list ledger_op) :
  let self :=
    run_ops now (ExchangeMock.init initial_capital fee_rate slippage) ops in
  ExchangeMock.cash self
    == initial_capital + net_cash_flow (ExchangeMock.trade_history self)
  /\ (length (ExchangeMock.trade_history self) <= length ops)%nat.
Proof.
  cbv zeta.
  destruct (run_ops_effect ops
              (ExchangeMock.init initial_capital fee_rate slippage))
    as (_ & _ & _ & fills & Hh & Hlen & Hc).
  cbn in Hh, Hc. rewrite Hh, Hc. done.
Qed.

(** X6. The trade history is append-only: whatever calls follow, the fills
    already recorded stay where they are, in order. *)
Theorem trade_history_append_only (self : ExchangeMock.t)
    (ops : list ledger_op) :
  exists fills,
    ExchangeMock.trade_history (run_ops now self ops)
      = ExchangeMock.trade_history self ++ fills
    /\ (length fills <= length ops)%nat.
Proof.
  destruct (run_ops_effect ops self) as (_ & _ & _ & fills & Hh & Hlen & _).
  eauto.
Qed.

(** X7. [reset] brings a ledger back to the state it was built in, whatever
    was traded since, and resetting twice is resetting once. *)
Theorem ledger_reset_restores (initial_capital fee_rate slippage : Q)
    (self : ExchangeMock.t) (ops : list ledger_op) :
  ExchangeMock.reset
    (run_ops now (ExchangeMock.init initial_capital fee_rate slippage) ops)
    = ExchangeMock.init initial_capital fee_rate slippage
  /\ ExchangeMock.reset (run_ops now self ops) = ExchangeMock.reset self
  /\ ExchangeMock.reset (ExchangeMock.reset self) = ExchangeMock.reset self.
Proof.
  assert (forall s, ExchangeMock.reset (run_ops now s ops)
                    = ExchangeMock.reset s) as Hreset.
  { intros s. destruct (run_ops_effect ops s) as (Hic & Hfee & Hslip & _).
    cbv zeta in *. unfold ExchangeMock.reset. by rewrite Hic, Hfee, Hslip. }
  split; [|split; [apply Hreset|reflexivity]].
  rewrite Hreset. reflexivity.
Qed.
End LedgerRuns.

Lemma ledger_op_locality_witness :
  ExchangeMock.positions
    (apply_op 0%Z (fst scenario_A_buy) (OpBuy "ETHUSDT" 10 50 None))
    !! "BTCUSDT"
  = ExchangeMock.positions (fst scenario_A_buy) !! "BTCUSDT".
Proof.
  apply (proj1 (ledger_op_locality 0%Z (fst scenario_A_buy)
                  (OpBuy "ETHUSDT" 10 50 None) "BTCUSDT")).
  cbn. discriminate.
Defined.

(** ** Valuation *)

(** The valuation loops, run against a price for one instrument only, add to
    their start value what the position of that instrument contributes. *)
Lemma fold_single_price (g : Position.t -> Q -> Q) (b : Q)
    (m : gmap string Position.t) (symbol : string) (price : Q) :
  map_fold (fun sym pos total =>
              if Position.is_open pos then
                match ({[symbol := price]} : gmap string Q) !! sym with
                | Some p => total + g pos p
                | None => total
                end
              else total) b m
  == b + match m !! symbol with
         | Some pos => if Position.is_open pos then g pos price else 0
         | None => 0
         end.
Proof.
  apply (map_fold_weak_ind
    (fun r (m : gmap string Position.t) =>
       r == b + match m !! symbol with
                | Some pos => if Position.is_open pos then g pos price else 0
                | None => 0
                end)).
  - rewrite lookup_empty. ring.
  - intros i x m' r Hnone IH.
    destruct (decide (i = symbol)) as [->|Hne].
    + rewrite lookup_insert_eq, lookup_singleton_eq.
      rewrite Hnone in IH.
      destruct (Position.is_open x); rewrite IH; ring.
    + rewrite lookup_insert_ne, lookup_singleton_ne by done.
      by destruct (Position.is_open x).
Qed.

Lemma fold_no_price (g : Position.t -> Q -> Q) (b : Q)
    (m : gmap string Position.t) :
  map_fold (fun sym pos total =>
              if Position.is_open pos then
                match (∅ : gmap string Q) !! sym with
                | Some p => total + g pos p
                | None => total
                end
              else total) b m = b.
Proof.
  apply (map_fold_weak_ind (fun r (_ : gmap string Position.t) => r = b));
    [done|].
  intros i x m' r _ ->. rewrite lookup_empty. by destruct (Position.is_open x).
Qed.

(** X8. The portfolio value is the cash when no price is supplied, and with
    the price of one instrument it is the cash plus quantity times price of
    that instrument's position if it is open; a position that is not open,
    or has no price, adds nothing.  The unrealized P&L at that price is the
    market value less the cost basis, so the portfolio value is the cash
    plus the cost basis plus the unrealized P&L. *)
Theorem portfolio_value_single_price (self : ExchangeMock.t)
    (symbol : string) (price : Q) :
  let o := ExchangeMock.positions self !! symbol in
  ExchangeMock.get_portfolio_value self ∅ = ExchangeMock.cash self
  /\ get_total_unrealized_pnl self ∅ = 0
  /\ ExchangeMock.get_portfolio_value self {[symbol := price]}
     == ExchangeMock.cash self + open_value o price
  /\ get_total_unrealized_pnl self {[symbol := price]}
     == open_value o price - open_basis o
  /\ ExchangeMock.get_portfolio_value self {[symbol := price]}
     == ExchangeMock.cash self + open_basis o
        + get_total_unrealized_pnl self {[symbol := price]}.
Proof.
  cbv zeta.
  assert (ExchangeMock.get_portfolio_value self {[symbol := price]}
          == ExchangeMock.cash self
             + open_value (ExchangeMock.positions self !! symbol) price)
    as Hvalue.
  { exact (fold_single_price Position.value_at (ExchangeMock.cash self)
             (ExchangeMock.positions self) symbol price). }
  assert (get_total_unrealized_pnl self {[symbol := price]}
          == open_value (ExchangeMock.positions self !! symbol) price
             - open_basis (ExchangeMock.positions self !! symbol))
    as Hpnl.
  { pose proof (fold_single_price Position.unrealized_pnl 0
                  (ExchangeMock.positions self) symbol price) as H.
    unfold get_total_unrealized_pnl.
    eapply Qeq_trans; [exact H|].
    unfold open_value, open_basis, Position.unrealized_pnl.
    destruct (ExchangeMock.positions self !! symbol) as [pos|]; [|ring].
    destruct (Position.is_open pos); cbn; ring. }
  split; [apply (fold_no_price Position.value_at)|].
  split; [apply (fold_no_price Position.unrealized_pnl)|].
  split; [exact Hvalue|]. split; [exact Hpnl|].
  rewrite Hvalue, Hpnl. ring.
Qed.

(** * Further properties of the engine *)

Section EngineSteps.
Variable now : datetime.

(** A call of [step] that returns: what it read, what it wrote and what it
    returned. *)
Lemma step_returns_inv (self : TradingEnvironment.t) (action : Z)
    (res : TradingEnvironment.step_result) :
  snd (TradingEnvironment.step now self action) = Return res ->
  let self' := fst (TradingEnvironment.step now self action) in
  exists row self1 fill hold_penalty obs,
    TradingEnvironment.done self = false /\
    iloc (TradingEnvironment.data self) (TradingEnvironment.current_step self)
      = Some row /\
    let prev_value :=
      ExchangeMock.get_portfolio_value (TradingEnvironment.exchange self)
        {[TradingEnvironment.symbol self := Row.close row]} in
    TradingEnvironment.apply_action now self action (Row.close row)
      (Row.timestamp row) prev_value = (self1, Return (fill, hold_penalty)) /\
    let current_value :=
      ExchangeMock.get_portfolio_value (TradingEnvironment.exchange self1)
        {[TradingEnvironment.symbol self := Row.close row]} in
    let reward :=
      if 0 <? prev_value then (current_value - prev_value) / prev_value
      else 0 in
    res = (obs, reward, TradingEnvironment.done self', false,
           Info.mk fill current_value (TradingEnvironment.score self')
             hold_penalty (TradingEnvironment.total_hold_penalty self1)
             (TradingEnvironment.current_step self + 1)%Z
             (TradingEnvironment.total_steps self)) /\
    (if TradingEnvironment.done self' then obs = None
     else exists o,
       obs = Some o /\ TradingEnvironment._get_observation self' = Return o) /\
    TradingEnvironment.exchange self' = TradingEnvironment.exchange self1 /\
    TradingEnvironment.total_hold_penalty self'
      = TradingEnvironment.total_hold_penalty self1 /\
    TradingEnvironment.trade_pnls self' = TradingEnvironment.trade_pnls self1 /\
    TradingEnvironment.equity_curve self'
      = TradingEnvironment.equity_curve self ++ [current_value] /\
    TradingEnvironment.score_history self'
      = TradingEnvironment.score_history self
        ++ [TradingEnvironment.score self'] /\
    TradingEnvironment.step_log self'
      = TradingEnvironment.step_log self
        ++ [StepRecord.mk (Row.timestamp row) (action_name action)
              (Row.close row) current_value
              (ExchangeMock.cash (TradingEnvironment.exchange self1))
              (TradingEnvironment.position_qty self1) reward
              (TradingEnvironment.score self') hold_penalty
              (default 0 (Row.sentiment_score row))] /\
    TradingEnvironment.current_step self'
      = (TradingEnvironment.current_step self + 1)%Z /\
    TradingEnvironment.done self'
      = (Z.of_nat (length (TradingEnvironment.data self)) - 1
         <=? TradingEnvironment.current_step self + 1)%Z /\
    same_config self self'.
Proof.
  unfold TradingEnvironment.step.
  destruct (TradingEnvironment.done self) eqn:Hdone; [discriminate|].
  destruct (iloc _ _) as [row|] eqn:Hrow; [|discriminate].
  cbv zeta.
  pose proof (apply_action_frame now self action (Row.close row)
    (Row.timestamp row)
    (ExchangeMock.get_portfolio_value (TradingEnvironment.exchange self)
       {[TradingEnvironment.symbol self := Row.close row]})) as Hframe.
  destruct (TradingEnvironment.apply_action _ _ _ _ _ _)
    as [self1 [[fill hp]|e]] eqn:Hact; cbn [fst snd] in *; [|discriminate].
  destruct Hframe as (Hcfg & Hcs & Hd & Heq & Hlog & Hsc & Hhist).
  pose proof Hcfg as (Hdata & Hic & _ & _ & Hsym & _).
  cbn [TradingEnvironment.score TradingEnvironment.set_equity_curve
       TradingEnvironment.initial_capital TradingEnvironment.exchange
       TradingEnvironment.symbol TradingEnvironment.data
       TradingEnvironment.current_step].
  rewrite Hsym, Hcs, Hdata.
  destruct (_ && _); [discriminate|].
  destruct (_ <=? _)%Z eqn:Hterm.
  - cbn. intros [= <-]. exists row, self1, fill, hp, None.
    rewrite Heq, Hlog, Hhist.
    repeat split; try reflexivity; try assumption; apply Hcfg.
  - destruct (iloc_next _ _ _ Hrow Hterm) as [row' Hrow'].
    unfold TradingEnvironment._get_observation.
    cbn [TradingEnvironment.data TradingEnvironment.current_step].
    rewrite Hrow'. cbn. rewrite ?Hcs, ?Hdata, ?Hrow'. intros [= <-].
    exists row, self1, fill, hp. eexists.
    rewrite Heq, Hlog, Hhist.
    split; [done|]. split; [done|]. split; [done|].
    split; [reflexivity|].
    split; [eexists; split; reflexivity|].
    repeat split; try reflexivity; apply Hcfg.
Qed.
End EngineSteps.

Section EngineBooks.
Variable now : datetime.

Lemma sell_pnls_app (h1 h2 : list Fill.t) :
  sell_pnls (h1 ++ h2) = sell_pnls h1 ++ sell_pnls h2.
Proof. unfold sell_pnls. by rewrite List.filter_app, map_app. Qed.

Lemma set_exchange_same (self : TradingEnvironment.t) :
  TradingEnvironment.set_exchange self (TradingEnvironment.exchange self)
  = self.
Proof. by destruct self. Qed.

(** An action that raises has written nothing. *)
Lemma apply_action_raise_state (self : TradingEnvironment.t) (action : Z)
    (price : Q) (timestamp : datetime) (prev_value : Q) (e : exn) :
  snd (TradingEnvironment.apply_action now self action price timestamp
         prev_value) = Raise e ->
  fst (TradingEnvironment.apply_action now self action price timestamp
         prev_value) = self.
Proof.
  unfold TradingEnvironment.apply_action.
  destruct (action =? HOLD)%Z; [qcase; discriminate|].
  destruct (action =? BUY)%Z.
  { unfold ExchangeMock.buy.
    set (amount := prev_value * TradingEnvironment.risk_per_trade_pct self).
    destruct (Qleb_spec amount 0); [discriminate|].
    destruct (Qltb_spec
      (Qmin amount (ExchangeMock.cash (TradingEnvironment.exchange self)))
      cent); [discriminate|].
    destruct (Qeqb_spec
      (price * (1 + ExchangeMock.slippage (TradingEnvironment.exchange self)))
      0); [|discriminate].
    intros _. apply set_exchange_same. }
  destruct (action =? SELL)%Z; [|discriminate].
  unfold ExchangeMock.sell.
  destruct (ExchangeMock.positions _ !! _); [|discriminate].
  destruct (negb _); [discriminate|]. qcase; discriminate.
Qed.

(** From a state in which [score_ok] holds, a [step] that raises has written
    nothing at all. *)
Lemma step_raises_inv (self : TradingEnvironment.t) (action : Z) (e : exn) :
  score_ok self ->
  snd (TradingEnvironment.step now self action) = Raise e ->
  fst (TradingEnvironment.step now self action) = self.
Proof.
  intros [_ Hb] Hraise.
  destruct (step_cases now self action)
    as [[Hsame _]|(row & _ & _ & Hrest)]; [exact Hsame|].
  cbv zeta in Hrest.
  destruct Hrest as [(-> & e' & He' & _)|(fill & hp & Ha & Hrest)].
  - by eapply apply_action_raise_state.
  - destruct Hrest as [(Hhp & Hz & _)|(_ & _ & _ & _ & _ & _ & ? & ? & ? & Hret & _)].
    + by destruct (apply_action_penalty now _ _ _ _ _ _ _ Hb Ha Hhp).
    + congruence.
Qed.

(** What a returning action does to the books. *)
Lemma apply_action_books (self self1 : TradingEnvironment.t) (action : Z)
    (price : Q) (timestamp : datetime) (prev_value : Q)
    (fill : option Fill.t) (hold_penalty : Q) :
  TradingEnvironment.apply_action now self action price timestamp prev_value
    = (self1, Return (fill, hold_penalty)) ->
  exists fills,
    ExchangeMock.trade_history (TradingEnvironment.exchange self1)
      = ExchangeMock.trade_history (TradingEnvironment.exchange self) ++ fills
    /\ TradingEnvironment.trade_pnls self1
       = TradingEnvironment.trade_pnls self ++ sell_pnls fills
    /\ 0 <= hold_penalty
    /\ TradingEnvironment.total_hold_penalty self1
       == TradingEnvironment.total_hold_penalty self + hold_penalty
    /\ ExchangeMock.cash (TradingEnvironment.exchange self1) + hold_penalty
       == ExchangeMock.cash (TradingEnvironment.exchange self)
          + net_cash_flow fills.
Proof.
  unfold TradingEnvironment.apply_action.
  destruct (action =? HOLD)%Z.
  { destruct (Qltb_spec cent
      (ExchangeMock.cash (TradingEnvironment.exchange self)
       * TradingEnvironment.hold_penalty_rate self)) as [Hpen|];
      intros [= <- <- <-]; exists []; cbn; rewrite ?app_nil_r;
      repeat split; try reflexivity; try ring; try lra.
    unfold cent in Hpen. lra. }
  destruct (action =? BUY)%Z.
  { unfold ExchangeMock.buy.
    set (amount := prev_value * TradingEnvironment.risk_per_trade_pct self).
    destruct (Qleb_spec amount 0);
      [|destruct (Qltb_spec
          (Qmin amount (ExchangeMock.cash (TradingEnvironment.exchange self)))
          cent);
        [|destruct (Qeqb_spec
            (price
             * (1 + ExchangeMock.slippage (TradingEnvironment.exchange self)))
            0)]];
      cbn [fst snd]; intros [= <- <- <-]; cbn.
    1,2: exists []; rewrite ?app_nil_r; cbn; repeat split;
         try reflexivity; try ring; lra.
    eexists [_]. split; [reflexivity|]. cbn. rewrite app_nil_r.
    repeat split; try reflexivity; try ring; lra. }
  destruct (action =? SELL)%Z.
  { unfold ExchangeMock.sell.
    destruct (ExchangeMock.positions _ !! _) as [pos|];
      [destruct (negb _);
        [|destruct (Qltb_spec
            (Qmin (default (Position.quantity pos) None)
               (Position.quantity pos)) dust)]|];
      intros [= <- <- <-]; cbn.
    1,2,4: exists []; rewrite ?app_nil_r; cbn; repeat split;
           try reflexivity; try ring; lra.
    eexists [_]. split; [reflexivity|]. cbn.
    repeat split; try reflexivity; try ring; lra. }
  intros [= <- <- <-]. exists []. rewrite ?app_nil_r. cbn.
  repeat split; try reflexivity; try ring; lra.
Qed.

Lemma step_books (self : TradingEnvironment.t) (action : Z) :
  score_ok self -> engine_books self ->
  engine_books (fst (TradingEnvironment.step now self action)).
Proof.
  intros Hok Hbooks.
  destruct (snd (TradingEnvironment.step now self action)) as [res|e] eqn:Hr.
  2: { by rewrite (step_raises_inv self action e Hok Hr). }
  destruct (step_returns_inv now self action res Hr)
    as (row & self1 & fill & hp & obs & _ & _ & Ha & _ & _ & Hex & Hthp
        & Hpnl & Heq & Hhist & Hlog & Hcs & _ & Hcfg).
  cbv zeta in *.
  destruct (apply_action_books _ _ _ _ _ _ _ _ Ha)
    as (fills & Hh & Hp & Hhp & Ht & Hc).
  pose proof (apply_action_frame now self action (Row.close row)
    (Row.timestamp row)
    (ExchangeMock.get_portfolio_value (TradingEnvironment.exchange self)
       {[TradingEnvironment.symbol self := Row.close row]})) as Hframe.
  rewrite Ha in Hframe. cbn [fst] in Hframe.
  destruct Hframe as ((_ & _ & _ & _ & Hsym1 & _ & Hxic & _) & _).
  destruct Hbooks as (B1 & B2 & B3 & B4 & B5 & B6 & B7 & B8).
  destruct Hcfg as (_ & _ & _ & Hw & Hsym & _).
  unfold engine_books, log_mirrors_state.
  rewrite Heq, Hhist, Hlog, Hcs, Hw, Hex, Hpnl, Hthp, Hh, Hp, B6, B3.
  rewrite !length_app, !last_snoc, sell_pnls_app, net_cash_flow_app, Hxic.
  unfold TradingEnvironment.position_qty. rewrite Hsym, Hsym1, Hex.
  cbn [length StepRecord.portfolio_value StepRecord.cash
       StepRecord.position_qty StepRecord.score].
  repeat split; try lia; try done; try lra.
  by destruct (TradingEnvironment.score_history self).
Qed.
End EngineBooks.
Section EngineRuns.
Variable now : datetime.

Lemma reset_books (self : TradingEnvironment.t) :
  engine_books (fst (TradingEnvironment.reset self)).
Proof.
  unfold engine_books, log_mirrors_state. cbn.
  repeat split; try lia; lra.
Qed.

Lemma run_steps_books (actions : list Z) (self : TradingEnvironment.t) :
  score_ok self -> engine_books self ->
  engine_books (run_steps now self actions)
  /\ (length (TradingEnvironment.equity_curve (run_steps now self actions))
      <= length (TradingEnvironment.equity_curve self) + length actions)%nat.
Proof.
  unfold run_steps. revert self.
  induction actions as [|a actions IH]; intros self Hok Hb.
  - split; [exact Hb|cbn; lia].
  - cbn [fold_left length].
    destruct (IH (fst (TradingEnvironment.step now self a)))
      as [Hb' Hlen]; [by apply step_score|by apply step_books|].
    split; [exact Hb'|].
    destruct (snd (TradingEnvironment.step now self a)) as [res|e] eqn:Hr.
    + destruct (step_returns_inv now self a res Hr)
        as (? & ? & ? & ? & ? & _ & _ & _ & _ & _ & _ & _ & _ & Heq & _).
      cbv zeta in Heq. rewrite Heq, length_app in Hlen.
      cbn [length] in Hlen. lia.
    + rewrite (step_raises_inv now self a e Hok Hr) in Hlen |- *. lia.
Qed.

Lemma engine_after_books (data : list Row.t)
    (initial_capital fee_rate slippage risk_per_trade_pct : Q)
    (window_size : Z) (symbol : string) (hold_penalty_rate : Q)
    (actions : list Z) :
  let e :=
    engine_after now data initial_capital fee_rate slippage
      risk_per_trade_pct window_size symbol hold_penalty_rate actions in
  engine_books e
  /\ same_config
       (TradingEnvironment.init data initial_capital fee_rate slippage
          risk_per_trade_pct window_size symbol hold_penalty_rate) e.
Proof.
  split.
  - apply run_steps_books; [by apply reset_score_ok|apply reset_books].
  - eapply same_config_trans; [|apply run_steps_same_config].
    by repeat split.
Qed.

(** X9. After [reset] and any sequence of actions the value trajectory, the
    step log and the score history have the same length, the cursor stands
    that many rows after [window_size], the last entry of the score history
    is the score, and the last record of the step log carries the final
    portfolio value, cash, position size and score. *)
Theorem engine_bookkeeping (data : list Row.t)
    (initial_capital fee_rate slippage risk_per_trade_pct : Q)
    (window_size : Z) (symbol : string) (hold_penalty_rate : Q)
    (actions : list Z) :
  let e :=
    engine_after now data initial_capital fee_rate slippage
      risk_per_trade_pct window_size symbol hold_penalty_rate actions in
  length (TradingEnvironment.step_log e)
    = length (TradingEnvironment.equity_curve e)
  /\ length (TradingEnvironment.score_history e)
     = length (TradingEnvironment.equity_curve e)
  /\ (length (TradingEnvironment.equity_curve e) <= length actions)%nat
  /\ TradingEnvironment.current_step e
     = (window_size + Z.of_nat (length (TradingEnvironment.equity_curve e)))%Z
  /\ last (TradingEnvironment.score_history e)
     = match TradingEnvironment.score_history e with
       | [] => None
       | _ => Some (TradingEnvironment.score e)
       end
  /\ log_mirrors_state e.
Proof.
  intros e.
  destruct (engine_after_books data initial_capital fee_rate slippage
              risk_per_trade_pct window_size symbol hold_penalty_rate actions)
    as ((B1 & B2 & B3 & B4 & B5 & _) & (_ & _ & _ & Hw & _)).
  fold e in B1, B2, B3, B4, B5, Hw. cbn in Hw. rewrite Hw in B3.
  repeat split; try done.
  destruct (run_steps_books actions
    (fst (TradingEnvironment.reset
            (TradingEnvironment.init data initial_capital fee_rate slippage
               risk_per_trade_pct window_size symbol hold_penalty_rate))))
    as [_ Hlen]; [by apply reset_score_ok|apply reset_books|].
  exact Hlen.
Qed.
End EngineRuns.
Section EngineLedger.
Variable now : datetime.

(** X10. After [reset] and any sequence of actions the penalty total is not
    negative, and the cash of the ledger plus the penalties charged is the
    initial capital plus the cash flows of the fills in the trade history:
    the engine takes cash only through penalties and trades. *)
Theorem engine_cash_accounting (data : list Row.t)
    (initial_capital fee_rate slippage risk_per_trade_pct : Q)
    (window_size : Z) (symbol : string) (hold_penalty_rate : Q)
    (actions : list Z) :
  let e :=
    engine_after now data initial_capital fee_rate slippage
      risk_per_trade_pct window_size symbol hold_penalty_rate actions in
  0 <= TradingEnvironment.total_hold_penalty e
  /\ ExchangeMock.cash (TradingEnvironment.exchange e)
     + TradingEnvironment.total_hold_penalty e
     == initial_capital
        + net_cash_flow
            (ExchangeMock.trade_history (TradingEnvironment.exchange e)).
Proof.
  intros e.
  destruct (engine_after_books now data initial_capital fee_rate slippage
              risk_per_trade_pct window_size symbol hold_penalty_rate actions)
    as ((_ & _ & _ & _ & _ & _ & B7 & B8)
        & (_ & _ & _ & _ & _ & _ & Hic & _)).
  fold e in B7, B8, Hic. cbn in Hic. rewrite Hic in B8. by split.
Qed.

(** X11. The trade P&Ls the engine records are the ones [run_backtest]
    recomputes from the SELL fills of the ledger, in the same order; so the
    list handed to the analytics is the engine's list once a trade was
    recorded, and otherwise the single value final value minus initial
    capital, as soon as one step was taken. *)
Theorem backtest_pnls_match_engine (data : list Row.t)
    (initial_capital fee_rate slippage risk_per_trade_pct : Q)
    (window_size : Z) (symbol : string) (hold_penalty_rate : Q)
    (actions : list Z) :
  let e :=
    engine_after now data initial_capital fee_rate slippage
      risk_per_trade_pct window_size symbol hold_penalty_rate actions in
  TradingEnvironment.trade_pnls e
    = sell_pnls (ExchangeMock.trade_history (TradingEnvironment.exchange e))
  /\ (TradingEnvironment.trade_pnls e <> [] ->
      collect_trade_pnls e initial_capital = TradingEnvironment.trade_pnls e)
  /\ (forall final_value,
       TradingEnvironment.trade_pnls e = [] ->
       last (TradingEnvironment.equity_curve e) = Some final_value ->
       collect_trade_pnls e initial_capital
         = [final_value - initial_capital]).
Proof.
  intros e.
  destruct (engine_after_books now data initial_capital fee_rate slippage
              risk_per_trade_pct window_size symbol hold_penalty_rate actions)
    as ((_ & _ & _ & _ & _ & B6 & _) & _).
  fold e in B6. unfold collect_trade_pnls. rewrite <- B6.
  split; [done|]. split.
  - intros Hne. by destruct (TradingEnvironment.trade_pnls e).
  - intros v -> ->. done.
Qed.

(** What an action other than BUY and SELL does to the ledger. *)
Lemma apply_action_no_trade (self : TradingEnvironment.t) (action : Z)
    (price : Q) (timestamp : datetime) (prev_value : Q) :
  action <> BUY -> action <> SELL ->
  let self1 :=
    fst (TradingEnvironment.apply_action now self action price timestamp
           prev_value) in
  ExchangeMock.positions (TradingEnvironment.exchange self1)
    = ExchangeMock.positions (TradingEnvironment.exchange self)
  /\ ExchangeMock.trade_history (TradingEnvironment.exchange self1)
     = ExchangeMock.trade_history (TradingEnvironment.exchange self)
  /\ ExchangeMock.realized_pnl (TradingEnvironment.exchange self1)
     = ExchangeMock.realized_pnl (TradingEnvironment.exchange self)
  /\ (action <> HOLD -> self1 = self).
Proof.
  intros Hb Hs. unfold TradingEnvironment.apply_action.
  destruct (Z.eqb_spec action HOLD) as [->|Hh].
  { qcase; cbn; repeat split; done. }
  destruct (Z.eqb_spec action BUY); [done|].
  destruct (Z.eqb_spec action SELL); [done|].
  cbn. repeat split; done.
Qed.

(** X12. A step whose action is neither BUY nor SELL never trades: the
    positions, the trade history and the realized P&L of the ledger stay as
    they were.  If it is not HOLD either (an action outside 0, 1, 2) the
    ledger and the penalty total are untouched altogether. *)
Theorem step_without_order_never_trades (self : TradingEnvironment.t)
    (action : Z) :
  action <> BUY -> action <> SELL ->
  let self' := fst (TradingEnvironment.step now self action) in
  ExchangeMock.positions (TradingEnvironment.exchange self')
    = ExchangeMock.positions (TradingEnvironment.exchange self)
  /\ ExchangeMock.trade_history (TradingEnvironment.exchange self')
     = ExchangeMock.trade_history (TradingEnvironment.exchange self)
  /\ ExchangeMock.realized_pnl (TradingEnvironment.exchange self')
     = ExchangeMock.realized_pnl (TradingEnvironment.exchange self)
  /\ (action <> HOLD ->
      TradingEnvironment.exchange self' = TradingEnvironment.exchange self).
Proof.
  intros Hb Hs. cbv zeta.
  destruct (step_cases now self action)
    as [[-> _]|(row & _ & _ & Hrest)]; [done|].
  cbv zeta in Hrest.
  pose proof (apply_action_no_trade self action (Row.close row)
    (Row.timestamp row)
    (ExchangeMock.get_portfolio_value (TradingEnvironment.exchange self)
       {[TradingEnvironment.symbol self := Row.close row]}) Hb Hs)
    as (Hp & Hh & Hr & Hsame).
  cbv zeta in Hp, Hh, Hr, Hsame.
  assert (TradingEnvironment.exchange
            (fst (TradingEnvironment.step now self action))
          = TradingEnvironment.exchange
              (fst (TradingEnvironment.apply_action now self action
                      (Row.close row) (Row.timestamp row)
                      (ExchangeMock.get_portfolio_value
                         (TradingEnvironment.exchange self)
                         {[TradingEnvironment.symbol self := Row.close row]}))))
    as ->.
  { destruct Hrest as [(-> & _)|(fill & hp & _ & [H|H])]; [done|apply H..]. }
  repeat split; try done. intros Hh'. by rewrite (Hsame Hh').
Qed.

Lemma reset_same_config (e e' : TradingEnvironment.t) :
  same_config e e' ->
  TradingEnvironment.reset e' = TradingEnvironment.reset e.
Proof.
  intros (Hd & Hic & Hr & Hw & Hs & Hh & Hxic & Hf & Hsl).
  assert (fst (TradingEnvironment.reset e') = fst (TradingEnvironment.reset e))
    as Hfst.
  { unfold TradingEnvironment.reset, ExchangeMock.reset. cbn [fst].
    by rewrite Hd, Hic, Hr, Hw, Hs, Hh, Hxic, Hf, Hsl. }
  unfold TradingEnvironment.reset in *. cbn [fst] in Hfst. by rewrite Hfst.
Qed.

(** X13. [reset] brings the engine back to the same state, and returns the
    same first observation, whatever steps were taken since; and resetting
    twice in a row is resetting once. *)
Theorem engine_reset_restores (self : TradingEnvironment.t)
    (actions : list Z) :
  TradingEnvironment.reset (run_steps now self actions)
    = TradingEnvironment.reset self
  /\ TradingEnvironment.reset (fst (TradingEnvironment.reset self))
     = TradingEnvironment.reset self.
Proof.
  split.
  - apply reset_same_config, run_steps_same_config.
  - apply reset_same_config. by repeat split.
Qed.
End EngineLedger.

Lemma backtest_pnls_match_engine_witness :
  let e :=
    engine_after 0%Z rows_A 100 (1 # 1000) (5 # 10000) (1 # 2) 1%Z
      "BTCUSDT" (5 # 100) [BUY; SELL] in
  let e' :=
    engine_after 0%Z rows_A 100 (1 # 1000) (5 # 10000) (1 # 2) 1%Z
      "BTCUSDT" (5 # 100) [HOLD] in
  collect_trade_pnls e 100 = TradingEnvironment.trade_pnls e
  /\ exists final_value,
       last (TradingEnvironment.equity_curve e') = Some final_value
       /\ final_value == 95
       /\ collect_trade_pnls e' 100 = [final_value - 100].
Proof.
  split.
  - apply (proj1 (proj2 (backtest_pnls_match_engine 0%Z rows_A 100 (1 # 1000)
             (5 # 10000) (1 # 2) 1%Z "BTCUSDT" (5 # 100) [BUY; SELL]))).
    vm_compute. discriminate.
  - eexists. split; [vm_compute; reflexivity|]. split; [reflexivity|].
    apply (proj2 (proj2 (backtest_pnls_match_engine 0%Z rows_A 100 (1 # 1000)
             (5 # 10000) (1 # 2) 1%Z "BTCUSDT" (5 # 100) [HOLD])));
      vm_compute; reflexivity.
Defined.

Lemma step_without_order_never_trades_witness :
  ExchangeMock.positions
    (TradingEnvironment.exchange
       (fst (TradingEnvironment.step 0%Z env_A_reset 7%Z)))
  = ExchangeMock.positions (TradingEnvironment.exchange env_A_reset)
  /\ TradingEnvironment.exchange
       (fst (TradingEnvironment.step 0%Z env_A_reset 7%Z))
     = TradingEnvironment.exchange env_A_reset.
Proof.
  destruct (step_without_order_never_trades 0%Z env_A_reset 7%Z)
    as (Hp & _ & _ & Hex); [discriminate|discriminate|].
  split; [exact Hp|]. apply Hex. discriminate.
Defined.

Section Schedule.
Variable now : datetime.

(** An action raises only when the execution price of a BUY is zero. *)
Lemma apply_action_raises_zero_price (self : TradingEnvironment.t)
    (action : Z) (price : Q) (timestamp : datetime) (prev_value : Q)
    (e : exn) :
  snd (TradingEnvironment.apply_action now self action price timestamp
         prev_value) = Raise e ->
  price * (1 + ExchangeMock.slippage (TradingEnvironment.exchange self)) == 0.
Proof.
  unfold TradingEnvironment.apply_action.
  destruct (action =? HOLD)%Z; [qcase; discriminate|].
  destruct (action =? BUY)%Z.
  { unfold ExchangeMock.buy.
    set (amount := prev_value * TradingEnvironment.risk_per_trade_pct self).
    destruct (Qleb_spec amount 0); [discriminate|].
    destruct (Qltb_spec
      (Qmin amount (ExchangeMock.cash (TradingEnvironment.exchange self)))
      cent); [discriminate|].
    destruct (Qeqb_spec
      (price * (1 + ExchangeMock.slippage (TradingEnvironment.exchange self)))
      0); [done|discriminate]. }
  destruct (action =? SELL)%Z; [|discriminate].
  unfold ExchangeMock.sell.
  destruct (ExchangeMock.positions _ !! _); [|discriminate].
  destruct (negb _); [discriminate|]. qcase; discriminate.
Qed.

(** With positive closes and a non-negative slippage, a step on a row of the
    data returns. *)
Lemma step_returns (self : TradingEnvironment.t) (action : Z) :
  score_ok self ->
  TradingEnvironment.done self = false ->
  (0 <= TradingEnvironment.current_step self
   < Z.of_nat (length (TradingEnvironment.data self)))%Z ->
  Forall (fun row => 0 < Row.close row) (TradingEnvironment.data self) ->
  0 <= ExchangeMock.slippage (TradingEnvironment.exchange self) ->
  exists res, snd (TradingEnvironment.step now self action) = Return res.
Proof.
  intros [_ Hb] Hdone Hcs Hdata Hslip.
  destruct (lookup_lt_is_Some_2 (TradingEnvironment.data self)
              (Z.to_nat (TradingEnvironment.current_step self)))
    as [row Hrow]; [lia|].
  assert (iloc (TradingEnvironment.data self)
            (TradingEnvironment.current_step self) = Some row) as Hiloc.
  { unfold iloc.
    by destruct (Z.leb_spec 0 (TradingEnvironment.current_step self));
      [|lia]. }
  pose proof (iloc_Forall _ _ _ _ Hdata Hiloc) as Hprice. cbn in Hprice.
  destruct (step_cases now self action)
    as [[_ [[Hd _]|[_ Hidx]]]|(row' & _ & Hrow' & Hrest)].
  - congruence.
  - exfalso. revert Hidx. unfold TradingEnvironment.step.
    rewrite Hdone, Hiloc. cbv zeta.
    pose proof (apply_action_frame now self action (Row.close row)
      (Row.timestamp row)
      (ExchangeMock.get_portfolio_value (TradingEnvironment.exchange self)
         {[TradingEnvironment.symbol self := Row.close row]}))
      as ((Hdata1 & _) & Hcs1 & _).
    destruct (TradingEnvironment.apply_action _ _ _ _ _ _)
      as [s1 [[f hp]|e]] eqn:Ha; cbn [fst] in *.
    2: { intros _. apply (f_equal snd) in Ha. cbn in Ha.
         apply apply_action_raises_zero_price in Ha. nra. }
    destruct (_ && _); [discriminate|].
    cbn [TradingEnvironment.data TradingEnvironment.current_step
         TradingEnvironment.set_equity_curve].
    rewrite Hdata1, Hcs1.
    destruct (_ <=? _)%Z eqn:Hterm; [discriminate|].
    destruct (iloc_next _ _ _ Hiloc Hterm) as [row2 Hrow2].
    unfold TradingEnvironment._get_observation.
    cbn [TradingEnvironment.data TradingEnvironment.current_step].
    rewrite Hrow2. discriminate.
  - cbv zeta in Hrest. rewrite Hiloc in Hrow'. injection Hrow' as <-.
    destruct Hrest as [(_ & e & He & _)|(fill & hp & Ha & Hrest)].
    + apply apply_action_raises_zero_price in He. nra.
    + destruct Hrest
        as [(Hhp & Hz & _)|(_ & _ & _ & _ & _ & _ & ? & ? & ? & Hret & _)].
      * by destruct (apply_action_penalty now _ _ _ _ _ _ _ Hb Ha Hhp).
      * eauto.
Qed.

Lemma step_schedule (data : list Row.t) (window_size : Z) (slippage : Q)
    (k : nat) (self : TradingEnvironment.t) (action : Z) :
  (0 <= window_size)%Z ->
  (window_size + 2 <= Z.of_nat (length data))%Z ->
  Forall (fun row => 0 < Row.close row) data ->
  0 <= slippage ->
  score_ok self ->
  on_schedule data window_size slippage k self ->
  on_schedule data window_size slippage (S k)
    (fst (TradingEnvironment.step now self action)).
Proof.
  intros Hw Hlen Hdata Hslip Hok (Hd & Hws & Hsl & Heq & Hcs & Hdone).
  unfold steps_available in *.
  set (n := Z.to_nat (Z.of_nat (length data) - 1 - window_size)) in *.
  destruct (le_lt_dec n k) as [Hge|Hlt].
  - assert ((n <=? k)%nat = true) as Hk by (apply Nat.leb_le; lia).
    assert ((n <=? S k)%nat = true) as HSk by (apply Nat.leb_le; lia).
    rewrite Hk in Hdone.
    assert (fst (TradingEnvironment.step now self action) = self) as ->.
    { unfold TradingEnvironment.step. by rewrite Hdone. }
    unfold on_schedule, steps_available. fold n.
    rewrite Hd, Hws, Hsl, Heq, Hcs, Hdone, HSk.
    repeat split; try done; lia.
  - assert ((n <=? k)%nat = false) as Hk by (apply Nat.leb_gt; lia).
    rewrite Hk in Hdone.
    destruct (step_returns self action) as [res Hres]; try done.
    { rewrite Hd, Hcs. lia. }
    { by rewrite Hd. }
    { by rewrite Hsl. }
    destruct (step_returns_inv now self action res Hres)
      as (? & ? & ? & ? & ? & _ & _ & _ & _ & _ & _ & _ & _ & Heq' & _ & _
          & Hcs' & Hdone' & Hcfg).
    cbv zeta in *.
    destruct Hcfg as (Hd' & _ & _ & Hw' & _ & _ & _ & _ & Hsl').
    unfold on_schedule, steps_available. fold n.
    rewrite Hd', Hw', Hsl', Heq', Hcs', Hdone', length_app, Hd, Hws, Hsl, Heq,
      Hcs.
    cbn [length].
    repeat split; try done; try lia.
    destruct (Nat.leb_spec n (S k)); [apply Z.leb_le|apply Z.leb_gt]; lia.
Qed.

Lemma run_schedule (data : list Row.t) (window_size : Z) (slippage : Q)
    (actions : list Z) (k : nat) (self : TradingEnvironment.t) :
  (0 <= window_size)%Z ->
  (window_size + 2 <= Z.of_nat (length data))%Z ->
  Forall (fun row => 0 < Row.close row) data ->
  0 <= slippage ->
  score_ok self ->
  on_schedule data window_size slippage k self ->
  on_schedule data window_size slippage (k + length actions)
    (run_steps now self actions).
Proof.
  intros Hw Hlen Hdata Hslip. revert k self.
  induction actions as [|a actions IH]; intros k self Hok Hs.
  - cbn. by rewrite Nat.add_0_r.
  - cbn [run_steps fold_left length].
    replace (k + S (length actions))%nat with (S k + length actions)%nat
      by lia.
    apply (IH (S k)); [by apply step_score|by apply step_schedule].
Qed.

(** X14. On data with at least [window_size + 2] rows, positive closes and
    a non-negative slippage, every call of [step] before the end returns and
    advances the cursor by one row, whatever the action: after [k] calls the
    value trajectory has min(k, n) entries for n = len(data) - 1 -
    window_size, the cursor is on row window_size + min(k, n), and the
    engine is done exactly when k >= n.  The last row is never acted on. *)
Theorem engine_terminates_on_schedule (data : list Row.t)
    (initial_capital fee_rate slippage risk_per_trade_pct : Q)
    (window_size : Z) (symbol : string) (hold_penalty_rate : Q)
    (actions : list Z) :
  (0 <= window_size)%Z ->
  (window_size + 2 <= Z.of_nat (length data))%Z ->
  Forall (fun row => 0 < Row.close row) data ->
  0 <= slippage ->
  let e :=
    engine_after now data initial_capital fee_rate slippage
      risk_per_trade_pct window_size symbol hold_penalty_rate actions in
  let n := steps_available data window_size in
  length (TradingEnvironment.equity_curve e) = (length actions `min` n)%nat
  /\ TradingEnvironment.current_step e
     = (window_size + Z.of_nat (length actions `min` n))%Z
  /\ TradingEnvironment.done e = (n <=? length actions)%nat
  /\ (TradingEnvironment.current_step e
      < Z.of_nat (length data) - 1 \/ TradingEnvironment.done e = true)%Z.
Proof.
  intros Hw Hlen Hdata Hslip. cbv zeta. unfold engine_after.
  assert (on_schedule data window_size slippage 0
    (fst (TradingEnvironment.reset
            (TradingEnvironment.init data initial_capital fee_rate slippage
               risk_per_trade_pct window_size symbol hold_penalty_rate))))
    as Hstart.
  { unfold on_schedule, steps_available. cbn.
    repeat split; try done; [f_equal; lia|].
    symmetry. apply Nat.leb_gt. lia. }
  assert (score_ok
    (fst (TradingEnvironment.reset
            (TradingEnvironment.init data initial_capital fee_rate slippage
               risk_per_trade_pct window_size symbol hold_penalty_rate))))
    as Hscore by (by apply reset_score_ok).
  destruct (run_schedule data window_size slippage actions 0 _
              Hw Hlen Hdata Hslip Hscore Hstart)
    as (_ & _ & _ & Heq & Hcs & Hdone).
  cbn [Nat.add] in *.
  repeat split; try done.
  rewrite Hcs, Hdone. unfold steps_available in *.
  destruct (Nat.leb_spec
    (Z.to_nat (Z.of_nat (length data) - 1 - window_size)) (length actions));
    [by right|left; lia].
Qed.
End Schedule.

Lemma engine_terminates_on_schedule_witness :
  let e :=
    engine_after 0%Z rows_A 100 (1 # 1000) (5 # 10000) (1 # 2) 1%Z
      "BTCUSDT" (5 # 100) [HOLD; BUY; SELL; HOLD] in
  length (TradingEnvironment.equity_curve e)
    = (4 `min` steps_available rows_A 1)%nat
  /\ TradingEnvironment.done e = (steps_available rows_A 1 <=? 4)%nat.
Proof.
  destruct (engine_terminates_on_schedule 0%Z rows_A 100 (1 # 1000)
              (5 # 10000) (1 # 2) 1%Z "BTCUSDT" (5 # 100)
              [HOLD; BUY; SELL; HOLD])
    as (Hlen & _ & Hdone & _).
  - lia.
  - vm_compute. discriminate.
  - repeat constructor.
  - vm_compute. discriminate.
  - split; [exact Hlen|exact Hdone].
Defined.
Section Observations.
Variable now : datetime.

(** X15. A HOLD step that returns makes no fill; its penalty is the cash
    times the penalty rate when that exceeds one cent and 0 otherwise; the
    portfolio value drops by exactly the penalty, so the reward is minus the
    penalty over the previous value and is never positive. *)
Theorem hold_step_reward (self : TradingEnvironment.t)
    (obs : option Observation.t) (reward : Q) (terminated truncated : bool)
    (info : Info.t) :
  snd (TradingEnvironment.step now self HOLD)
    = Return (obs, reward, terminated, truncated, info) ->
  exists row,
    iloc (TradingEnvironment.data self) (TradingEnvironment.current_step self)
      = Some row /\
    let prev_value :=
      ExchangeMock.get_portfolio_value (TradingEnvironment.exchange self)
        {[TradingEnvironment.symbol self := Row.close row]} in
    let penalty :=
      ExchangeMock.cash (TradingEnvironment.exchange self)
      * TradingEnvironment.hold_penalty_rate self in
    Info.fill info = None /\
    Info.hold_penalty info = (if cent <? penalty then penalty else 0) /\
    0 <= Info.hold_penalty info /\
    Info.portfolio_value info == prev_value - Info.hold_penalty info /\
    reward
      == (if 0 <? prev_value then - Info.hold_penalty info / prev_value
          else 0) /\
    reward <= 0.
Proof.
  intros Hres.
  destruct (step_returns_inv now self HOLD _ Hres)
    as (row & self1 & fill & hp & obs' & _ & Hrow & Ha & Heq & _ & _).
  cbv zeta in *. exists row. split; [exact Hrow|].
  injection Heq as -> -> -> -> ->.
  cbn [Info.fill Info.hold_penalty Info.portfolio_value].
  set (prev := ExchangeMock.get_portfolio_value
                 (TradingEnvironment.exchange self)
                 {[TradingEnvironment.symbol self := Row.close row]}) in *.
  set (cur := ExchangeMock.get_portfolio_value
                (TradingEnvironment.exchange self1)
                {[TradingEnvironment.symbol self := Row.close row]}).
  set (penalty := ExchangeMock.cash (TradingEnvironment.exchange self)
                  * TradingEnvironment.hold_penalty_rate self).
  assert (fill = None
          /\ hp = (if cent <? penalty then penalty else 0)
          /\ 0 <= hp /\ cur == prev - hp) as (-> & Hhp & Hpos & Hcur).
  { revert Ha. unfold TradingEnvironment.apply_action. cbn [Z.eqb HOLD].
    fold penalty. subst cur prev.
    pose proof (fold_single_price Position.value_at
      (ExchangeMock.cash (TradingEnvironment.exchange self))
      (ExchangeMock.positions (TradingEnvironment.exchange self))
      (TradingEnvironment.symbol self) (Row.close row)) as Hprev.
    destruct (Qltb_spec cent penalty) as [Hpen|Hpen]; intros [= <- <- <-].
    - pose proof (fold_single_price Position.value_at
        (ExchangeMock.cash (TradingEnvironment.exchange self) - penalty)
        (ExchangeMock.positions (TradingEnvironment.exchange self))
        (TradingEnvironment.symbol self) (Row.close row)) as Hcur.
      repeat split; [unfold cent in Hpen; lra|].
      unfold ExchangeMock.get_portfolio_value. cbn.
      eapply Qeq_trans; [exact Hcur|].
      unfold ExchangeMock.get_portfolio_value in Hprev |- *.
      rewrite Hprev. ring.
    - repeat split; [lra|ring]. }
  repeat split; try done.
  - destruct (Qltb_spec 0 prev) as [Hp|Hp]; [|reflexivity].
    assert (cur - prev == - hp) as -> by lra. reflexivity.
  - destruct (Qltb_spec 0 prev) as [Hp|Hp]; [|lra].
    assert (cur - prev == - hp) as -> by lra.
    apply Qle_shift_div_r; lra.
Qed.

Lemma length_iloc_slice_same {A B : Type} (df : list A) (df' : list B)
    (start stop : Z) :
  length df = length df' ->
  length (iloc_slice df start stop) = length (iloc_slice df' start stop).
Proof.
  intros Hlen. unfold iloc_slice.
  by rewrite !length_take, !length_drop, Hlen.
Qed.

Lemma length_iloc_slice {A : Type} (df : list A) (start stop : Z) :
  (0 <= start <= stop)%Z -> (stop <= Z.of_nat (length df))%Z ->
  length (iloc_slice df start stop) = Z.to_nat (stop - start).
Proof.
  intros Hs Hlen. unfold iloc_slice, slice_index.
  destruct (Z.ltb_spec start 0); [lia|].
  destruct (Z.ltb_spec stop 0); [lia|].
  rewrite length_take, length_drop. lia.
Qed.

Lemma length_pct_change (l : list Q) : length (pct_change l) = length l.
Proof.
  destruct l as [|x l]; [done|]. cbn. f_equal.
  revert x. induction l as [|y l IH]; intros x; cbn; [done|].
  by rewrite IH.
Qed.

(** The observation at a cursor that reads a row. *)
Lemma get_observation_at_row (self : TradingEnvironment.t) (row : Row.t) :
  iloc (TradingEnvironment.data self) (TradingEnvironment.current_step self)
    = Some row ->
  exists obs,
    TradingEnvironment._get_observation self = Return obs
    /\ Observation.step obs = TradingEnvironment.current_step self
    /\ Observation.current_price obs = Row.close row
    /\ Observation.timestamp obs = Row.timestamp row
    /\ Observation.sentiment obs = default 0 (Row.sentiment_score row)
    /\ Observation.cash obs
       = ExchangeMock.cash (TradingEnvironment.exchange self)
    /\ Observation.position obs = TradingEnvironment.position_qty self
    /\ Observation.score obs = TradingEnvironment.score self
    /\ Observation.portfolio_value obs
       = ExchangeMock.get_portfolio_value (TradingEnvironment.exchange self)
           {[TradingEnvironment.symbol self := Row.close row]}
    /\ length (Observation.returns obs) = length (Observation.prices obs)
    /\ ((0 <= TradingEnvironment.window_size self)%Z ->
        (0 <= TradingEnvironment.current_step self)%Z ->
        length (Observation.prices obs)
        = Z.to_nat (TradingEnvironment.window_size self
                    `min` TradingEnvironment.current_step self)).
Proof.
  intros Hrow. unfold TradingEnvironment._get_observation. rewrite Hrow.
  eexists. split; [reflexivity|]. cbn.
  repeat split.
  - rewrite length_map.
    apply length_iloc_slice_same.
    unfold TradingEnvironment.returns_column.
    by rewrite length_pct_change, length_map.
  - intros Hw Hcs. rewrite length_map.
    assert (TradingEnvironment.current_step self
            < Z.of_nat (length (TradingEnvironment.data self)))%Z.
    { revert Hrow. unfold iloc.
      destruct (Z.leb_spec 0 (TradingEnvironment.current_step self));
        [|lia].
      intros Hl. apply lookup_lt_Some in Hl. lia. }
    rewrite length_iloc_slice; lia.
Qed.

(** X16. The observation raises, with [IndexError], exactly when there is
    no row at the cursor.  With a row at the cursor it is returned and
    reports the cursor, the close and timestamp of that row, its sentiment
    (0 when the column is absent), the cash, the position size, the score
    and the portfolio value at that close; its price window and its returns
    window have the same length, which for a non-negative window size and
    cursor is min(window_size, cursor): the window is clipped at the start
    of the data, never padded. *)
Theorem observation_window (self : TradingEnvironment.t) :
  (iloc (TradingEnvironment.data self) (TradingEnvironment.current_step self)
     = None <->
   TradingEnvironment._get_observation self = Raise IndexError)
  /\ (forall e,
        TradingEnvironment._get_observation self = Raise e ->
        e = IndexError)
  /\ (forall row,
        iloc (TradingEnvironment.data self)
          (TradingEnvironment.current_step self) = Some row ->
        exists obs,
          TradingEnvironment._get_observation self = Return obs
          /\ Observation.step obs = TradingEnvironment.current_step self
          /\ Observation.current_price obs = Row.close row
          /\ Observation.timestamp obs = Row.timestamp row
          /\ Observation.sentiment obs = default 0 (Row.sentiment_score row)
          /\ Observation.cash obs
             = ExchangeMock.cash (TradingEnvironment.exchange self)
          /\ Observation.position obs = TradingEnvironment.position_qty self
          /\ Observation.score obs = TradingEnvironment.score self
          /\ Observation.portfolio_value obs
             = ExchangeMock.get_portfolio_value
                 (TradingEnvironment.exchange self)
                 {[TradingEnvironment.symbol self := Row.close row]}
          /\ length (Observation.returns obs)
             = length (Observation.prices obs)
          /\ ((0 <= TradingEnvironment.window_size self)%Z ->
              (0 <= TradingEnvironment.current_step self)%Z ->
              length (Observation.prices obs)
              = Z.to_nat (TradingEnvironment.window_size self
                          `min` TradingEnvironment.current_step self)))
  /\ (forall obs,
        TradingEnvironment._get_observation self = Return obs ->
        is_Some (iloc (TradingEnvironment.data self)
                   (TradingEnvironment.current_step self))).
Proof.
  destruct (iloc (TradingEnvironment.data self)
              (TradingEnvironment.current_step self)) as [row|] eqn:Hrow.
  - destruct (get_observation_at_row self row Hrow) as (obs & Hobs & Hrest).
    rewrite Hobs.
    split; [split; discriminate|]. split; [discriminate|].
    split; [|by eauto].
    intros ? [= <-]. by exists obs.
  - unfold TradingEnvironment._get_observation. rewrite Hrow.
    split; [done|]. split; [by intros e [= <-]|]. split; done.
Qed.

(** X17. [reset] always leaves the engine reset (cursor on [window_size],
    not done, score 1000, empty trajectory, logs and penalty total, ledger
    at its initial capital with no position), also when it raises; for a
    non-negative window size it raises [IndexError] exactly when the data
    has no more than [window_size] rows, and otherwise returns an
    observation of the row [window_size] with a full window. *)
Theorem reset_needs_a_row (self : TradingEnvironment.t) :
  let r := TradingEnvironment.reset self in
  let len := Z.of_nat (length (TradingEnvironment.data self)) in
  let window_size := TradingEnvironment.window_size self in
  (TradingEnvironment.current_step (fst r) = window_size
   /\ TradingEnvironment.done (fst r) = false
   /\ TradingEnvironment.score (fst r) = 1000
   /\ TradingEnvironment.equity_curve (fst r) = []
   /\ TradingEnvironment.trade_pnls (fst r) = []
   /\ TradingEnvironment.step_log (fst r) = []
   /\ TradingEnvironment.total_hold_penalty (fst r) = 0
   /\ ExchangeMock.cash (TradingEnvironment.exchange (fst r))
      = ExchangeMock.initial_capital (TradingEnvironment.exchange self)
   /\ ExchangeMock.positions (TradingEnvironment.exchange (fst r)) = ∅
   /\ ExchangeMock.trade_history (TradingEnvironment.exchange (fst r)) = [])
  /\ ((0 <= window_size)%Z -> (len <= window_size)%Z ->
      snd r = Raise IndexError)
  /\ ((0 <= window_size < len)%Z ->
      exists obs,
        snd r = Return obs
        /\ Observation.step obs = window_size
        /\ length (Observation.prices obs) = Z.to_nat window_size
        /\ Observation.portfolio_value obs
           = ExchangeMock.initial_capital (TradingEnvironment.exchange self)).
Proof.
  cbv zeta. split; [by repeat split|]. split.
  - intros Hw Hlen. unfold TradingEnvironment.reset. cbn [snd].
    unfold TradingEnvironment._get_observation, iloc.
    cbn [TradingEnvironment.data TradingEnvironment.current_step].
    destruct (Z.leb_spec 0 (TradingEnvironment.window_size self)); [|lia].
    rewrite lookup_ge_None_2; [done|lia].
  - intros Hw. unfold TradingEnvironment.reset. cbn [snd].
    destruct (lookup_lt_is_Some_2 (TradingEnvironment.data self)
                (Z.to_nat (TradingEnvironment.window_size self)))
      as [row Hrow]; [lia|].
    match goal with
    | |- exists obs, TradingEnvironment._get_observation ?s = _ /\ _ =>
      destruct (get_observation_at_row s row)
        as (obs & Hobs & Hstep & _ & _ & _ & _ & _ & _ & Hpv & _ & Hlen)
    end.
    { unfold iloc.
      cbn [TradingEnvironment.data TradingEnvironment.current_step].
      by destruct (Z.leb_spec 0 (TradingEnvironment.window_size self));
        [|lia]. }
    exists obs. cbn in Hstep, Hlen, Hpv.
    split; [exact Hobs|]. split; [exact Hstep|].
    split; [rewrite Hlen; lia|exact Hpv].
Qed.
End Observations.

Lemma hold_step_reward_witness :
  match snd (TradingEnvironment.step 0%Z env_A_reset HOLD) with
  | Return (_, reward, _, _, info) =>
    reward <= 0 /\ 0 <= Info.hold_penalty info
  | Raise _ => False
  end.
Proof.
  destruct (snd (TradingEnvironment.step 0%Z env_A_reset HOLD))
    as [[[[[obs reward] terminated] truncated] info]|e] eqn:Hres.
  - destruct (hold_step_reward 0%Z env_A_reset obs reward terminated
                truncated info Hres) as (row & _ & H).
    cbv zeta in H. tauto.
  - revert Hres. vm_compute. discriminate.
Defined.

Lemma observation_window_witness :
  TradingEnvironment._get_observation
    (fst (TradingEnvironment.reset env_short)) = Raise IndexError
  /\ exists obs,
       TradingEnvironment._get_observation env_A_reset = Return obs
       /\ Observation.current_price obs = 100
       /\ length (Observation.prices obs) = Z.to_nat (1 `min` 1).
Proof.
  split.
  - apply (proj1 (proj1 (observation_window
                           (fst (TradingEnvironment.reset env_short))))).
    vm_compute. reflexivity.
  - destruct (proj1 (proj2 (proj2 (observation_window env_A_reset)))
                (candle 1%Z 100))
      as (obs & Hobs & _ & Hprice & _ & _ & _ & _ & _ & _ & _ & Hlen).
    + vm_compute. reflexivity.
    + exists obs. split; [exact Hobs|]. split; [exact Hprice|].
      apply Hlen; vm_compute; discriminate.
Defined.

Lemma reset_needs_a_row_witness :
  snd (TradingEnvironment.reset env_short) = Raise IndexError
  /\ exists obs,
       snd (TradingEnvironment.reset env_A) = Return obs
       /\ Observation.step obs = 1%Z.
Proof.
  split.
  - apply (proj1 (proj2 (reset_needs_a_row env_short)));
      vm_compute; discriminate.
  - destruct (proj2 (proj2 (reset_needs_a_row env_A)))
      as (obs & Hobs & Hstep & _).
    + split; vm_compute; [discriminate|reflexivity].
    + exists obs. split; [exact Hobs|exact Hstep].
Defined.

(** * Further properties of the analytics *)

Lemma compound_proper (a b : Q) (returns : list Q) :
  a == b -> Forall2 Qeq (compound a returns) (compound b returns).
Proof.
  revert a b. induction returns as [|r rs IH]; intros a b Hab; cbn.
  - constructor.
  - assert (a * (1 + r) == b * (1 + r)) as Hnext by (rewrite Hab; reflexivity).
    constructor; [exact Hnext|by apply IH].
Qed.

Lemma Forall2_Qeq_trans (l1 l2 l3 : list Q) :
  Forall2 Qeq l1 l2 -> Forall2 Qeq l2 l3 -> Forall2 Qeq l1 l3.
Proof.
  intros H12. revert l3. induction H12 as [|x y l l' Hxy _ IH]; intros l3 H23.
  - exact H23.
  - inversion H23 as [|? z ? l3' Hyz Hrest]; subst.
    constructor; [by rewrite Hxy|by apply IH].
Qed.

Lemma diff_over_prev_round_trip (prev : Q) (values : list Q) :
  ~ prev == 0 ->
  Forall (fun v => ~ v == 0) values ->
  exists returns,
    diff_over_prev prev values = map NFinite returns
    /\ Forall2 Qeq (compound prev returns) values.
Proof.
  revert prev. induction values as [|v rest IH]; intros prev Hprev Hall.
  - exists []. split; [reflexivity|constructor].
  - apply Forall_cons in Hall as [Hv Hrest].
    destruct (IH v Hv Hrest) as (rs & Hrs & Hre).
    exists ((v - prev) / prev :: rs). split.
    + cbn. unfold np_div. destruct (Qeqb_spec prev 0); [contradiction|].
      by rewrite Hrs.
    + cbn.
      assert (prev * (1 + (v - prev) / prev) == v) as Hv'
        by (field; exact Hprev).
      constructor; [exact Hv'|].
      eapply Forall2_Qeq_trans; [apply compound_proper, Hv'|exact Hre].
Qed.

(** X18. The return series has one entry per step of the trajectory (a
    single zero for fewer than 2 points); on a trajectory without a zero
    value every return is finite, and compounding the returns from the
    first value gives the trajectory back. *)
Theorem calculate_returns_round_trip (equity_curve : list Q) :
  length (calculate_returns equity_curve)
    = Nat.max 1 (length equity_curve - 1)
  /\ ((length equity_curve < 2)%nat ->
      calculate_returns equity_curve = [NFinite 0])
  /\ forall v0 rest,
       equity_curve = v0 :: rest -> rest <> [] ->
       Forall (fun v => ~ v == 0) equity_curve ->
       exists returns,
         calculate_returns equity_curve = map NFinite returns
         /\ Forall2 Qeq (compound v0 returns) rest.
Proof.
  split; [|split].
  - destruct equity_curve as [|v0 [|v1 rest]]; try reflexivity.
    cbn [calculate_returns length]. 
    assert (forall p l, length (diff_over_prev p l) = length l) as Hlen.
    { intros p l. revert p. induction l as [|x l IH]; intros p; cbn;
        [done|by rewrite IH]. }
    rewrite Hlen. cbn. lia.
  - destruct equity_curve as [|v0 [|v1 rest]]; cbn; intros; (done || lia).
  - intros v0 rest -> Hne Hall. apply Forall_cons in Hall as [Hv0 Hrest].
    destruct rest as [|v1 rest]; [done|].
    apply (diff_over_prev_round_trip v0 (v1 :: rest) Hv0 Hrest).
Qed.

Lemma calculate_returns_round_trip_witness :
  calculate_returns [100] = [NFinite 0]
  /\ exists returns,
       calculate_returns curve_C = map NFinite returns
       /\ Forall2 Qeq (compound 100 returns) [120; 90; 110].
Proof.
  split.
  - apply (proj1 (proj2 (calculate_returns_round_trip [100]))). cbn. lia.
  - apply (proj2 (proj2 (calculate_returns_round_trip curve_C))
             100 [120; 90; 110]); [reflexivity|discriminate|].
    repeat constructor; vm_compute; discriminate.
Defined.
(** ** Drawdown, continued *)

Lemma never_falls_dec (prev : Q) (values : list Q) :
  never_falls prev values \/ ~ never_falls prev values.
Proof.
  revert prev. induction values as [|v rest IH]; intros prev; cbn.
  - by left.
  - destruct (Qlt_le_dec v prev) as [Hlt|Hle].
    + right. intros [H _]. lra.
    + destruct (IH v) as [H|H]; [left|right]; tauto.
Qed.

(** While the trajectory does not fall, the loop only moves the peak. *)
Lemma dd_loop_never_falls (values : list Q) (i : Z)
    (st : MetricsEngine.dd_state) :
  never_falls (MetricsEngine.peak st) values ->
  MetricsEngine.max_dd (MetricsEngine.dd_loop values i st)
    = MetricsEngine.max_dd st
  /\ MetricsEngine.max_dd_duration (MetricsEngine.dd_loop values i st)
     = MetricsEngine.max_dd_duration st.
Proof.
  revert i st. induction values as [|v rest IH]; intros i st Hnf; [done|].
  destruct Hnf as [Hv Hrest]. cbn [MetricsEngine.dd_loop].
  unfold MetricsEngine.dd_iter.
  destruct (Qleb_spec (MetricsEngine.peak st) v); [|contradiction].
  destruct (IH (i + 1)%Z
              (MetricsEngine.mk_dd v (MetricsEngine.max_dd st)
                 (MetricsEngine.dd_start st)
                 (MetricsEngine.max_dd_duration st) i)) as [H1 H2];
    [exact Hrest|].
  by rewrite H1, H2.
Qed.

(** A positive drawdown stays positive, and a fall makes it positive. *)
Lemma dd_loop_positive (values : list Q) (i : Z)
    (st : MetricsEngine.dd_state) :
  Forall (fun v => 0 <= v) values ->
  dd_inv st ->
  (exists m, MetricsEngine.max_dd st = Finite m /\ 0 < m)
  \/ ~ never_falls (MetricsEngine.peak st) values ->
  exists m,
    MetricsEngine.max_dd (MetricsEngine.dd_loop values i st) = Finite m
    /\ 0 < m.
Proof.
  revert i st. induction values as [|v rest IH]; intros i st Hall Hinv Hcase.
  - destruct Hcase as [H|H]; [exact H|]. cbn in H. tauto.
  - apply Forall_cons in Hall as [Hv Hall]. cbn [MetricsEngine.dd_loop].
    apply IH; [exact Hall|by apply dd_iter_inv|].
    destruct Hinv as (Hpeak & m0 & Hm0 & Hrange).
    unfold MetricsEngine.dd_iter.
    destruct (Qleb_spec (MetricsEngine.peak st) v) as [Hle|Hlt].
    + cbn. destruct Hcase as [H|H]; [by left|].
      right. cbn in H. tauto.
    + apply Qnot_le_lt in Hlt.
      destruct (Qeqb_spec (MetricsEngine.peak st) 0) as [Hz|_]; [lra|].
      rewrite Hm0. cbn [xgtb].
      assert (0 < (MetricsEngine.peak st - v) / MetricsEngine.peak st) as Hdd
        by (apply Qlt_shift_div_l; lra).
      destruct (Qltb_spec m0
                  ((MetricsEngine.peak st - v) / MetricsEngine.peak st))
        as [Hup|Hkeep]; left.
      * cbn. eauto.
      * exists m0. split; [exact Hm0|lra].
Qed.

(** X19. On a trajectory of non-negative values with at least two points,
    the maximum drawdown is 0 exactly when the trajectory never falls below
    the value before it, and then its duration is 0 as well. *)
Theorem max_drawdown_zero_iff_never_falls (v0 : Q) (rest : list Q) :
  rest <> [] ->
  Forall (fun v => 0 <= v) (v0 :: rest) ->
  exists pct,
    fst (MetricsEngine.max_drawdown (v0 :: rest)) = Finite pct
    /\ (pct == 0 <-> never_falls v0 rest)
    /\ (never_falls v0 rest ->
        snd (MetricsEngine.max_drawdown (v0 :: rest)) = 0%Z).
Proof.
  intros Hne Hall. destruct rest as [|v1 rest]; [done|].
  unfold MetricsEngine.max_drawdown. cbn [fst snd].
  set (st0 := MetricsEngine.mk_dd v0 (Finite 0) 0 0 0).
  assert (dd_inv st0) as Hinv0.
  { apply Forall_cons in Hall as [Hv0 _].
    split; cbn; [done|]. exists 0. split; [done|lra]. }
  assert (never_falls (MetricsEngine.peak st0) (v0 :: v1 :: rest)
          <-> never_falls v0 (v1 :: rest)) as Hsame.
  { cbn. split; [tauto|]. intros H. split; [lra|exact H]. }
  destruct (never_falls_dec v0 (v1 :: rest)) as [Hnf|Hfalls].
  - destruct (dd_loop_never_falls (v0 :: v1 :: rest) 0 st0) as [Hdd Hdur];
      [by apply Hsame|].
    rewrite Hdd, Hdur. exists (0 * 100).
    split; [reflexivity|]. split; [|intros _; reflexivity].
    split; [intros _; exact Hnf|intros _; lra].
  - destruct (dd_loop_positive (v0 :: v1 :: rest) 0 st0 Hall Hinv0)
      as (m & Hm & Hpos); [right; by rewrite Hsame|].
    rewrite Hm. exists (m * 100). split; [reflexivity|].
    split; [|intros H; contradiction].
    split; [intros H; lra|intros H; contradiction].
Qed.

Lemma dd_loop_duration (values : list Q) (i : Z)
    (st : MetricsEngine.dd_state) :
  (0 <= i)%Z ->
  (0 <= MetricsEngine.current_dd_start st <= Z.max 0 (i - 1))%Z ->
  (0 <= MetricsEngine.max_dd_duration st <= Z.max 0 (i - 1))%Z ->
  (0 <= MetricsEngine.max_dd_duration (MetricsEngine.dd_loop values i st)
   <= Z.max 0 (i + Z.of_nat (length values) - 1))%Z.
Proof.
  revert i st. induction values as [|v rest IH]; intros i st Hi Hs Hd.
  - cbn. lia.
  - cbn [MetricsEngine.dd_loop length].
    replace (i + Z.of_nat (S (length rest)) - 1)%Z
      with (i + 1 + Z.of_nat (length rest) - 1)%Z by lia.
    apply IH; [lia| |]; unfold MetricsEngine.dd_iter;
      destruct (_ <=? _); cbn; try lia;
      destruct (xgtb _ _); cbn; lia.
Qed.

(** X20. For every trajectory the drawdown duration is at least 0 and at
    most the number of steps of the trajectory, len - 1. *)
Theorem max_drawdown_duration_bound (equity_curve : list Q) :
  (0 <= snd (MetricsEngine.max_drawdown equity_curve)
   <= Z.max 0 (Z.of_nat (length equity_curve) - 1))%Z.
Proof.
  unfold MetricsEngine.max_drawdown.
  destruct equity_curve as [|v0 [|v1 rest]]; cbn [snd]; [cbn; lia..|].
  apply (dd_loop_duration (v0 :: v1 :: rest) 0); cbn; lia.
Qed.

Lemma max_drawdown_zero_iff_never_falls_witness :
  exists pct,
    fst (MetricsEngine.max_drawdown [100; 100; 130]) = Finite pct
    /\ (pct == 0 <-> never_falls 100 [100; 130]).
Proof.
  destruct (max_drawdown_zero_iff_never_falls 100 [100; 130])
    as (pct & Hpct & Hiff & _).
  - discriminate.
  - repeat constructor; vm_compute; discriminate.
  - exists pct. split; [exact Hpct|exact Hiff].
Defined.
(** ** Trade statistics, continued *)

Lemma sum_where_win_nonneg (l : list Q) : 0 <= sum_where is_win l.
Proof.
  induction l as [|x l IH]; cbn; [lra|].
  change (is_win x) with (0 <? x). destruct (Qltb_spec 0 x); lra.
Qed.

Lemma sum_where_loss_nonpos (l : list Q) : sum_where is_loss l <= 0.
Proof.
  induction l as [|x l IH]; cbn; [lra|].
  change (is_loss x) with (x <=? 0). destruct (Qleb_spec x 0); lra.
Qed.

Lemma sum_where_split (l : list Q) :
  sum_where is_win l + sum_where is_loss l == total l.
Proof.
  induction l as [|x l IH]; cbn; [ring|].
  unfold is_win, is_loss, Qltb, Qleb in *.
  destruct (Qle_bool x 0); cbn; rewrite <- IH; ring.
Qed.

Lemma count_positive_sum (l : list Q) :
  (0 < count_where is_win l)%nat -> 0 < sum_where is_win l.
Proof.
  induction l as [|x l IH]; cbn; [lia|].
  pose proof (sum_where_win_nonneg l).
  change (is_win x) with (0 <? x). destruct (Qltb_spec 0 x); [lra|]. exact IH.
Qed.

Lemma len_pos {A : Type} (l : list A) : l <> [] -> 0 < len l.
Proof.
  destruct l as [|x l]; [done|]. intros _. unfold len.
  change 0 with (inject_Z 0). rewrite <- Zlt_Qlt. cbn [length]. lia.
Qed.

(** The average a guarded division of [analyze_trades] computes, times the
    number of entries, is the sum. *)
Lemma guarded_average (f : Q -> bool) (l : list Q) :
  len (List.filter f l)
  * match List.filter f l with
    | [] => 0
    | _ => pysum (List.filter f l) / len (List.filter f l)
    end
  == sum_where f l.
Proof.
  rewrite <- pysum_filter.
  destruct (List.filter f l) as [|x w] eqn:E; [cbn; ring|].
  pose proof (len_pos (x :: w)) as Hpos. field.
  intros Hz. rewrite Hz in Hpos. by apply (Qlt_irrefl 0), Hpos.
Qed.

Lemma guarded_average_sign (f : Q -> bool) (l : list Q) :
  let avg :=
    match List.filter f l with
    | [] => 0
    | _ => pysum (List.filter f l) / len (List.filter f l)
    end in
  (0 <= sum_where f l -> 0 <= avg)
  /\ (sum_where f l <= 0 -> avg <= 0)
  /\ (0 < sum_where f l -> 0 < avg).
Proof.
  cbv zeta. pose proof (pysum_filter f l) as Hsum.
  destruct (List.filter f l) as [|x w] eqn:E.
  - cbn in Hsum. repeat split; lra.
  - pose proof (len_pos (x :: w)) as Hp.
    assert (0 < len (x :: w)) as Hlen by (by apply Hp).
    repeat split; intros H.
    + apply Qle_shift_div_l; lra.
    + apply Qle_shift_div_r; lra.
    + apply Qlt_shift_div_l; lra.
Qed.

(** X21. For every list of trade P&Ls: winning trades times the average win
    plus losing trades times the average loss is the total P&L; the average
    win is not negative (positive when there is a win), the average loss is
    not positive, the win rate lies in [0, 100], and a finite profit factor
    is not negative. *)
Theorem analyze_trades_averages (trade_pnls : list Q) :
  let stats := MetricsEngine.analyze_trades trade_pnls in
  of_nat (TradeStats.winning_trades stats) * TradeStats.avg_win stats
  + of_nat (TradeStats.losing_trades stats) * TradeStats.avg_loss stats
  == total trade_pnls
  /\ 0 <= TradeStats.avg_win stats
  /\ ((0 < TradeStats.winning_trades stats)%nat ->
      0 < TradeStats.avg_win stats)
  /\ TradeStats.avg_loss stats <= 0
  /\ 0 <= TradeStats.win_rate stats <= 100
  /\ match TradeStats.profit_factor stats with
     | Finite pf => 0 <= pf
     | PosInf => True
     | NegInf => False
     end.
Proof.
  cbv zeta. destruct trade_pnls as [|p rest].
  { cbn. repeat split; try lra; try lia. }
  set (l := p :: rest).
  pose proof (guarded_average is_win l) as Hwin.
  pose proof (guarded_average is_loss l) as Hloss.
  pose proof (guarded_sum is_win l) as Hgp.
  pose proof (sum_where_win_nonneg l) as Hnn.
  pose proof (sum_where_loss_nonpos l) as Hnp.
  pose proof (sum_where_split l) as Hsplit.
  pose proof (length_filter_count is_win l) as Hcw.
  pose proof (count_wins_losses l) as Hcount.
  unfold MetricsEngine.analyze_trades. fold l.
  change (match l with [] => _ | _ :: _ => ?x end) with x.
  cbn [TradeStats.total_trades TradeStats.winning_trades
       TradeStats.losing_trades TradeStats.win_rate
       TradeStats.profit_factor TradeStats.avg_win TradeStats.avg_loss].
  fold is_win is_loss.
  set (wins := List.filter is_win l) in *.
  set (losses := List.filter is_loss l) in *.
  set (avg_win := match wins with [] => 0 | _ => pysum wins / len wins end)
    in *.
  set (avg_loss :=
         match losses with [] => 0 | _ => pysum losses / len losses end) in *.
  assert (0 < len l) as Hl by (by apply len_pos).
  assert (0 <= len wins) as Hw0.
  { unfold len. change 0 with (inject_Z 0). rewrite <- Zle_Qle. lia. }
  assert (len wins <= len l) as Hwl.
  { unfold len. rewrite <- Zle_Qle. subst wins. rewrite Hcw. lia. }
  destruct (guarded_average_sign is_win l) as (Hw1 & _ & Hw3).
  destruct (guarded_average_sign is_loss l) as (_ & Hl2 & _).
  cbv zeta in Hw1, Hw3, Hl2. fold wins avg_win in Hw1, Hw3.
  fold losses avg_loss in Hl2.
  split; [|split; [|split; [|split; [|split]]]].
  - unfold of_nat. fold (len wins) (len losses). rewrite Hwin, Hloss.
    exact Hsplit.
  - by apply Hw1.
  - intros Hpos. apply Hw3, count_positive_sum. subst wins.
    by rewrite <- Hcw.
  - by apply Hl2.
  - split.
    + apply Qmult_le_0_compat; [|lra].
      apply Qle_shift_div_l; lra.
    + assert (len wins / len l <= 1) by (apply Qle_shift_div_r; lra). lra.
  - qcase; [|exact I].
    apply Qle_shift_div_l; [assumption|]. rewrite Hgp. lra.
Qed.

(** ** The engine's trade P&Ls under the analytics *)

Section EnginePnls.
Variable now : datetime.

Lemma apply_action_pnls_nonpos (self : TradingEnvironment.t) (action : Z)
    (price : Q) (timestamp : datetime) (prev_value : Q) :
  0 <= ExchangeMock.fee_rate (TradingEnvironment.exchange self) ->
  ExchangeMock.slippage (TradingEnvironment.exchange self) <= 1 ->
  0 <= price ->
  Forall (fun p => p <= 0) (TradingEnvironment.trade_pnls self) ->
  Forall (fun p => p <= 0)
    (TradingEnvironment.trade_pnls
       (fst (TradingEnvironment.apply_action now self action price timestamp
               prev_value))).
Proof.
  intros Hfee Hslip Hprice Hall. unfold TradingEnvironment.apply_action.
  destruct (action =? HOLD)%Z; [by qcase|].
  destruct (action =? BUY)%Z.
  { by destruct (ExchangeMock.buy _ _ _ _ _ _) as [ex [fill|e]]. }
  destruct (action =? SELL)%Z; [|done].
  unfold ExchangeMock.sell.
  destruct (ExchangeMock.positions _ !! _) as [pos|]; [|done].
  destruct (negb _); [done|]. cbn [default].
  set (q := Qmin (Position.quantity pos) (Position.quantity pos)).
  destruct (Qltb_spec q dust) as [|Hq]; [done|].
  cbn. apply Forall_app. split; [exact Hall|].
  constructor; [|constructor].
  set (slip := ExchangeMock.slippage (TradingEnvironment.exchange self)) in *.
  set (fee := ExchangeMock.fee_rate (TradingEnvironment.exchange self)) in *.
  assert (0 <= q) by (unfold dust in Hq; lra).
  assert (0 <= price * (1 - slip)) by nra.
  assert (0 <= q * (price * (1 - slip))) by nra.
  assert (0 <= q * (price * (1 - slip)) * fee) by nra.
  lra.
Qed.

Lemma step_pnls_nonpos (self : TradingEnvironment.t) (action : Z) :
  score_ok self ->
  0 <= ExchangeMock.fee_rate (TradingEnvironment.exchange self) ->
  ExchangeMock.slippage (TradingEnvironment.exchange self) <= 1 ->
  Forall (fun row => 0 < Row.close row) (TradingEnvironment.data self) ->
  Forall (fun p => p <= 0) (TradingEnvironment.trade_pnls self) ->
  Forall (fun p => p <= 0)
    (TradingEnvironment.trade_pnls
       (fst (TradingEnvironment.step now self action))).
Proof.
  intros Hok Hfee Hslip Hdata Hall.
  destruct (snd (TradingEnvironment.step now self action)) as [res|e] eqn:Hr.
  2: { by rewrite (step_raises_inv now self action e Hok Hr). }
  destruct (step_returns_inv now self action res Hr)
    as (row & self1 & fill & hp & obs & _ & Hrow & Ha & _ & _ & _ & _
        & Hpnl & _).
  cbv zeta in *. rewrite Hpnl.
  pose proof (iloc_Forall _ _ _ _ Hdata Hrow) as Hprice. cbn in Hprice.
  pose proof (apply_action_pnls_nonpos self action (Row.close row)
    (Row.timestamp row)
    (ExchangeMock.get_portfolio_value (TradingEnvironment.exchange self)
       {[TradingEnvironment.symbol self := Row.close row]})
    Hfee Hslip (Qlt_le_weak _ _ Hprice) Hall) as H.
  by rewrite Ha in H.
Qed.

(** X22. With a fee rate that is not negative, a slippage of at most 1 and
    positive closes, every value the engine records in [trade_pnls] is at
    most 0 (it is the net proceeds of a SELL fill less its own gross value,
    that is minus its fee); the trade statistics computed from the engine's
    list therefore count no winning trade and give a win rate of 0. *)
Theorem engine_pnls_never_win (data : list Row.t)
    (initial_capital fee_rate slippage risk_per_trade_pct : Q)
    (window_size : Z) (symbol : string) (hold_penalty_rate : Q)
    (actions : list Z) :
  0 <= fee_rate ->
  slippage <= 1 ->
  Forall (fun row => 0 < Row.close row) data ->
  let e :=
    engine_after now data initial_capital fee_rate slippage
      risk_per_trade_pct window_size symbol hold_penalty_rate actions in
  let stats := MetricsEngine.analyze_trades (TradingEnvironment.trade_pnls e)
  in
  Forall (fun p => p <= 0) (TradingEnvironment.trade_pnls e)
  /\ TradeStats.winning_trades stats = 0%nat
  /\ TradeStats.win_rate stats == 0.
Proof.
  intros Hfee Hslip Hdata. cbv zeta. unfold engine_after.
  set (env0 := fst (TradingEnvironment.reset
         (TradingEnvironment.init data initial_capital fee_rate slippage
            risk_per_trade_pct window_size symbol hold_penalty_rate))).
  assert (forall l e,
    score_ok e -> same_config env0 e ->
    Forall (fun p => p <= 0) (TradingEnvironment.trade_pnls e) ->
    Forall (fun p => p <= 0)
      (TradingEnvironment.trade_pnls (run_steps now e l))) as Hrun.
  { induction l as [|a l IH]; intros e Hok Hcfg Hall; [exact Hall|].
    cbn [run_steps fold_left]. apply IH.
    - by apply step_score.
    - eapply same_config_trans; [exact Hcfg|apply step_same_config].
    - destruct Hcfg as (Hd & _ & _ & _ & _ & _ & _ & Hf & Hs).
      apply step_pnls_nonpos; try done.
      + by rewrite Hf.
      + by rewrite Hs.
      + by rewrite Hd. }
  assert (Forall (fun p => p <= 0)
            (TradingEnvironment.trade_pnls (run_steps now env0 actions)))
    as Hall.
  { apply Hrun; [by apply reset_score_ok|apply same_config_refl|constructor]. }
  split; [exact Hall|].
  assert (List.filter (fun p => 0 <? p)
            (TradingEnvironment.trade_pnls (run_steps now env0 actions)) = [])
    as Hnone.
  { induction Hall as [|p l Hp _ IHl]; [done|]. cbn.
    destruct (Qltb_spec 0 p); [lra|exact IHl]. }
  unfold MetricsEngine.analyze_trades.
  destruct (TradingEnvironment.trade_pnls (run_steps now env0 actions))
    as [|p l] eqn:El; [by split|].
  cbn [TradeStats.winning_trades TradeStats.win_rate]. rewrite Hnone.
  split; [reflexivity|]. unfold len at 1. cbn. unfold Qdiv. ring.
Qed.
End EnginePnls.

Lemma engine_pnls_never_win_witness :
  TradeStats.winning_trades
    (MetricsEngine.analyze_trades
       (TradingEnvironment.trade_pnls
          (engine_after 0%Z rows_A 100 (1 # 1000) (5 # 10000) (1 # 2) 1%Z
             "BTCUSDT" (5 # 100) [BUY; SELL]))) = 0%nat.
Proof.
  apply (engine_pnls_never_win 0%Z rows_A 100 (1 # 1000) (5 # 10000) (1 # 2)
           1%Z "BTCUSDT" (5 # 100) [BUY; SELL]).
  - vm_compute. discriminate.
  - vm_compute. discriminate.
  - repeat constructor.
Defined.

Lemma analyze_trades_averages_witness :
  0 < TradeStats.avg_win (MetricsEngine.analyze_trades [5; -3; 2]).
Proof.
  apply (analyze_trades_averages [5; -3; 2]). vm_compute. lia.
Defined.

(** * The backtest loop *)

Section BacktestLoop.
Context {Agent : Type}.
Variable decide : Agent -> option Observation.t -> Agent * outcome Z.
Variable now : datetime.

(** One iteration of the loop on an engine that is on schedule and has
    steps left. *)
Lemma loop_step (data : list Row.t) (window_size : Z) (slippage : Q)
    (k : nat) (env : TradingEnvironment.t) (action : Z) :
  (0 <= window_size)%Z ->
  (window_size + 2 <= Z.of_nat (length data))%Z ->
  Forall (fun row => 0 < Row.close row) data ->
  0 <= slippage ->
  score_ok env ->
  on_schedule data window_size slippage k env ->
  (k < steps_available data window_size)%nat ->
  let env' := fst (TradingEnvironment.step now env action) in
  score_ok env'
  /\ on_schedule data window_size slippage (S k) env'
  /\ exists observation reward info,
       TradingEnvironment.step now env action
       = (env', Return (observation, reward,
                        (steps_available data window_size <=? S k)%nat,
                        false, info))
       /\ ((steps_available data window_size <=? S k)%nat = false ->
           exists o,
             observation = Some o
             /\ TradingEnvironment._get_observation env' = Return o).
Proof.
  intros Hw Hlen Hdata Hslip Hok Hs Hk. cbv zeta.
  pose proof (step_schedule now data window_size slippage k env action
                Hw Hlen Hdata Hslip Hok Hs) as Hs'.
  split; [by apply step_score|]. split; [exact Hs'|].
  destruct Hs as (Hd & Hws & Hsl & Heq & Hcs & Hdone).
  assert ((steps_available data window_size <=? k)%nat = false) as Hkf
    by (apply Nat.leb_gt; lia).
  rewrite Hkf in Hdone.
  destruct (step_returns now env action) as [res Hres]; try done.
  { rewrite Hd, Hcs. unfold steps_available in *. lia. }
  { by rewrite Hd. }
  { by rewrite Hsl. }
  destruct (step_returns_inv now env action res Hres)
    as (? & ? & ? & ? & obs & _ & _ & _ & Hreseq & Hobs & _).
  cbv zeta in Hreseq, Hobs.
  destruct Hs' as (_ & _ & _ & _ & _ & Hdone').
  rewrite Hdone' in Hreseq, Hobs.
  destruct (TradingEnvironment.step now env action) as [env' o] eqn:E.
  cbn [fst snd] in *. subst o res.
  exists obs. do 2 eexists. split; [reflexivity|].
  intros Hnot. rewrite Hnot in Hobs. exact Hobs.
Qed.

(** What the engine hands to the agent on schedule is an observation of
    the engine. *)
Lemma on_schedule_observation (data : list Row.t) (window_size : Z)
    (slippage : Q) (k : nat) (env : TradingEnvironment.t)
    (o : Observation.t) :
  on_schedule data window_size slippage k env ->
  TradingEnvironment._get_observation env = Return o ->
  engine_observation data window_size o.
Proof.
  intros (Hd & Hw & _ & _ & Hcs & _) Hobs. exists env.
  repeat split; try done. lia.
Qed.

(** The loop from step [k] on, for an agent whose state keeps an invariant
    [Inv] indexed by the number of decisions taken and whose decision at
    step [k] satisfies [A k]: the decisions are taken, in turn, on the
    observation of the engine as the actions decided so far have left
    it. *)
Lemma backtest_loop_runs (Inv : nat -> Agent -> Prop) (A : nat -> Z -> Prop)
    (data : list Row.t) (window_size : Z) (slippage : Q) (m : nat) :
  (forall k s o, Inv k s -> engine_observation data window_size o ->
     exists a, snd (decide s (Some o)) = Return a
               /\ Inv (S k) (fst (decide s (Some o))) /\ A k a) ->
  (0 <= window_size)%Z ->
  (window_size + 2 <= Z.of_nat (length data))%Z ->
  Forall (fun row => 0 < Row.close row) data ->
  0 <= slippage ->
  forall (k fuel : nat) (agent : Agent) (env : TradingEnvironment.t)
         (observation : Observation.t),
    (k + S m = steps_available data window_size)%nat ->
    (S m <= fuel)%nat ->
    Inv k agent ->
    score_ok env ->
    on_schedule data window_size slippage k env ->
    TradingEnvironment._get_observation env = Return observation ->
    exists agent' observations actions,
      length actions = S m
      /\ length observations = S m
      /\ decisions decide agent (map Some observations)
         = (agent', Return actions)
      /\ (forall i o,
            observations !! i = Some o ->
            TradingEnvironment._get_observation
              (run_steps now env (take i actions)) = Return o)
      /\ Inv (k + S m)%nat agent'
      /\ (forall j a, actions !! j = Some a -> A (k + j)%nat a)
      /\ backtest_loop decide now fuel agent env (Some observation)
         = Some (Return (agent', run_steps now env actions))
      /\ on_schedule data window_size slippage (k + S m)
           (run_steps now env actions).
Proof.
  intros Hdecide Hw Hlen Hdata Hslip.
  induction m as [|m IH];
    intros k fuel agent env obs Hkm Hfuel Hinv Hok Hs Hobs;
    (destruct fuel as [|fuel]; [lia|]); cbn [backtest_loop];
    destruct (Hdecide k agent obs Hinv
                (on_schedule_observation _ _ _ _ _ _ Hs Hobs))
      as (a & Hdec & Hinv1 & Ha);
    destruct (decide agent (Some obs)) as [agent1 oa] eqn:Hdecide1;
    cbn [fst snd] in *; subst oa;
    (destruct (loop_step data window_size slippage k env a
                Hw Hlen Hdata Hslip Hok Hs)
      as (Hok1 & Hs1 & o1 & r1 & i1 & Hstep & Hobs1); [lia|]);
    rewrite Hstep.
  - assert ((steps_available data window_size <=? S k)%nat = true) as ->
      by (apply Nat.leb_le; lia).
    cbn [orb]. exists agent1, [obs], [a].
    replace (k + 1)%nat with (S k) by lia.
    split; [reflexivity|]. split; [reflexivity|]. split.
    { cbn. by rewrite Hdecide1. }
    split.
    { intros [|i] o Hi; [|done]. injection Hi as <-. exact Hobs. }
    split; [exact Hinv1|]. split.
    { intros [|j] a' Hj; [|done]. injection Hj as <-.
      by rewrite Nat.add_0_r. }
    split; [reflexivity|exact Hs1].
  - assert ((steps_available data window_size <=? S k)%nat = false) as ->
      by (apply Nat.leb_gt; lia).
    cbn [orb].
    destruct Hobs1 as (o1' & -> & Hobs1'); [apply Nat.leb_gt; lia|].
    destruct (IH (S k) fuel agent1
                (fst (TradingEnvironment.step now env a)) o1')
      as (agent' & observations & actions & Hlenacts & Hlenobs & Hdecs
          & Hseen & Hinv' & Hacts & Hloop & Hfinal);
      [lia|lia|exact Hinv1|exact Hok1|exact Hs1|exact Hobs1'|].
    exists agent', (obs :: observations), (a :: actions).
    cbn [length run_steps fold_left].
    replace (k + S (S m))%nat with (S k + S m)%nat by lia.
    split; [by rewrite Hlenacts|]. split; [by rewrite Hlenobs|]. split.
    { cbn [map decisions]. by rewrite Hdecide1, Hdecs. }
    split.
    { intros [|i] o Hi.
      - injection Hi as <-. exact Hobs.
      - cbn [take fold_left]. by apply Hseen. }
    split; [exact Hinv'|]. split.
    { intros [|j] a' Hj.
      - injection Hj as <-. by rewrite Nat.add_0_r.
      - replace (k + S j)%nat with (S k + j)%nat by lia. by apply Hacts. }
    split; [exact Hloop|exact Hfinal].
Qed.

(** [reset] followed by the loop. *)
Lemma simulate_runs (Inv : nat -> Agent -> Prop) (A : nat -> Z -> Prop)
    (data : list Row.t)
    (initial_capital fee_rate slippage risk_per_trade_pct : Q)
    (window_size : Z) (symbol : string) (hold_penalty_rate : Q)
    (agent : Agent) (fuel : nat) :
  (forall k s o, Inv k s -> engine_observation data window_size o ->
     exists a, snd (decide s (Some o)) = Return a
               /\ Inv (S k) (fst (decide s (Some o))) /\ A k a) ->
  Inv 0%nat agent ->
  (0 <= window_size)%Z ->
  (window_size + 2 <= Z.of_nat (length data))%Z ->
  Forall (fun row => 0 < Row.close row) data ->
  0 <= slippage ->
  (steps_available data window_size <= fuel)%nat ->
  exists agent' observations actions,
    length actions = steps_available data window_size
    /\ length observations = steps_available data window_size
    /\ decisions decide agent (map Some observations)
       = (agent', Return actions)
    /\ (forall i o,
          observations !! i = Some o ->
          TradingEnvironment._get_observation
            (engine_after now data initial_capital fee_rate slippage
               risk_per_trade_pct window_size symbol hold_penalty_rate
               (take i actions)) = Return o)
    /\ Inv (steps_available data window_size) agent'
    /\ (forall j a, actions !! j = Some a -> A j a)
    /\ simulate decide now fuel agent
         (TradingEnvironment.init data initial_capital fee_rate slippage
            risk_per_trade_pct window_size symbol hold_penalty_rate)
       = Some (Return
           (agent',
            engine_after now data initial_capital fee_rate slippage
              risk_per_trade_pct window_size symbol hold_penalty_rate
              actions))
    /\ on_schedule data window_size slippage
         (steps_available data window_size)
         (engine_after now data initial_capital fee_rate slippage
            risk_per_trade_pct window_size symbol hold_penalty_rate actions).
Proof.
  intros Hdecide Hinv Hw Hlen Hdata Hslip Hfuel.
  unfold simulate, engine_after.
  set (env := TradingEnvironment.init data initial_capital fee_rate slippage
                risk_per_trade_pct window_size symbol hold_penalty_rate).
  destruct (lookup_lt_is_Some_2 data (Z.to_nat window_size))
    as [row Hrow]; [lia|].
  destruct (get_observation_at_row (fst (TradingEnvironment.reset env)) row)
    as (obs & Hobs & _).
  { unfold iloc. cbn. by destruct (Z.leb_spec 0 window_size); [|lia]. }
  assert (score_ok (fst (TradingEnvironment.reset env))) as Hok
    by (by apply reset_score_ok).
  assert (on_schedule data window_size slippage 0
            (fst (TradingEnvironment.reset env))) as Hstart.
  { unfold on_schedule, steps_available. cbn.
    repeat split; try done; [f_equal; lia|].
    symmetry. apply Nat.leb_gt. lia. }
  destruct (steps_available data window_size) as [|m] eqn:Hn.
  { unfold steps_available in Hn. lia. }
  destruct (backtest_loop_runs Inv A data window_size slippage m Hdecide Hw
              Hlen Hdata Hslip 0 fuel agent
              (fst (TradingEnvironment.reset env)) obs)
    as (agent' & observations & actions & Hlenacts & Hlenobs & Hdecs & Hseen
        & Hinv' & Hacts & Hloop & Hfinal);
    try done.
  cbn [Nat.add] in *.
  exists agent', observations, actions.
  assert (TradingEnvironment.reset env
          = (fst (TradingEnvironment.reset env), Return obs)) as Hreset
    by (rewrite <- Hobs; reflexivity).
  set (env0 := fst (TradingEnvironment.reset env)) in *.
  rewrite Hreset. done.
Qed.

(** X23. The backtest loop ends for every agent that does not raise on an
    observation of the engine: for an agent whose states keep an invariant
    under which [decide] returns on every such observation, on data with at
    least [window_size + 2] rows, positive closes and a non-negative
    slippage, and with fuel for n = len(data) - 1 - window_size iterations,
    [env.reset()] followed by the loop returns after exactly n decisions.
    Decision i is taken on the observation the engine returns after the
    first i actions, never on the empty observation of a terminated step;
    the agent returned is the agent after these n decisions and still keeps
    the invariant; the engine returned is the engine driven through the n
    actions decided: it is done, with n values on the trajectory and the
    cursor on the last row. *)
Theorem backtest_terminates (Inv : Agent -> Prop) (data : list Row.t)
    (initial_capital fee_rate slippage risk_per_trade_pct : Q)
    (window_size : Z) (symbol : string) (hold_penalty_rate : Q)
    (agent : Agent) (fuel : nat) :
  (forall s o, Inv s -> engine_observation data window_size o ->
     exists a, snd (decide s (Some o)) = Return a
               /\ Inv (fst (decide s (Some o)))) ->
  Inv agent ->
  (0 <= window_size)%Z ->
  (window_size + 2 <= Z.of_nat (length data))%Z ->
  Forall (fun row => 0 < Row.close row) data ->
  0 <= slippage ->
  (steps_available data window_size <= fuel)%nat ->
  exists agent' observations actions,
    length actions = steps_available data window_size
    /\ length observations = steps_available data window_size
    /\ simulate decide now fuel agent
         (TradingEnvironment.init data initial_capital fee_rate slippage
            risk_per_trade_pct window_size symbol hold_penalty_rate)
       = Some (Return
           (agent',
            engine_after now data initial_capital fee_rate slippage
              risk_per_trade_pct window_size symbol hold_penalty_rate
              actions))
    /\ decisions decide agent (map Some observations)
       = (agent', Return actions)
    /\ (forall i o,
          observations !! i = Some o ->
          TradingEnvironment._get_observation
            (engine_after now data initial_capital fee_rate slippage
               risk_per_trade_pct window_size symbol hold_penalty_rate
               (take i actions)) = Return o)
    /\ Inv agent'
    /\ let e :=
         engine_after now data initial_capital fee_rate slippage
           risk_per_trade_pct window_size symbol hold_penalty_rate actions in
       TradingEnvironment.done e = true
       /\ length (TradingEnvironment.equity_curve e)
          = steps_available data window_size
       /\ TradingEnvironment.current_step e
          = (Z.of_nat (length data) - 1)%Z.
Proof.
  intros Hdecide Hinv Hw Hlen Hdata Hslip Hfuel.
  destruct (simulate_runs (fun _ s => Inv s) (fun _ _ => True) data
              initial_capital fee_rate slippage risk_per_trade_pct
              window_size symbol hold_penalty_rate agent fuel)
    as (agent' & observations & actions & Hlenacts & Hlenobs & Hdecs & Hseen
        & Hinv' & _ & Hsim & Hfinal); try done.
  { intros _ s o Hs Ho. destruct (Hdecide s o Hs Ho) as (a & Ha & Hs').
    by exists a. }
  exists agent', observations, actions.
  split; [exact Hlenacts|]. split; [exact Hlenobs|].
  split; [exact Hsim|]. split; [exact Hdecs|]. split; [exact Hseen|].
  split; [exact Hinv'|]. cbv zeta.
  destruct Hfinal as (_ & _ & _ & Heq & Hcs & Hdone).
  rewrite Nat.min_id in Heq, Hcs. rewrite Nat.leb_refl in Hdone.
  repeat split; try done.
  rewrite Hcs. unfold steps_available. lia.
Qed.
End BacktestLoop.

(** * The buy and hold baseline *)

Lemma buy_hold_decisions_from (self : BuyHoldAgent.t)
    (observations : list (option Observation.t)) :
  exists agent',
    decisions BuyHoldAgent.decide self observations
    = (agent',
       Return
         match observations with
         | [] => []
         | _ :: rest =>
           (if BuyHoldAgent._has_bought self then HOLD else BUY)
           :: repeat HOLD (length rest)
         end)
    /\ BuyHoldAgent._step_count agent'
       = (BuyHoldAgent._step_count self + Z.of_nat (length observations))%Z
    /\ BuyHoldAgent._has_bought agent'
       = match observations with
         | [] => BuyHoldAgent._has_bought self
         | _ => true
         end
    /\ (observations <> [] -> is_Some (BuyHoldAgent.get_reasoning agent')).
Proof.
  revert self.
  induction observations as [|o rest IH]; intros self.
  - exists self. cbn. repeat split; [lia|done].
  - cbn [decisions].
    set (s1 := fst (BuyHoldAgent.decide self o)).
    assert (exists a,
      BuyHoldAgent.decide self o = (s1, Return a)
      /\ a = (if BuyHoldAgent._has_bought self then HOLD else BUY)
      /\ BuyHoldAgent._has_bought s1 = true
      /\ BuyHoldAgent._step_count s1 = (BuyHoldAgent._step_count self + 1)%Z
      /\ is_Some (BuyHoldAgent.get_reasoning s1)) as (a & -> & -> & Hb & Hc & Hr).
    { unfold s1, BuyHoldAgent.decide.
      destruct (BuyHoldAgent._has_bought self) eqn:Hbought; cbn;
        eexists; repeat split; by eexists. }
    destruct (IH s1) as (agent' & Heq & Hcount & Hbought & Hreason).
    rewrite Heq. exists agent'. rewrite Hb in *. cbn [length].
    split.
    { do 3 f_equal. by destruct rest. }
    split; [lia|]. split.
    { rewrite Hbought. by destruct rest. }
    intros _. destruct rest as [|o' rest']; [|by apply Hreason].
    cbn in Heq. injection Heq as <-. exact Hr.
Qed.

(** X24. A buy and hold agent that was just built or reset buys exactly
    once: on any non-empty sequence of observations its decisions are BUY
    followed by HOLD only, it never decides SELL, it counts its decisions,
    and it has a reasoning to report afterwards.  A freshly built agent
    that has not decided yet has none: [__init__] does not set
    [_reasoning], so [get_reasoning] raises [AttributeError] until [reset]
    or [decide] is called. *)
Theorem buy_hold_buys_once (self : BuyHoldAgent.t)
    (o : option Observation.t) (rest : list (option Observation.t)) :
  (exists fresh,
     decisions BuyHoldAgent.decide BuyHoldAgent.init (o :: rest)
     = (fresh, Return (BUY :: repeat HOLD (length rest)))
     /\ is_Some (BuyHoldAgent.get_reasoning fresh))
  /\ (exists again,
        decisions BuyHoldAgent.decide (BuyHoldAgent.reset self) (o :: rest)
        = (again, Return (BUY :: repeat HOLD (length rest)))
        /\ BuyHoldAgent._step_count again = Z.of_nat (length (o :: rest))
        /\ is_Some (BuyHoldAgent.get_reasoning again))
  /\ Forall (fun action => action <> SELL) (BUY :: repeat HOLD (length rest))
  /\ BuyHoldAgent.get_reasoning BuyHoldAgent.init = None
  /\ BuyHoldAgent.get_reasoning (BuyHoldAgent.reset self) = Some "".
Proof.
  destruct (buy_hold_decisions_from BuyHoldAgent.init (o :: rest))
    as (fresh & Hf & _ & _ & Hrf).
  destruct (buy_hold_decisions_from (BuyHoldAgent.reset self) (o :: rest))
    as (again & Ha & Hc & _ & Hra).
  cbn [BuyHoldAgent._has_bought BuyHoldAgent.init
    BuyHoldAgent.reset BuyHoldAgent._step_count] in *.
  split; [exists fresh; split; [exact Hf|by apply Hrf]|].
  split; [exists again; repeat split; [exact Ha|lia|by apply Hra]|].
  repeat split.
  constructor; [done|].
  clear. induction (length rest) as [|n IH]; cbn; by constructor.
Qed.

Section BuyHoldRuns.
Variable now : datetime.

(** Only a SELL adds to the trade P&Ls. *)
Lemma apply_action_pnls_no_sell (self : TradingEnvironment.t) (action : Z)
    (price : Q) (timestamp : datetime) (prev_value : Q) :
  action <> SELL ->
  TradingEnvironment.trade_pnls
    (fst (TradingEnvironment.apply_action now self action price timestamp
            prev_value))
  = TradingEnvironment.trade_pnls self.
Proof.
  intros Hs. unfold TradingEnvironment.apply_action.
  destruct (action =? HOLD)%Z; [by qcase|].
  destruct (action =? BUY)%Z.
  { by destruct (ExchangeMock.buy _ _ _ _ _ _) as [ex [fill|e]]. }
  by destruct (Z.eqb_spec action SELL).
Qed.

Lemma step_pnls_no_sell (self : TradingEnvironment.t) (action : Z) :
  score_ok self -> action <> SELL ->
  TradingEnvironment.trade_pnls (fst (TradingEnvironment.step now self action))
  = TradingEnvironment.trade_pnls self.
Proof.
  intros Hok Hs.
  destruct (snd (TradingEnvironment.step now self action)) as [res|e] eqn:Hr.
  2: { by rewrite (step_raises_inv now self action e Hok Hr). }
  destruct (step_returns_inv now self action res Hr)
    as (row & self1 & fill & hp & obs & _ & _ & Ha & _ & _ & _ & _
        & Hpnl & _).
  cbv zeta in *. rewrite Hpnl.
  pose proof (apply_action_pnls_no_sell self action (Row.close row)
    (Row.timestamp row)
    (ExchangeMock.get_portfolio_value (TradingEnvironment.exchange self)
       {[TradingEnvironment.symbol self := Row.close row]}) Hs) as H.
  by rewrite Ha in H.
Qed.

Lemma run_steps_pnls_no_sell (actions : list Z)
    (self : TradingEnvironment.t) :
  score_ok self ->
  Forall (fun action => action <> SELL) actions ->
  TradingEnvironment.trade_pnls (run_steps now self actions)
  = TradingEnvironment.trade_pnls self.
Proof.
  unfold run_steps. revert self.
  induction actions as [|a actions IH]; intros self Hok Hall; [done|].
  inversion Hall as [|? ? Ha Hrest]; subst. cbn [fold_left].
  rewrite IH; [by apply step_pnls_no_sell|by apply step_score|exact Hrest].
Qed.

(** The script of the buy and hold agent. *)
Lemma buy_hold_script (actions : list Z) :
  (forall j a, actions !! j = Some a ->
     a = if (j =? 0)%nat then BUY else HOLD) ->
  actions
  = match actions with
    | [] => []
    | _ :: rest => BUY :: repeat HOLD (length rest)
    end.
Proof.
  intros H. destruct actions as [|a rest]; [done|].
  rewrite (H 0%nat a eq_refl). cbn [Nat.eqb]. f_equal.
  assert (forall j a, rest !! j = Some a -> a = HOLD) as Hrest
    by (intros j a' Hj; exact (H (S j) a' Hj)).
  clear H. induction rest as [|b rest IH]; [done|].
  cbn [length repeat]. rewrite (Hrest 0%nat b eq_refl). f_equal.
  apply IH. intros j a' Hj. exact (Hrest (S j) a' Hj).
Qed.

(** X25. The buy and hold baseline through the backtest: on data with at
    least [window_size + 2] rows, positive closes and a non-negative
    slippage, the run of a reset buy and hold agent returns; the engine it
    leaves is the engine driven through one BUY followed by HOLD on every
    remaining step; the agent has decided once per step; no SELL fill is
    on the ledger and the engine has recorded no trade P&L, so the
    backtester reports a single trade P&L: the final portfolio value minus
    the initial capital. *)
Theorem buy_hold_backtest (data : list Row.t)
    (initial_capital fee_rate slippage risk_per_trade_pct : Q)
    (window_size : Z) (symbol : string) (hold_penalty_rate : Q)
    (agent : BuyHoldAgent.t) (fuel : nat) :
  (0 <= window_size)%Z ->
  (window_size + 2 <= Z.of_nat (length data))%Z ->
  Forall (fun row => 0 < Row.close row) data ->
  0 <= slippage ->
  (steps_available data window_size <= fuel)%nat ->
  let n := steps_available data window_size in
  let e :=
    engine_after now data initial_capital fee_rate slippage
      risk_per_trade_pct window_size symbol hold_penalty_rate
      (BUY :: repeat HOLD (n - 1)) in
  exists agent' final_value,
    simulate BuyHoldAgent.decide now fuel (BuyHoldAgent.reset agent)
      (TradingEnvironment.init data initial_capital fee_rate slippage
         risk_per_trade_pct window_size symbol hold_penalty_rate)
    = Some (Return (agent', e))
    /\ BuyHoldAgent._step_count agent' = Z.of_nat n
    /\ TradingEnvironment.done e = true
    /\ TradingEnvironment.trade_pnls e = []
    /\ sell_pnls (ExchangeMock.trade_history (TradingEnvironment.exchange e))
       = []
    /\ last (TradingEnvironment.equity_curve e) = Some final_value
    /\ collect_trade_pnls e initial_capital
       = [final_value - initial_capital].
Proof.
  intros Hw Hlen Hdata Hslip Hfuel n e.
  destruct (simulate_runs BuyHoldAgent.decide now
              (fun k s =>
                 BuyHoldAgent._has_bought s = negb (k =? 0)%nat
                 /\ BuyHoldAgent._step_count s = Z.of_nat k)
              (fun k a => a = if (k =? 0)%nat then BUY else HOLD)
              data initial_capital fee_rate slippage risk_per_trade_pct
              window_size symbol hold_penalty_rate
              (BuyHoldAgent.reset agent) fuel)
    as (agent' & observations & actions & Hlenacts & _ & _ & _ & [_ Hcount]
        & Hacts & Hsim & Hfinal);
    try done.
  { intros k s o [Hb Hc] _. unfold BuyHoldAgent.decide. rewrite Hb, Hc.
    destruct k; cbn; eexists; repeat split; lia. }
  fold n in Hlenacts, Hcount, Hfinal.
  assert (actions = BUY :: repeat HOLD (n - 1)) as Hscript.
  { rewrite (buy_hold_script actions Hacts).
    destruct actions as [|a rest]; cbn [length] in *.
    - unfold n, steps_available in Hlenacts. lia.
    - do 2 f_equal. lia. }
  rewrite Hscript in Hsim, Hfinal. fold e in Hsim, Hfinal.
  destruct Hfinal as (_ & _ & _ & Heq & _ & Hdone).
  fold n in Heq, Hdone.
  rewrite Nat.min_id in Heq. rewrite Nat.leb_refl in Hdone.
  assert (TradingEnvironment.trade_pnls e = []) as Hpnls.
  { unfold e, engine_after. rewrite run_steps_pnls_no_sell;
      [done|by apply reset_score_ok|].
    constructor; [done|].
    clear. induction (n - 1)%nat as [|m IH]; cbn; by constructor. }
  destruct (engine_after_books now data initial_capital fee_rate slippage
              risk_per_trade_pct window_size symbol hold_penalty_rate
              (BUY :: repeat HOLD (n - 1)))
    as ((_ & _ & _ & _ & _ & B6 & _) & _).
  fold e in B6. rewrite Hpnls in B6.
  destruct (last (TradingEnvironment.equity_curve e)) as [v|] eqn:Hlast.
  2: { apply last_None in Hlast. rewrite Hlast in Heq. cbn in Heq.
       unfold n, steps_available in Heq. lia. }
  exists agent', v. repeat split; try done.
  unfold collect_trade_pnls. by rewrite <- B6, Hlast.
Qed.
End BuyHoldRuns.

Lemma buy_hold_backtest_witness :
  let e :=
    engine_after 0%Z rows_A 100 (1 # 1000) (5 # 10000) (1 # 2) 1%Z
      "BTCUSDT" (5 # 100) (BUY :: repeat HOLD (steps_available rows_A 1 - 1))
  in
  exists agent' final_value,
    simulate BuyHoldAgent.decide 0%Z 2
      (BuyHoldAgent.reset BuyHoldAgent.init)
      (TradingEnvironment.init rows_A 100 (1 # 1000) (5 # 10000) (1 # 2)
         1%Z "BTCUSDT" (5 # 100))
    = Some (Return (agent', e))
    /\ BuyHoldAgent._step_count agent'
       = Z.of_nat (steps_available rows_A 1)
    /\ TradingEnvironment.done e = true
    /\ TradingEnvironment.trade_pnls e = []
    /\ sell_pnls (ExchangeMock.trade_history (TradingEnvironment.exchange e))
       = []
    /\ last (TradingEnvironment.equity_curve e) = Some final_value
    /\ collect_trade_pnls e 100 = [final_value - 100].
Proof.
  apply (buy_hold_backtest 0%Z rows_A 100 (1 # 1000) (5 # 10000) (1 # 2)
           1%Z "BTCUSDT" (5 # 100) BuyHoldAgent.init 2).
  - lia.
  - vm_compute. discriminate.
  - repeat constructor.
  - vm_compute. discriminate.
  - vm_compute. lia.
Defined.

(** * The statistical agent *)

Lemma np_diff_from_length (prev : Q) (a : list Q) :
  length (np_diff_from prev a) = length a.
Proof.
  revert prev. induction a as [|x a IH]; intros prev; [done|].
  cbn. by rewrite IH.
Qed.

Lemma pysum_nonneg (l : list Q) :
  Forall (fun x => 0 <= x) l -> 0 <= pysum l.
Proof.
  unfold pysum. intros Hall.
  assert (forall a, 0 <= a -> 0 <= fold_left Qplus l a) as H; [|by apply H].
  induction Hall as [|x l Hx _ IH]; intros a Ha; cbn; [done|].
  apply IH. lra.
Qed.

Lemma gains_nonneg (deltas : list Q) :
  Forall (fun x => 0 <= x) (StatisticalAgent.gains deltas).
Proof.
  unfold StatisticalAgent.gains. apply Forall_map, Forall_forall.
  intros d _. cbn. qcase; lra.
Qed.

Lemma losses_nonneg (deltas : list Q) :
  Forall (fun x => 0 <= x) (StatisticalAgent.losses deltas).
Proof.
  unfold StatisticalAgent.losses. apply Forall_map, Forall_forall.
  intros d _. cbn. qcase; lra.
Qed.

(** The RSI of a non-empty series of price changes. *)
Lemma rsi_of_deltas (closes : list Q) (period : Z) :
  let deltas := np_diff (np_from closes (- (period + 1))) in
  let G := pysum (StatisticalAgent.gains deltas) in
  let L := pysum (StatisticalAgent.losses deltas) in
  (Z.of_nat (length closes) <? period + 1)%Z = false ->
  deltas <> [] ->
  exists r,
    StatisticalAgent._calculate_rsi closes period = NFinite r
    /\ 0 <= r <= 100
    /\ r * (G + L) == 100 * G
    /\ (r == 100 <-> L == 0).
Proof.
  intros deltas G L Hlen Hne.
  unfold StatisticalAgent._calculate_rsi. rewrite Hlen. cbv zeta.
  fold deltas.
  pose proof (gains_nonneg deltas) as HG. apply pysum_nonneg in HG.
  pose proof (losses_nonneg deltas) as HL. apply pysum_nonneg in HL.
  fold G in HG. fold L in HL.
  assert (len (StatisticalAgent.gains deltas) = len deltas) as Hlg
    by (unfold len, StatisticalAgent.gains; by rewrite length_map).
  assert (len (StatisticalAgent.losses deltas) = len deltas) as Hll
    by (unfold len, StatisticalAgent.losses; by rewrite length_map).
  pose proof (len_pos deltas Hne) as Hn.
  unfold np_mean.
  destruct (StatisticalAgent.gains deltas) as [|g gs] eqn:Eg.
  { by destruct deltas. }
  destruct (StatisticalAgent.losses deltas) as [|l ls] eqn:El.
  { by destruct deltas. }
  rewrite Hlg, Hll. fold G L. set (n := len deltas) in *.
  destruct (Qeqb_spec (L / n) 0) as [Hz|Hnz].
  - assert (L == 0) as HL0.
    { assert (L == L / n * n) as E by (field; lra).
      rewrite Hz in E. lra. }
    exists 100. repeat split; lra.
  - assert (0 < L) as HLpos.
    { destruct (Qlt_le_dec 0 L) as [|Hle]; [done|].
      exfalso. apply Hnz. assert (L == 0) as -> by lra.
      field. lra. }
    assert (G / n / (L / n) == G / L) as Hrs by (field; split; lra).
    assert (0 <= G / L) as Hrs0.
    { apply Qle_shift_div_l; [done|]. lra. }
    unfold np_div.
    destruct (Qeqb_spec (1 + G / n / (L / n)) 0) as [Hbad|_].
    { rewrite Hrs in Hbad. lra. }
    cbn [np_rsub]. eexists. split; [reflexivity|].
    rewrite Hrs.
    assert (100 / (1 + G / L) == 100 * L / (G + L)) as -> by (field; lra).
    assert (0 < 100 * L / (G + L)) as Hpos.
    { apply Qlt_shift_div_l; lra. }
    assert (100 * L / (G + L) <= 100) as Hle.
    { apply Qle_shift_div_r; lra. }
    repeat split; try lra.
    field. lra.
Qed.

Lemma length_np_from_last {A : Type} (a : list A) (k : Z) :
  (0 < k <= Z.of_nat (length a))%Z ->
  length (np_from a (- k)) = Z.to_nat k.
Proof.
  intros Hk. unfold np_from, slice_index.
  destruct (Z.ltb_spec (- k) 0); [|lia].
  rewrite length_drop. lia.
Qed.

Lemma np_diff_length (a : list Q) : length (np_diff a) = (length a - 1)%nat.
Proof.
  destruct a as [|x a]; [done|]. cbn. rewrite np_diff_from_length. lia.
Qed.

(** X26. The RSI is never infinite and, when it is a number, lies between
    0 and 100.  With fewer than [period + 1] closes it is the neutral 50.
    With a period of at least 1 and enough closes it is computed from
    exactly [period] price changes and equals 100 * G / (G + L), where G is
    the sum of the rises and L the sum of the falls among them (100 when
    nothing moved); it is 100 exactly when no close fell.  It is NaN only
    when there is no price change to average, which needs a period below
    1. *)
Theorem rsi_bounded (closes : list Q) (period : Z) :
  let rsi := StatisticalAgent._calculate_rsi closes period in
  let deltas := np_diff (np_from closes (- (period + 1))) in
  let G := pysum (StatisticalAgent.gains deltas) in
  let L := pysum (StatisticalAgent.losses deltas) in
  match rsi with
  | NFinite r => 0 <= r <= 100
  | NNaN => deltas = [] /\ (period < 1)%Z
  | NPosInf | NNegInf => False
  end
  /\ ((Z.of_nat (length closes) < period + 1)%Z -> rsi = NFinite 50)
  /\ ((1 <= period)%Z -> (period + 1 <= Z.of_nat (length closes))%Z ->
      length deltas = Z.to_nat period
      /\ exists r,
           rsi = NFinite r
           /\ r * (G + L) == 100 * G
           /\ (r == 100 <-> L == 0)).
Proof.
  intros rsi deltas G L.
  assert ((1 <= period)%Z -> (period + 1 <= Z.of_nat (length closes))%Z ->
          length deltas = Z.to_nat period) as Hdeltas.
  { intros Hp Hlen. unfold deltas.
    rewrite np_diff_length, length_np_from_last; lia. }
  split; [|split].
  - destruct (Z.ltb_spec (Z.of_nat (length closes)) (period + 1)) as [Hlt|Hge].
    { unfold rsi, StatisticalAgent._calculate_rsi.
      apply Z.ltb_lt in Hlt. rewrite Hlt. split; lra. }
    assert (deltas = [] \/ deltas <> []) as [Hd|Hd]
      by (destruct deltas; [by left|by right]).
    + unfold rsi, StatisticalAgent._calculate_rsi.
      apply Z.ltb_ge in Hge. rewrite Hge. cbv zeta. fold deltas.
      rewrite Hd. cbn. split; [done|].
      destruct (Z.le_gt_cases 1 period) as [Hp|Hp]; [|lia].
      apply Z.ltb_ge in Hge. specialize (Hdeltas Hp Hge).
      rewrite Hd in Hdeltas. cbn in Hdeltas. lia.
    + destruct (rsi_of_deltas closes period) as (r & Hrsi & Hr & _).
      * by apply Z.ltb_ge.
      * exact Hd.
      * unfold rsi. rewrite Hrsi. exact Hr.
  - intros Hlt. unfold rsi, StatisticalAgent._calculate_rsi.
    apply Z.ltb_lt in Hlt. by rewrite Hlt.
  - intros Hp Hlen. split; [by apply Hdeltas|].
    destruct (rsi_of_deltas closes period) as (r & Hrsi & _ & Hf & H100).
    + apply Z.ltb_ge. lia.
    + intros E. specialize (Hdeltas Hp Hlen). fold deltas in E.
      rewrite E in Hdeltas. cbn in Hdeltas. lia.
    + exists r. split; [exact Hrsi|]. split; [exact Hf|exact H100].
Qed.

Lemma rsi_bounded_witness :
  let closes := [100; 102; 101; 105] in
  let deltas := np_diff (np_from closes (- (3 + 1))) in
  let G := pysum (StatisticalAgent.gains deltas) in
  let L := pysum (StatisticalAgent.losses deltas) in
  length deltas = Z.to_nat 3
  /\ exists r,
       StatisticalAgent._calculate_rsi closes 3 = NFinite r
       /\ r * (G + L) == 100 * G
       /\ (r == 100 <-> L == 0).
Proof.
  apply (proj2 (proj2 (rsi_bounded [100; 102; 101; 105] 3))).
  - lia.
  - cbn. lia.
Defined.


(** The score without an SMA signal on its side stays within the RSI's
    0.3. *)
Lemma signal_without_sma (self : StatisticalAgent.t)
    (sma_fast_val sma_slow_val rsi : npfloat) (sentiment : Q) :
  let score :=
    fst (StatisticalAgent.signal self sma_fast_val sma_slow_val rsi sentiment)
  in
  (np_ltb sma_slow_val sma_fast_val = false ->
   sentiment * StatisticalAgent.sentiment_weight self <= 0 ->
   score <= 3 # 10)
  /\ (np_ltb sma_fast_val sma_slow_val = false ->
      0 <= sentiment * StatisticalAgent.sentiment_weight self ->
      - (3 # 10) <= score).
Proof.
  unfold StatisticalAgent.signal.
  destruct (np_ltb sma_slow_val sma_fast_val) eqn:Hup;
    destruct (np_ltb sma_fast_val sma_slow_val) eqn:Hdown;
    destruct (np_ltb rsi (NFinite (StatisticalAgent.rsi_oversold self)));
    destruct (np_ltb (NFinite (StatisticalAgent.rsi_overbought self)) rsi);
    destruct (Qeqb_spec sentiment 0) as [Hs|Hs]; cbn;
    split; intros; try discriminate; lra.
Qed.

(** X27. The statistical agent never raises and only answers HOLD, BUY or
    SELL; it counts the call and keeps its parameters.  It decides BUY
    only without a position and SELL only with one, and in both cases only
    on an observation with at least [sma_slow] rows of prices.  An RSI
    reading alone never trades: when the sentiment term does not push
    upwards a BUY needs the fast average above the slow one, and when it
    does not push downwards a SELL needs the fast average below the slow
    one. *)
Theorem statistical_decide_safe (self : StatisticalAgent.t)
    (observation : option Observation.t) :
  let self' := fst (StatisticalAgent.decide self observation) in
  exists action,
    snd (StatisticalAgent.decide self observation) = Return action
    /\ (action = HOLD \/ action = BUY \/ action = SELL)
    /\ StatisticalAgent.reset self' = StatisticalAgent.reset self
    /\ StatisticalAgent._step_count self'
       = (StatisticalAgent._step_count self + 1)%Z
    /\ (action <> HOLD ->
        exists obs,
          observation = Some obs
          /\ (StatisticalAgent.sma_slow self
              <= Z.of_nat (length (Observation.prices obs)))%Z
          /\ let closes := closes_of (Observation.prices obs) in
             let sma_fast_val :=
               np_mean (np_from closes (- StatisticalAgent.sma_fast self)) in
             let sma_slow_val :=
               np_mean (np_from closes (- StatisticalAgent.sma_slow self)) in
             let push :=
               Observation.sentiment obs
               * StatisticalAgent.sentiment_weight self in
             (action = BUY ->
              Observation.position obs <= 0
              /\ (push <= 0 -> np_ltb sma_slow_val sma_fast_val = true))
             /\ (action = SELL ->
                 0 < Observation.position obs
                 /\ (0 <= push -> np_ltb sma_fast_val sma_slow_val = true))).
Proof.
  cbv zeta. unfold StatisticalAgent.decide.
  destruct observation as [obs|].
  2: { exists HOLD. cbn. repeat split; by auto. }
  cbv zeta.
  cbn [StatisticalAgent.sma_slow StatisticalAgent.sma_fast
       StatisticalAgent.rsi_period StatisticalAgent.count_step].
  destruct (Z.ltb_spec (Z.of_nat (length (Observation.prices obs)))
              (StatisticalAgent.sma_slow self)) as [Hfew|Henough].
  { exists HOLD. cbn. repeat split; by auto. }
  set (closes := closes_of (Observation.prices obs)).
  set (fast := np_mean (np_from closes (- StatisticalAgent.sma_fast self))).
  set (slow := np_mean (np_from closes (- StatisticalAgent.sma_slow self))).
  set (rsi := StatisticalAgent._calculate_rsi closes
                (StatisticalAgent.rsi_period self)).
  pose proof (signal_without_sma (StatisticalAgent.count_step self) fast slow
                rsi (Observation.sentiment obs)) as [Hbuy Hsell].
  cbv zeta in Hbuy, Hsell.
  destruct (StatisticalAgent.signal _ fast slow rsi _) as [score reasons].
  cbn [fst snd StatisticalAgent.count_step StatisticalAgent.sentiment_weight]
    in *.
  eexists. split; [reflexivity|].
  destruct (Qltb_spec (3 # 10) score) as [Hhigh|Hlow];
    destruct (Qltb_spec 0 (Observation.position obs)) as [Hpos|Hflat];
    destruct (Qltb_spec score (- (3 # 10))) as [Hneg|Hnn];
    cbn [andb negb];
    (split; [by auto|]); (split; [done|]); (split; [done|]);
    intros Hact; try done;
    (exists obs; split; [done|]; split; [done|]);
    (split; intros Heq; try discriminate Heq);
    (split; [lra|]); intros Hpush.
  all: match goal with
       | |- np_ltb ?a ?b = true =>
         destruct (np_ltb a b) eqn:E; [done|exfalso]
       end.
  all: try (specialize (Hbuy E Hpush); lra).
  all: try (specialize (Hsell E Hpush); lra).
Qed.

(** * The swing strategy *)

(** What one decision does to the entry price the agent remembers. *)
Lemma swing_decide_cases (self : SwingStrategy.t)
    (observation : option Observation.t) :
  let r := SwingStrategy.decide self observation in
  SwingStrategy.reset (fst r) = SwingStrategy.reset self
  /\ SwingStrategy._step_count (fst r)
     = (SwingStrategy._step_count self + 1)%Z
  /\ ((snd r = Raise IndexError
       /\ (SwingStrategy.sma_period self <= 0)%Z
       /\ exists obs, observation = Some obs /\ Observation.prices obs = [])
      \/ (snd r = Return HOLD
          /\ SwingStrategy._entry_price (fst r)
             = SwingStrategy._entry_price self)
      \/ (snd r = Return BUY
          /\ exists obs,
               observation = Some obs
               /\ Observation.position obs <= 0
               /\ SwingStrategy._entry_price (fst r)
                  = Observation.current_price obs)
      \/ (snd r = Return SELL
          /\ 0 < SwingStrategy._entry_price self
          /\ SwingStrategy._entry_price (fst r) = 0
          /\ exists obs,
               observation = Some obs /\ 0 < Observation.position obs)).
Proof.
  cbv zeta. unfold SwingStrategy.decide.
  destruct observation as [obs|]; [|cbn; by auto 10].
  cbv zeta. cbn [SwingStrategy.sma_period SwingStrategy.count_step].
  destruct (Z.ltb_spec (Z.of_nat (length (Observation.prices obs)))
              (SwingStrategy.sma_period self)) as [Hfew|Henough];
    [cbn; by auto 10|].
  destruct (iloc (Observation.prices obs) (-1)) as [row|] eqn:Hlast.
  2: { cbn. split; [done|]. split; [done|]. left.
       unfold iloc in Hlast. cbn in Hlast.
       destruct (Observation.prices obs) as [|p ps] eqn:Hp.
       - cbn in Henough. split; [done|]. split; [lia|]. by exists obs.
       - exfalso. revert Hlast. cbn [length].
         destruct (Z.leb_spec (- Z.of_nat (S (length ps))) (-1)); [|lia].
         intros Hnone. apply lookup_ge_None in Hnone. cbn [length] in Hnone.
         lia. }
  set (sma := np_mean _).
  assert (forall s : SwingStrategy.t,
    SwingStrategy.reset s = SwingStrategy.reset self ->
    SwingStrategy._step_count s = (SwingStrategy._step_count self + 1)%Z ->
    SwingStrategy._entry_price s = SwingStrategy._entry_price self ->
    let r := SwingStrategy.look_for_entry s
               (0 <? Observation.position obs)
               (Observation.current_price obs) sma
               (Observation.sentiment obs) in
    SwingStrategy.reset (fst r) = SwingStrategy.reset self
    /\ SwingStrategy._step_count (fst r)
       = (SwingStrategy._step_count self + 1)%Z
    /\ ((snd r = Return HOLD
         /\ SwingStrategy._entry_price (fst r)
            = SwingStrategy._entry_price self)
        \/ (snd r = Return BUY
            /\ Observation.position obs <= 0
            /\ SwingStrategy._entry_price (fst r)
               = Observation.current_price obs))) as Hentry.
  { intros s Hcfg Hcount Hprice. cbv zeta.
    unfold SwingStrategy.look_for_entry.
    destruct (Qltb_spec 0 (Observation.position obs)) as [|Hflat];
      cbn [negb]; [cbn; by auto|].
    assert (Observation.position obs <= 0) by lra.
    destruct (_ && _);
      [cbn; split; [done|]; split; [done|]; right; by repeat split|].
    destruct (_ && _); cbn; [|by auto].
    split; [done|]; split; [done|]; right; by repeat split. }
  change (SwingStrategy._entry_price (SwingStrategy.count_step self))
    with (SwingStrategy._entry_price self).
  destruct (Qltb_spec 0 (Observation.position obs)) as [Hpos|Hflat];
    cbn [andb].
  2: { destruct (Hentry (SwingStrategy.count_step self))
         as (H1 & H2 & [H3|(H3 & H4 & H5)]); try done;
         (split; [exact H1|]); (split; [exact H2|]); [by auto|].
       right; right; left. split; [done|]. by exists obs. }
  destruct (Qltb_spec 0 (SwingStrategy._entry_price self)) as [Hentered|Hnot].
  2: { cbv iota. destruct (Hentry (SwingStrategy.count_step self))
         as (H1 & H2 & [H3|(H3 & H4 & H5)]); try done; try lra;
         (split; [exact H1|]); (split; [exact H2|]); by auto. }
  cbv iota.
  destruct (_ <=? _); [cbn; split; [done|]; split; [done|];
                       do 3 right; repeat split; by eauto|].
  destruct (_ <=? _); [cbn; split; [done|]; split; [done|];
                       do 3 right; repeat split; by eauto|].
  destruct (np_ltb _ _); [cbn; split; [done|]; split; [done|];
                          do 3 right; repeat split; by eauto|].
  destruct (Hentry (SwingStrategy.count_step self))
    as (H1 & H2 & [H3|(H3 & H4 & H5)]); try done; try lra;
    (split; [exact H1|]); (split; [exact H2|]); by auto.
Qed.

Lemma sells_follow_buys_armed (actions : list Z) :
  sells_follow_buys false actions -> sells_follow_buys true actions.
Proof.
  induction actions as [|a actions IH]; [done|]. cbn.
  destruct (a =? SELL)%Z; [by intros [? _]|].
  by destruct (a =? BUY)%Z.
Qed.

(** X28. The swing strategy sells only what it has bought: on any sequence
    of observations that it decides without raising, every SELL comes after
    a BUY that no earlier SELL has used, the first SELL of an agent that
    remembers no entry price (as after [reset]) included; it takes one
    decision per observation and keeps its parameters.  It raises, with
    [IndexError], only on an observation without any price row, which needs
    [sma_period <= 0]. *)
Theorem swing_sells_follow_buys (self : SwingStrategy.t)
    (observations : list (option Observation.t)) :
  (1 <= SwingStrategy.sma_period self)%Z
  \/ Forall (fun o => forall obs, o = Some obs -> Observation.prices obs <> [])
       observations ->
  exists agent' actions,
    decisions SwingStrategy.decide self observations
    = (agent', Return actions)
    /\ length actions = length observations
    /\ sells_follow_buys (0 <? SwingStrategy._entry_price self) actions
    /\ SwingStrategy.reset agent' = SwingStrategy.reset self
    /\ SwingStrategy._step_count agent'
       = (SwingStrategy._step_count self + Z.of_nat (length observations))%Z.
Proof.
  revert self.
  induction observations as [|o rest IH]; intros self Hsafe.
  { exists self, []. cbn. repeat split. lia. }
  cbn [decisions].
  destruct (swing_decide_cases self o) as (Hcfg & Hcount & Hcases).
  cbv zeta in *.
  destruct (SwingStrategy.decide self o) as [s1 out]. cbn [fst snd] in *.
  assert (SwingStrategy.sma_period s1 = SwingStrategy.sma_period self)
    as Hperiod by (by injection Hcfg).
  destruct (IH s1) as (agent' & actions & -> & Hlen & Htrace & Hcfg' & Hcount').
  { destruct Hsafe as [Hp|Hall]; [left; lia|right].
    by inversion Hall. }
  destruct Hcases as [(-> & Hp & obs & -> & Hnil)
                     |[(-> & He)
                      |[(-> & obs & -> & Hflat & He)
                       |(-> & Hentered & He & obs & -> & Hpos)]]].
  - exfalso. destruct Hsafe as [Hp'|Hall]; [lia|].
    inversion Hall as [|? ? Ho _]; subst. by apply (Ho obs).
  - exists agent', (HOLD :: actions). cbn [length sells_follow_buys].
    rewrite He in Htrace. cbn.
    repeat split; [by rewrite Hlen|exact Htrace|congruence|lia].
  - exists agent', (BUY :: actions). cbn [length sells_follow_buys]. cbn.
    repeat split; [by rewrite Hlen| |congruence|lia].
    destruct (0 <? SwingStrategy._entry_price s1);
      [exact Htrace|by apply sells_follow_buys_armed].
  - exists agent', (SELL :: actions). cbn [length sells_follow_buys]. cbn.
    rewrite He in Htrace.
    destruct (Qltb_spec 0 (SwingStrategy._entry_price self)); [|done].
    destruct (Qltb_spec 0 0); [lra|].
    repeat split; [by rewrite Hlen|exact Htrace|congruence|lia].
Qed.

Lemma swing_sells_follow_buys_witness :
  let self := SwingStrategy.init 2 (5 # 100) (10 # 100) (1 # 10) in
  let observations := [Some observation_risen; Some observation_dropped] in
  exists agent' actions,
    decisions SwingStrategy.decide self observations
    = (agent', Return actions)
    /\ length actions = length observations
    /\ sells_follow_buys (0 <? SwingStrategy._entry_price self) actions
    /\ SwingStrategy.reset agent' = SwingStrategy.reset self
    /\ SwingStrategy._step_count agent'
       = (SwingStrategy._step_count self + Z.of_nat (length observations))%Z.
Proof.
  apply (swing_sells_follow_buys
           (SwingStrategy.init 2 (5 # 100) (10 # 100) (1 # 10))
           [Some observation_risen; Some observation_dropped]).
  left. cbn. lia.
Defined.

(** X29. The exits of the swing strategy are honoured: on an observation
    with enough price rows, while a position is held and an entry price is
    remembered, a price at or below entry * (1 - stop_loss_pct) or at or
    above entry * (1 + take_profit_pct) always gives SELL and clears the
    entry price.  While holding, the strategy never decides BUY; it decides
    SELL only for the stop-loss, the take-profit or a price below 98% of
    the moving average, and otherwise HOLD with the entry price kept. *)
Theorem swing_exits_honoured (self : SwingStrategy.t) (obs : Observation.t) :
  (SwingStrategy.sma_period self
   <= Z.of_nat (length (Observation.prices obs)))%Z ->
  Observation.prices obs <> [] ->
  0 < Observation.position obs ->
  0 < SwingStrategy._entry_price self ->
  let r := SwingStrategy.decide self (Some obs) in
  let entry := SwingStrategy._entry_price self in
  let price := Observation.current_price obs in
  let sma :=
    np_mean (np_from (closes_of (Observation.prices obs))
               (- SwingStrategy.sma_period self)) in
  let stop := price <= entry * (1 - SwingStrategy.stop_loss_pct self) in
  let take := entry * (1 + SwingStrategy.take_profit_pct self) <= price in
  let trend := np_ltb (NFinite price) (np_mul sma (98 # 100)) = true in
  (snd r = Return SELL /\ SwingStrategy._entry_price (fst r) = 0
   /\ (stop \/ take \/ trend))
  \/ (snd r = Return HOLD /\ SwingStrategy._entry_price (fst r) = entry
      /\ ~ stop /\ ~ take /\ ~ trend).
Proof.
  intros Henough Hprices Hpos Hentered. cbv zeta.
  unfold SwingStrategy.decide. cbv zeta.
  cbn [SwingStrategy.sma_period SwingStrategy.count_step
       SwingStrategy._entry_price SwingStrategy.stop_loss_pct
       SwingStrategy.take_profit_pct].
  destruct (Z.ltb_spec (Z.of_nat (length (Observation.prices obs)))
              (SwingStrategy.sma_period self)); [lia|].
  destruct (iloc (Observation.prices obs) (-1)) as [row|] eqn:Hlast.
  2: { exfalso. unfold iloc in Hlast. cbn in Hlast.
       destruct (Observation.prices obs) as [|p ps]; [done|].
       revert Hlast. cbn [length].
       destruct (Z.leb_spec (- Z.of_nat (S (length ps))) (-1)); [|lia].
       intros Hnone. apply lookup_ge_None in Hnone. cbn [length] in Hnone.
       lia. }
  set (entry := SwingStrategy._entry_price self) in *.
  set (price := Observation.current_price obs).
  set (sma := np_mean _).
  set (pnl := (price - entry) / entry).
  assert (pnl * entry == price - entry) as Hpnl by (unfold pnl; field; lra).
  destruct (Qltb_spec 0 (Observation.position obs)); [|done].
  destruct (Qltb_spec 0 entry); [|done]. cbn [andb].
  destruct (Qleb_spec pnl (- SwingStrategy.stop_loss_pct self)) as [Hsl|Hsl].
  { left. cbn. repeat split. left. nra. }
  destruct (Qleb_spec (SwingStrategy.take_profit_pct self) pnl) as [Htp|Htp].
  { left. cbn. repeat split. right; left. nra. }
  destruct (np_ltb (NFinite price) (np_mul sma (98 # 100))) eqn:Htrend.
  { left. cbn. repeat split. by right; right. }
  right. unfold SwingStrategy.look_for_entry. cbn.
  repeat split; [nra|nra|done].
Qed.

Lemma swing_exits_honoured_witness :
  let self :=
    SwingStrategy.set_entry_price
      (SwingStrategy.init 2 (5 # 100) (10 # 100) (1 # 10)) 105 in
  let r := SwingStrategy.decide self (Some observation_dropped) in
  snd r = Return SELL /\ SwingStrategy._entry_price (fst r) = 0.
Proof.
  destruct (swing_exits_honoured
              (SwingStrategy.set_entry_price
                 (SwingStrategy.init 2 (5 # 100) (10 # 100) (1 # 10)) 105)
              observation_dropped)
    as [(Hsell & Hentry & _)|(Hhold & _)].
  - cbn. lia.
  - discriminate.
  - reflexivity.
  - reflexivity.
  - split; [exact Hsell|exact Hentry].
  - discriminate Hhold.
Defined.

(** An observation of an engine that looks back at least one row has a price
    row. *)
Lemma engine_observation_prices (data : list Row.t) (window_size : Z)
    (o : Observation.t) :
  (1 <= window_size)%Z ->
  engine_observation data window_size o ->
  length (Observation.prices o) = Z.to_nat window_size.
Proof.
  intros Hw (env & _ & Hws & Hcs & Hobs).
  destruct (iloc (TradingEnvironment.data env)
              (TradingEnvironment.current_step env)) as [row|] eqn:Hrow.
  2: { revert Hobs. unfold TradingEnvironment._get_observation.
       by rewrite Hrow. }
  destruct (get_observation_at_row env row Hrow)
    as (obs & Hobs' & _ & _ & _ & _ & _ & _ & _ & _ & _ & Hlen).
  rewrite Hobs' in Hobs. injection Hobs as <-.
  rewrite Hlen; lia.
Qed.

Lemma backtest_terminates_witness :
  let agent := SwingStrategy.init 0 (5 # 100) (10 # 100) (1 # 10) in
  exists agent' observations actions,
    length actions = steps_available rows_A 1
    /\ length observations = steps_available rows_A 1
    /\ simulate SwingStrategy.decide 0%Z 2 agent
         (TradingEnvironment.init rows_A 100 (1 # 1000) (5 # 10000) (1 # 2)
            1%Z "BTCUSDT" (5 # 100))
       = Some (Return
           (agent',
            engine_after 0%Z rows_A 100 (1 # 1000) (5 # 10000) (1 # 2) 1%Z
              "BTCUSDT" (5 # 100) actions))
    /\ decisions SwingStrategy.decide agent (map Some observations)
       = (agent', Return actions)
    /\ (forall i o,
          observations !! i = Some o ->
          TradingEnvironment._get_observation
            (engine_after 0%Z rows_A 100 (1 # 1000) (5 # 10000) (1 # 2) 1%Z
               "BTCUSDT" (5 # 100) (take i actions)) = Return o)
    /\ SwingStrategy.sma_period agent' = 0%Z
    /\ let e :=
         engine_after 0%Z rows_A 100 (1 # 1000) (5 # 10000) (1 # 2) 1%Z
           "BTCUSDT" (5 # 100) actions in
       TradingEnvironment.done e = true
       /\ length (TradingEnvironment.equity_curve e)
          = steps_available rows_A 1
       /\ TradingEnvironment.current_step e
          = (Z.of_nat (length rows_A) - 1)%Z.
Proof.
  apply (backtest_terminates SwingStrategy.decide 0%Z
           (fun s => SwingStrategy.sma_period s = 0%Z) rows_A
           100 (1 # 1000) (5 # 10000) (1 # 2) 1%Z "BTCUSDT" (5 # 100)
           (SwingStrategy.init 0 (5 # 100) (10 # 100) (1 # 10)) 2).
  - intros s o Hs Ho.
    pose proof (engine_observation_prices rows_A 1 o) as Hrows.
    destruct (swing_decide_cases s (Some o))
      as (Hcfg & _ & [(_ & _ & obs & [= <-] & Hnil)
                     |[(H & _)|[(H & _)|(H & _)]]]).
    + exfalso. rewrite Hnil in Hrows. cbn in Hrows.
      specialize (Hrows ltac:(lia) Ho). lia.
    + eexists. split; [exact H|]. rewrite <- Hs.
      exact (f_equal SwingStrategy.sma_period Hcfg).
    + eexists. split; [exact H|]. rewrite <- Hs.
      exact (f_equal SwingStrategy.sma_period Hcfg).
    + eexists. split; [exact H|]. rewrite <- Hs.
      exact (f_equal SwingStrategy.sma_period Hcfg).
  - reflexivity.
  - lia.
  - vm_compute. discriminate.
  - repeat constructor.
  - vm_compute. discriminate.
  - vm_compute. lia.
Defined.

(** * The contrarian strategy *)

Lemma manage_position_cases (self : ContrarianStrategy.t) (price : Q) :
  let r := ContrarianStrategy.manage_position self price in
  ContrarianStrategy.reset (fst r) = ContrarianStrategy.reset self
  /\ ContrarianStrategy._step_count (fst r)
     = ContrarianStrategy._step_count self
  /\ ((snd r = Return SELL
       /\ ContrarianStrategy._hold_counter (fst r) = 0%Z
       /\ ContrarianStrategy._entry_price (fst r) = 0)
      \/ (snd r = Return HOLD
          /\ ContrarianStrategy._hold_counter (fst r)
             = (ContrarianStrategy._hold_counter self + 1)%Z
          /\ (ContrarianStrategy._hold_counter self + 1
              < ContrarianStrategy.max_hold_periods self)%Z
          /\ ContrarianStrategy._entry_price (fst r)
             = ContrarianStrategy._entry_price self)).
Proof.
  cbv zeta. unfold ContrarianStrategy.manage_position. cbv zeta.
  cbn [ContrarianStrategy._entry_price ContrarianStrategy.set_position
       ContrarianStrategy.stop_loss_pct ContrarianStrategy.max_hold_periods
       ContrarianStrategy._hold_counter
       ContrarianStrategy.price_spike_threshold].
  destruct (np_leb _ _);
    [cbn; split; [done|]; split; [done|]; left; by repeat split|].
  destruct (Z.leb_spec (ContrarianStrategy.max_hold_periods self)
              (ContrarianStrategy._hold_counter self + 1));
    [cbn; split; [done|]; split; [done|]; left; by repeat split|].
  destruct (np_leb _ _);
    [cbn; split; [done|]; split; [done|]; left; by repeat split|].
  cbn. split; [done|]. split; [done|]. right. by repeat split.
Qed.

Lemma contrarian_decide_holding (self : ContrarianStrategy.t)
    (obs : Observation.t) :
  (10 <= Z.of_nat (length (Observation.prices obs)))%Z ->
  0 < Observation.position obs ->
  ContrarianStrategy.decide self (Some obs)
  = ContrarianStrategy.manage_position (ContrarianStrategy.count_step self)
      (Observation.current_price obs).
Proof.
  intros Hrows Hpos. unfold ContrarianStrategy.decide. cbv zeta.
  destruct (Z.ltb_spec (Z.of_nat (length (Observation.prices obs))) 10);
    [lia|].
  destruct (iloc (Observation.prices obs) (-1)) as [row|] eqn:Hlast.
  2: { exfalso. unfold iloc in Hlast. cbn in Hlast.
       destruct (Observation.prices obs) as [|p ps]; [cbn in Hrows; lia|].
       revert Hlast. cbn [length].
       destruct (Z.leb_spec (- Z.of_nat (S (length ps))) (-1)); [|lia].
       intros Hnone. apply lookup_ge_None in Hnone. cbn [length] in Hnone.
       lia. }
  by destruct (Qltb_spec 0 (Observation.position obs)).
Qed.

Lemma contrarian_exit_run (n : nat) :
  forall (observations : list (option Observation.t))
         (self : ContrarianStrategy.t),
    Forall holding_observation observations ->
    (1 <= n <= length observations)%nat ->
    (ContrarianStrategy.max_hold_periods self
     - ContrarianStrategy._hold_counter self <= Z.of_nat n)%Z ->
    exists j agent',
      (j < n)%nat
      /\ decisions ContrarianStrategy.decide self (take (S j) observations)
         = (agent', Return (repeat HOLD j ++ [SELL]))
      /\ ContrarianStrategy._hold_counter agent' = 0%Z
      /\ ContrarianStrategy._entry_price agent' = 0
      /\ ContrarianStrategy._step_count agent'
         = (ContrarianStrategy._step_count self + Z.of_nat (S j))%Z
      /\ ContrarianStrategy.reset agent' = ContrarianStrategy.reset self.
Proof.
  induction n as [|n IH]; intros observations self Hall Hn HM; [lia|].
  destruct Hall as [|o rest (obs & -> & Hrows & Hpos) Hrest];
    [cbn in Hn; lia|].
  pose proof (contrarian_decide_holding self obs Hrows Hpos) as Hdec.
  destruct (manage_position_cases (ContrarianStrategy.count_step self)
              (Observation.current_price obs)) as (Hcfg & Hcount & Hcases).
  cbv zeta in *.
  destruct (ContrarianStrategy.manage_position _ _) as [s1 out].
  cbn [fst snd] in *.
  destruct Hcases as [(-> & Hc & He)|(-> & Hc & Hlt & _)].
  - exists 0%nat, s1. cbn [take decisions repeat app]. rewrite Hdec.
    cbn in Hcount. repeat split; try done; lia.
  - cbn in Hlt, Hcount.
    assert (ContrarianStrategy.max_hold_periods s1
            = ContrarianStrategy.max_hold_periods self) as HM1
      by (by injection Hcfg).
    destruct (IH rest s1 Hrest)
      as (j & agent' & Hj & Hrun & Hc' & He' & Hcount' & Hcfg').
    { cbn [length] in Hn. lia. }
    { rewrite HM1, Hc. cbn. lia. }
    exists (S j), agent'. cbn [take decisions repeat app].
    rewrite Hdec, Hrun.
    repeat split; try done; try lia; by rewrite Hcfg'.
Qed.

(** X30. The contrarian strategy does not stay in a position for longer
    than [max_hold_periods]: fed observations on which a position is held,
    an agent that remembers an entry price other than 0 (the divisor of its
    P&L ratio) decides HOLD at most
    max(1, max_hold_periods - _hold_counter) - 1 times and then SELL,
    without raising and without a BUY in between, and the SELL clears its
    entry price and its counter; a position entered by its own BUY, which
    sets the counter to 0, is therefore closed within
    max(1, max_hold_periods) decisions. *)
Theorem contrarian_time_exit (self : ContrarianStrategy.t)
    (observations : list (option Observation.t)) :
  let n :=
    Z.to_nat
      (Z.max 1 (ContrarianStrategy.max_hold_periods self
                - ContrarianStrategy._hold_counter self)) in
  ~ ContrarianStrategy._entry_price self == 0 ->
  Forall holding_observation observations ->
  (n <= length observations)%nat ->
  exists j agent',
    (j < n)%nat
    /\ decisions ContrarianStrategy.decide self (take (S j) observations)
       = (agent', Return (repeat HOLD j ++ [SELL]))
    /\ ContrarianStrategy._hold_counter agent' = 0%Z
    /\ ContrarianStrategy._entry_price agent' = 0
    /\ ContrarianStrategy._step_count agent'
       = (ContrarianStrategy._step_count self + Z.of_nat (S j))%Z
    /\ ContrarianStrategy.reset agent' = ContrarianStrategy.reset self.
Proof.
  intros n _ Hall Hn.
  apply contrarian_exit_run; [exact Hall|lia|lia].
Qed.

Lemma contrarian_time_exit_witness :
  let self :=
    ContrarianStrategy.set_position
      (ContrarianStrategy.init (3 # 100) 3 (1 # 2) 2 (3 # 100)) 100 0%Z
      (Some "contrarian_long") in
  let observations := [Some observation_held; Some observation_held] in
  exists j agent',
    (j < 2)%nat
    /\ decisions ContrarianStrategy.decide self (take (S j) observations)
       = (agent', Return (repeat HOLD j ++ [SELL]))
    /\ ContrarianStrategy._hold_counter agent' = 0%Z
    /\ ContrarianStrategy._entry_price agent' = 0
    /\ ContrarianStrategy._step_count agent'
       = (ContrarianStrategy._step_count self + Z.of_nat (S j))%Z
    /\ ContrarianStrategy.reset agent' = ContrarianStrategy.reset self.
Proof.
  apply (contrarian_time_exit
           (ContrarianStrategy.set_position
              (ContrarianStrategy.init (3 # 100) 3 (1 # 2) 2 (3 # 100)) 100
              0%Z (Some "contrarian_long"))
           [Some observation_held; Some observation_held]).
  - cbn. discriminate.
  - assert (holding_observation (Some observation_held)) as Hheld.
    { exists observation_held. split; [reflexivity|].
      split; [cbn; lia|reflexivity]. }
    constructor; [exact Hheld|]. constructor; [exact Hheld|]. constructor.
  - cbn. lia.
Defined.
